(** * Astronaut wellness dashboard: the mood-gating state machine

    A shallow embedding of the event-driven core of the dashboard script:
    the face/mood tracker ([FaceMoodDetection.updateCurrentEmotion]), the
    Bluetooth heart-rate aggregator ([BluetoothHeartRateMonitor]), the games
    gate and redirect counter of [initDashboard], the spoken [MoodCounselor]
    and the retry loop of [MaitriAssistant.analyzeToneAndRespond].

    Conventions of the embedding.
    - Every handler is a function from the object's fields (a record) and
      its arguments to the new fields and the list of effects it performs,
      in program order.  [Date.now()] is an argument of the handler.
    - [null] and [undefined] are [None]; the source never tells them apart
      (it reads them through [x || null], [x == null] or a truthiness test).
    - Integers are [Z].  The rolling average is a JavaScript double obtained
      by dividing two small exact integers; it is modelled by the exact
      rational [Q], see [BluetoothHeartRateMonitor.average]. *)

From Stdlib Require Import ZArith QArith List String Bool Lia.
From stdpp Require Import base decidable list strings.
Import ListNotations.
Open Scope Z_scope.

(** ** Shared data *)

(** The labels of the expression classifier; [emotionConfig] has one entry
    for each of them, so [emotionConfig[emotion].emoji] is always defined. *)
Inductive Emotion : Set :=
| happy | sad | angry | surprised | neutral | fearful | disgusted.

#[global] Instance Emotion_eq_dec : EqDecision Emotion.
Proof. solve_decision. Defined.

(** The three [CustomEvent]s dispatched on [window], with their [detail]. *)
Inductive CustomEvent : Type :=
| emotionchange (emotion : option Emotion) (at_ : Z)
| heartrate (value : Z) (average : Q) (at_ : Z)
| stressdetected (type : string) (value : Z) (average : Q) (at_ : Z).

(** The global [window.currentEmotion]; [None] until the tracker writes it. *)
Record Window : Type := { currentEmotion : option Emotion }.

Definition window0 : Window := {| currentEmotion := None |}.

(** The page elements the handlers look up.  [detected_mood] tells whether
    [getElementById('detected-mood')] finds an element; the two gate
    elements carry the attribute the gate writes ([disabled] of the button,
    [aria-disabled] of the link) when they exist. *)
Record Document : Type := {
  detected_mood : bool;
  play_games_btn : option bool;
  play_games_link : option bool
}.

(** A page that has every element the handlers look up, the gate closed. *)
Definition full_page : Document :=
  {| detected_mood := true; play_games_btn := Some true; play_games_link := Some true |}.

(** Feeding a list of inputs to a handler, collecting the effects in order. *)
Fixpoint run {S I O : Type} (step : S -> I -> S * list O) (s : S) (inputs : list I)
  : S * list O :=
  match inputs with
  | [] => (s, [])
  | i :: rest =>
      let '(s1, out1) := step s i in
      let '(s2, out2) := run step s1 rest in
      (s2, out1 ++ out2)
  end.

(** The same, keeping for every input the state it leaves and its effects. *)
Fixpoint steps {S I O : Type} (step : S -> I -> S * list O) (s : S) (inputs : list I)
  : list (S * list O) :=
  match inputs with
  | [] => []
  | i :: rest =>
      let r := step s i in
      r :: steps step (fst r) rest
  end.

(** The last [n] elements of a list, all of it when it is shorter. *)
Definition lastn {A : Type} (n : nat) (l : list A) : list A :=
  drop (length l - n) l.

(** The arithmetic mean of a list of integers. *)
Definition mean (l : list Z) : Q :=
  (inject_Z (foldr Z.add 0%Z l) / inject_Z (Z.of_nat (length l)))%Q.

(** ** Face and mood detection *)

Module FaceMoodDetection.

Record t : Type := { lastEmotion : option Emotion }.

(** The constructor: [this.lastEmotion = null]. *)
Definition new : t := {| lastEmotion := None |}.

(** [updateCurrentEmotion(emotionData)].  [emotionData] is [null] or an
    object [{ emotion }].  The text written into the element is not
    modelled. *)
Definition updateCurrentEmotion (doc : Document) (st : t * Window)
    (arg : option Emotion * Z) : (t * Window) * list CustomEvent :=
  let '(self, w) := st in
  let '(emotionData, now) := arg in
  if negb (detected_mood doc) then (st, [])
  else
    match emotionData with
    | Some emotion =>
        if bool_decide (lastEmotion self <> Some emotion) then
          (({| lastEmotion := Some emotion |}, {| currentEmotion := Some emotion |}),
           [emotionchange (Some emotion) now])
        else (st, [])
    | None =>
        if bool_decide (lastEmotion self <> None) then
          (({| lastEmotion := None |}, {| currentEmotion := None |}),
           [emotionchange None now])
        else (st, [])
    end.

(** The emotions carried by the [emotionchange] events of a trace. *)
Definition emitted (evs : list CustomEvent) : list (option Emotion) :=
  flat_map (fun ev => match ev with emotionchange e _ => [e] | _ => [] end) evs.

(** The tracker of a freshly loaded page fed a list of observations. *)
Definition observe (doc : Document) (obs : list (option Emotion * Z))
  : (t * Window) * list CustomEvent :=
  run (updateCurrentEmotion doc) (new, window0) obs.

End FaceMoodDetection.

(** Maximal runs of identical consecutive values, as (value, length) pairs. *)
Fixpoint runs {A : Type} `{EqDecision A} (l : list A) : list (A * nat) :=
  match l with
  | [] => []
  | x :: rest =>
      match runs rest with
      | (y, n) :: more =>
          if decide (x = y) then (x, Datatypes.S n) :: more else (x, 1%nat) :: (y, n) :: more
      | [] => [(x, 1%nat)]
      end
  end.

(** ** Bluetooth heart-rate monitoring *)

Module BluetoothHeartRateMonitor.

Record t : Type := {
  heartRateData : list Z;
  stressThreshold : Z;
  avgWindow : Z
}.

(** The constructor: an empty window, threshold 100 BPM, ten readings. *)
Definition new : t :=
  {| heartRateData := []; stressThreshold := 100; avgWindow := 10 |}.

(** [data[i]] of the [Uint8Array] over the characteristic's buffer.  An
    index past the end reads [undefined]; the only such read is
    [data[2] << 8], where [undefined] converts to 0. *)
Definition byte_at (data : list Byte.byte) (i : nat) : Z :=
  match data !! i with
  | Some b => Z.of_N (Byte.to_N b)
  | None => 0
  end.

(** [parseHeartRate(value)]: bit 0 of the flags byte selects the 16-bit
    little-endian format.  All values stay below 2^16, so the 32-bit
    wrap-around of JavaScript's [|] and [<<] never applies. *)
Definition parseHeartRate (data : list Byte.byte) : Z :=
  if (2 <=? Z.of_nat (length data)) then
    if negb (Z.land (byte_at data 0) 1 =? 0) then
      Z.lor (byte_at data 1) (Z.shiftl (byte_at data 2) 8)
    else byte_at data 1
  else 0.

(** [arr.reduce((a, b) => a + b, 0)]. *)
Definition sum (arr : list Z) : Z := fold_left Z.add arr 0.

(** [sum / arr.length].  The source computes a double; numerator and
    denominator are exact integers far below 2^53 and rounding is
    monotone, so the comparison with the integer threshold agrees with
    the comparison of the exact quotient modelled here.  On an empty
    array the source yields NaN; no call site passes one. *)
Definition average (arr : list Z) : Q :=
  (inject_Z (sum arr) / inject_Z (Z.of_nat (length arr)))%Q.

(** [a > b] on averages. *)
Definition Qgtb (a b : Q) : bool := negb (Qle_bool a b).

(** [arr.push(x)] followed by [arr.shift()] when the length exceeds [cap]. *)
Definition push_shift (cap : Z) (arr : list Z) (x : Z) : list Z :=
  let pushed := arr ++ [x] in
  if (cap <? Z.of_nat (length pushed)) then tail pushed else pushed.

Definition set_heartRateData (self : t) (arr : list Z) : t :=
  {| heartRateData := arr;
     stressThreshold := stressThreshold self;
     avgWindow := avgWindow self |}.

(** [updateHeartRate(heartRate)]; the text written to the page is not
    modelled. *)
Definition updateHeartRate (self : t) (heartRate now : Z) : t * list CustomEvent :=
  let self' := set_heartRateData self (push_shift (avgWindow self) (heartRateData self) heartRate) in
  (self', [heartrate heartRate (average (heartRateData self')) now]).

(** [triggerStressRelief()].  [arr[arr.length - 1]] is [undefined] on an
    empty array, which [checkForStress] never lets through. *)
Definition triggerStressRelief (self : t) (now : Z) : list CustomEvent :=
  [stressdetected "high_heart_rate"
     (default 0 (last (heartRateData self)))
     (average (heartRateData self)) now].

(** [checkForStress(heartRate)]. *)
Definition checkForStress (self : t) (heartRate now : Z) : list CustomEvent :=
  if (Z.of_nat (length (heartRateData self)) <? 3) then []
  else
    let avgHeartRate := average (heartRateData self) in
    if Qgtb avgHeartRate (inject_Z (stressThreshold self))
       && (5 <=? Z.of_nat (length (heartRateData self)))
    then triggerStressRelief self now
    else [].

(** One notification of the characteristic: the bytes of its buffer and
    the two readings of the clock, the first taken in [updateHeartRate],
    the second in [triggerStressRelief]. *)
Definition Notification : Type := list Byte.byte * (Z * Z).

(** [onHeartRateChanged(event)]. *)
Definition onHeartRateChanged (self : t) (ev : Notification) : t * list CustomEvent :=
  let '(data, (now, now')) := ev in
  let heartRate := parseHeartRate data in
  if (0 <? heartRate) then
    let '(self', evs) := updateHeartRate self heartRate now in
    (self', evs ++ checkForStress self' heartRate now')
  else (self, []).

(** The readings a list of notifications delivers that pass the guard. *)
Definition accepted (evs : list Notification) : list Z :=
  filter (fun h => 0 < h) (map (fun ev => parseHeartRate (fst ev)) evs).

Definition is_heartrate (ev : CustomEvent) : bool :=
  match ev with heartrate _ _ _ => true | _ => false end.

Definition is_stressdetected (ev : CustomEvent) : bool :=
  match ev with stressdetected _ _ _ _ => true | _ => false end.

(** A notification in the 8-bit format (flags byte 0) carrying [bpm],
    both clock readings being [now]. *)
Definition reading (bpm : Byte.byte) (now : Z) : Notification :=
  ([Byte.x00; bpm], (now, now)).

(** The stream 70, 72, 150, 155, 160, one reading a second. *)
Definition rising_stream : list Notification :=
  [reading Byte.x46 0; reading Byte.x48 1000; reading Byte.x96 2000;
   reading Byte.x9b 3000; reading Byte.xa0 4000].

(** A monitor freshly constructed and fed a list of notifications. *)
Definition monitor (evs : list Notification) : t * list CustomEvent :=
  run onHeartRateChanged new evs.

End BluetoothHeartRateMonitor.

(** ** Dashboard: games gate and redirect counter *)

Module Dashboard.

(** The two variables the [emotionchange] listener closes over. *)
Record t : Type := { sadMoodCount : Z; hasRedirected : bool }.

Inductive Effect : Type :=
| Navigate (href : string).

(** [updateGamesGate(emotion)]: writes [locked] to the button and to the
    link, each only if it exists. *)
Definition updateGamesGate (doc : Document) (emotion : option Emotion) : Document :=
  let locked := bool_decide (emotion <> Some sad) in
  {| detected_mood := detected_mood doc;
     play_games_btn := (fun _ => locked) <$> play_games_btn doc;
     play_games_link := (fun _ => locked) <$> play_games_link doc |}.

(** The part of [initDashboard] from the first call of [updateGamesGate]
    to the pre-seed of the counter at its end. *)
Definition initDashboard (w : Window) (doc : Document) : t * Document :=
  let doc' := updateGamesGate doc (currentEmotion w) in
  let sadMoodCount0 := 0 in
  let hasRedirected0 := false in
  ({| sadMoodCount :=
        if bool_decide (currentEmotion w = Some sad) then sadMoodCount0 + 1 else sadMoodCount0;
      hasRedirected := hasRedirected0 |}, doc').

(** The [emotionchange] listener, on the emotion of the event's detail. *)
Definition onEmotionChange (st : t * Document) (emotion : option Emotion)
  : (t * Document) * list Effect :=
  let '(self, doc) := st in
  let doc' := updateGamesGate doc emotion in
  if bool_decide (emotion = Some sad) then
    let count := sadMoodCount self + 1 in
    if negb (hasRedirected self) && (3 <=? count) then
      (({| sadMoodCount := count; hasRedirected := true |}, doc'), [Navigate "games.html"])
    else
      (({| sadMoodCount := count; hasRedirected := hasRedirected self |}, doc'), [])
  else ((self, doc'), []).

(** The listener is registered for [emotionchange] only. *)
Definition listener (st : t * Document) (ev : CustomEvent) : (t * Document) * list Effect :=
  match ev with
  | emotionchange emotion _ => onEmotionChange st emotion
  | _ => (st, [])
  end.

(** The gate reads unlocked when the button exists and is not disabled. *)
Definition unlocked (doc : Document) : bool :=
  match play_games_btn doc with
  | Some locked => negb locked
  | None => false
  end.

(** The emotions of the [emotionchange] events of a stream. *)
Definition emotions_of (evs : list CustomEvent) : list (option Emotion) :=
  flat_map (fun ev => match ev with emotionchange e _ => [e] | _ => [] end) evs.

(** The number of events of a stream that carry [sad]. *)
Definition sad_events (emotions : list (option Emotion)) : Z :=
  Z.of_nat (length (filter (fun e => e = Some sad) emotions)).

End Dashboard.

(** ** Mood-aware voice counselor *)

Module MoodCounselor.

(** The [options] object; a missing property is [None]. *)
Record Options : Type := {
  opt_triggerEmotion : option Emotion;
  opt_sustainMs : option Z;
  opt_cooldownMs : option Z;
  opt_messages : option (list string)
}.

Definition no_options : Options :=
  {| opt_triggerEmotion := None; opt_sustainMs := None;
     opt_cooldownMs := None; opt_messages := None |}.

(** [x || d] on a number: 0 is falsy. *)
Definition num_or (x : option Z) (d : Z) : Z :=
  match x with
  | Some v => if (v =? 0) then d else v
  | None => d
  end.

Definition default_messages : list string :=
  [ "I notice you might be feeling a bit low. I'm here with you.";
    "It's okay to feel sad sometimes. Would you like a short breathing exercise?";
    "Try a slow breath with me: inhale for 4, hold for 4, exhale for 6.";
    "You are doing your best. Small steps still count." ]%string.

(** The fields of the object, and [suspended]: the [_speakSupport] call
    waiting at its [await], as the lines left to speak after the one
    being spoken.  [None] when no call is waiting. *)
Record t : Type := {
  triggerEmotion : Emotion;
  sustainMs : Z;
  cooldownMs : Z;
  _sadSince : option Z;
  _cooldownUntil : Z;
  _speaking : bool;
  messages : list string;
  suspended : option (list string)
}.

(** The constructor. *)
Definition new (options : Options) : t :=
  {| triggerEmotion := default sad (opt_triggerEmotion options);
     sustainMs := num_or (opt_sustainMs options) 5000;
     cooldownMs := num_or (opt_cooldownMs options) 60000;
     _sadSince := None;
     _cooldownUntil := 0;
     _speaking := false;
     messages := default default_messages (opt_messages options);
     suspended := None |}.

(** The counselor the page creates:
    [new MoodCounselor({ sustainMs: 5000, cooldownMs: 90000 })]. *)
Definition page_counselor : t :=
  new {| opt_triggerEmotion := None; opt_sustainMs := Some 5000;
         opt_cooldownMs := Some 90000; opt_messages := None |}.

Definition set_sadSince (self : t) (v : option Z) : t :=
  {| triggerEmotion := triggerEmotion self; sustainMs := sustainMs self;
     cooldownMs := cooldownMs self; _sadSince := v;
     _cooldownUntil := _cooldownUntil self; _speaking := _speaking self;
     messages := messages self; suspended := suspended self |}.

Definition set_cooldownUntil (self : t) (v : Z) : t :=
  {| triggerEmotion := triggerEmotion self; sustainMs := sustainMs self;
     cooldownMs := cooldownMs self; _sadSince := _sadSince self;
     _cooldownUntil := v; _speaking := _speaking self;
     messages := messages self; suspended := suspended self |}.

Definition set_speaking (self : t) (v : bool) : t :=
  {| triggerEmotion := triggerEmotion self; sustainMs := sustainMs self;
     cooldownMs := cooldownMs self; _sadSince := _sadSince self;
     _cooldownUntil := _cooldownUntil self; _speaking := v;
     messages := messages self; suspended := suspended self |}.

Definition set_suspended (self : t) (v : option (list string)) : t :=
  {| triggerEmotion := triggerEmotion self; sustainMs := sustainMs self;
     cooldownMs := cooldownMs self; _sadSince := _sadSince self;
     _cooldownUntil := _cooldownUntil self; _speaking := _speaking self;
     messages := messages self; suspended := v |}.

(** [SpeakSupport] marks a call of [_speakSupport]; [Speak text] is
    [speechSynthesis.speak] of an utterance with that text. *)
Inductive Effect : Type :=
| SpeakSupport
| Speak (text : string).

#[global] Instance Effect_eq_dec : EqDecision Effect.
Proof. solve_decision. Defined.

(** The [for] loop of [_speakSupport] entered with [lines] left: speak the
    first and wait for its end, or leave the loop and run [finally]. *)
Definition speak_next (self : t) (lines : list string) : t * list Effect :=
  match lines with
  | line :: rest => (set_suspended self (Some rest), [Speak line])
  | [] => (set_suspended (set_speaking self false) None, [])
  end.

(** [_speakSupport()] up to its first [await]; [now] is its own reading
    of the clock. *)
Definition _speakSupport (self : t) (now : Z) : t * list Effect :=
  let self1 := set_speaking self true in
  let self2 := set_cooldownUntil self1 (now + cooldownMs self1) in
  let '(self3, out) := speak_next self2 (messages self2) in
  (self3, SpeakSupport :: out).

(** [_speakSupport()] resumed when the utterance it waits for ends: the
    check of [_sadSince], then the next turn of the loop.  The end of an
    utterance nobody waits for resumes nothing. *)
Definition utteranceEnd (self : t) : t * list Effect :=
  match suspended self with
  | None => (self, [])
  | Some rest =>
      match _sadSince self with
      | None => (set_suspended (set_speaking self false) None, [])
      | Some _ => speak_next self rest
      end
  end.

(** [_onEmotion(e)] on the emotion of the event's detail; [now] is the
    reading of the clock in [_onEmotion], [now'] the one [_speakSupport]
    takes if it is called. *)
Definition _onEmotion (self : t) (emotion : option Emotion) (now now' : Z)
  : t * list Effect :=
  if bool_decide (emotion = Some (triggerEmotion self)) then
    let self1 :=
      match _sadSince self with
      | None => set_sadSince self (Some now)
      | Some _ => self
      end in
    if negb (_speaking self1)
       && (sustainMs self1 <=? now - default 0 (_sadSince self1))
       && (_cooldownUntil self1 <=? now)
    then _speakSupport self1 now'
    else (self1, [])
  else (set_sadSince self None, []).

(** The listener the constructor registers, for [emotionchange] only. *)
Definition listener (self : t) (ev : CustomEvent) (now now' : Z) : t * list Effect :=
  match ev with
  | emotionchange emotion _ => _onEmotion self emotion now now'
  | _ => (self, [])
  end.

(** What happens to the counselor: an [emotionchange] event reaches its
    listener, or the utterance being spoken ends. *)
Inductive Input : Type :=
| OnEmotion (emotion : option Emotion) (now now' : Z)
| UtteranceEnd.

Definition step (self : t) (i : Input) : t * list Effect :=
  match i with
  | OnEmotion emotion now now' => _onEmotion self emotion now now'
  | UtteranceEnd => utteranceEnd self
  end.

(** The guard of [_onEmotion] on a state whose streak start is [since]. *)
Definition guard (self : t) (since now : Z) : bool :=
  negb (_speaking self) && (sustainMs self <=? now - since) && (_cooldownUntil self <=? now).

(** The number of calls of [_speakSupport] in a trace. *)
Definition sequences (out : list Effect) : nat :=
  length (filter (fun e => e = SpeakSupport) out).

(** The texts spoken in a trace. *)
Definition spoken (out : list Effect) : list string :=
  flat_map (fun e => match e with Speak text => [text] | SpeakSupport => [] end) out.

(** The page's counselor after a first sad event at time 0, which records
    the streak start and is too early to speak. *)
Definition streak_started : t :=
  fst (step page_counselor (OnEmotion (Some sad) 0 0)).

(** The same counselor after a second sad event at time 5000: it has
    started the sequence and is speaking the first line. *)
Definition speaking_first : t :=
  fst (step streak_started (OnEmotion (Some sad) 5000 5000)).

(** Two states with the same settings: the fields only the constructor
    writes. *)
Definition same_settings (a b : t) : Prop :=
  triggerEmotion a = triggerEmotion b /\ sustainMs a = sustainMs b /\
  cooldownMs a = cooldownMs b /\ messages a = messages b.

(** The clock reading of an input, if it has one. *)
Definition time_of (i : Input) : option Z :=
  match i with
  | OnEmotion _ now _ => Some now
  | UtteranceEnd => None
  end.

End MoodCounselor.

(** ** Maitri voice assistant: the remote call *)

Module MaitriAssistant.

(** What [response.json()] gives: a rejection, a falsy value, or an object
    with the text at [candidates[0].content.parts[0].text], if any. *)
Inductive Json : Type :=
| ParseError
| Falsy
| Object (text : option string).

(** What [await fetch(...)] gives: a rejection, or a response with its
    status and body. *)
Inductive FetchResult : Type :=
| Rejected
| Response (status : Z) (body : Json).

(** [fetchResponse.ok]: the status is in the range 200-299. *)
Definition ok (status : Z) : bool := (200 <=? status) && (status <=? 299).

Inductive Effect : Type :=
| Fetch
| Wait (delay : Z)
| Display (text : string)
| Speak (text : string).

#[global] Instance Effect_eq_dec : EqDecision Effect.
Proof. solve_decision. Defined.

Definition maxRetries : Z := 3.

Definition errorMessage : string :=
  "Communication with Earth AI services is delayed. Please re-state your concern or try a simple command.".

Definition noTextMessage : string :=
  "I'm sorry, I couldn't generate a clear response right now. Can you try again?".

(** The [for] loop of the [try] block with [n] turns left, at index [i]
    and backoff [delay].  [network k] is the outcome of the [k]-th call of
    [fetch].  The result is [inr] for a thrown error and [inl response]
    when the loop is left normally: [inl None] for a [response] that is
    [null] or another falsy value, [inl (Some text)] for an object. *)
Fixpoint loop (network : nat -> FetchResult) (n : nat) (i : Z) (delay : Z)
  : list Effect * (option (option string) + string) :=
  match n with
  | O => ([], inl None)
  | Datatypes.S n' =>
      match network (Z.to_nat i) with
      | Rejected => ([Fetch], inr "fetch rejected"%string)
      | Response status body =>
          if ok status then
            match body with
            | ParseError => ([Fetch], inr "json rejected"%string)
            | Falsy => ([Fetch], inl None)
            | Object text => ([Fetch], inl (Some text))
            end
          else if (status =? 429) && (i <? maxRetries - 1) then
            let '(out, r) := loop network n' (i + 1) (delay * 2) in
            (Fetch :: Wait delay :: out, r)
          else ([Fetch], inr "API returned status"%string)
      end
  end.

(** [a || b] on an optional string: missing and empty are falsy. *)
Definition str_or (a : option string) (b : string) : string :=
  match a with
  | Some s => if bool_decide (s = ""%string) then b else s
  | None => b
  end.

(** The [try]/[catch] of [analyzeToneAndRespond], reached with a query of
    five characters or more that is not a functional command.  A falsy
    [response] after the loop throws like a failed call does. *)
Definition analyzeToneAndRespond (network : nat -> FetchResult) : list Effect :=
  let '(out, r) := loop network (Z.to_nat maxRetries) 0 1000 in
  match r with
  | inl (Some text) =>
      let generatedText := str_or text noTextMessage in
      out ++ [Display generatedText; Speak generatedText]
  | inl None | inr _ =>
      out ++ [Display errorMessage; Speak errorMessage]
  end.

Definition fetches (out : list Effect) : nat :=
  length (filter (fun e => e = Fetch) out).

Definition waits (out : list Effect) : list Z :=
  flat_map (fun e => match e with Wait d => [d] | _ => [] end) out.

Definition displayed (out : list Effect) : list string :=
  flat_map (fun e => match e with Display s => [s] | _ => [] end) out.

Definition said (out : list Effect) : list string :=
  flat_map (fun e => match e with Speak s => [s] | _ => [] end) out.

(** A response that reports rate limiting. *)
Definition is_429 (r : FetchResult) : bool :=
  match r with
  | Response status _ => status =? 429
  | Rejected => false
  end.

(** A call that succeeded: a response in the success range whose body
    is an object. *)
Definition succeeded (r : FetchResult) : bool :=
  match r with
  | Response status (Object _) => ok status
  | _ => false
  end.

(** The text a successful call carries, if any. *)
Definition text_of (r : FetchResult) : option string :=
  match r with
  | Response _ (Object text) => text
  | _ => None
  end.

(** [k] rounds of a call followed by its backoff wait. *)
Definition backoff (k : nat) : list Effect :=
  flat_map (fun j => [Fetch; Wait (1000 * 2 ^ Z.of_nat j)]) (seq 0 k).

(** What a turn of the loop that does not retry leaves: the response, or
    the error it throws. *)
Definition final_result (r : FetchResult) : option (option string) + string :=
  match r with
  | Rejected => inr "fetch rejected"%string
  | Response status body =>
      if ok status then
        match body with
        | ParseError => inr "json rejected"%string
        | Falsy => inl None
        | Object text => inl (Some text)
        end
      else inr "API returned status"%string
  end.

(** The effects of the whole call when the [k]-th call of [fetch] is the
    last one: [k] backoff rounds, the last call, and the message shown
    and spoken. *)
Definition ends_at (network : nat -> FetchResult) (k : nat) : list Effect :=
  let msg :=
    if succeeded (network k) then str_or (text_of (network k)) noTextMessage
    else errorMessage in
  backoff k ++ [Fetch; Display msg; Speak msg].

(** A network that answers every call with status 429. *)
Definition always_429 : nat -> FetchResult := fun _ => Response 429 Falsy.

End MaitriAssistant.

(** ** The page: tracker, gate and counselor on one event bus *)

Module Page.

(** The objects [DOMContentLoaded] creates that listen to, or dispatch,
    [emotionchange]; the tracker carries the [window] global it writes and
    the gate the document it writes. *)
Record t : Type := {
  tracker : FaceMoodDetection.t * Window;
  gate : Dashboard.t * Document;
  counselor : MoodCounselor.t
}.

Inductive Effect : Type :=
| Gate (e : Dashboard.Effect)
| Voice (e : MoodCounselor.Effect).

(** The [DOMContentLoaded] handler: [initDashboard()], then the tracker,
    then [new MoodCounselor({ sustainMs: 5000, cooldownMs: 90000 })]. *)
Definition DOMContentLoaded (doc : Document) : t :=
  {| tracker := (FaceMoodDetection.new, window0);
     gate := Dashboard.initDashboard window0 doc;
     counselor := MoodCounselor.page_counselor |}.

(** [window.dispatchEvent(ev)]: the listeners run at once, in the order
    they were added; [now] and [now'] are the clock readings of the
    counselor. *)
Definition dispatchEvent (now now' : Z) (p : t) (ev : CustomEvent) : t * list Effect :=
  let '(g, out1) := Dashboard.listener (gate p) ev in
  let '(c, out2) := MoodCounselor.listener (counselor p) ev now now' in
  ({| tracker := tracker p; gate := g; counselor := c |},
   map Gate out1 ++ map Voice out2).

(** What happens on the page: the detection loop reports an observation
    (with the clock readings of the tracker and of the counselor), or the
    utterance being spoken ends. *)
Inductive Input : Type :=
| Observation (emotionData : option Emotion) (at_ now now' : Z)
| UtteranceEnd.

Definition step (p : t) (i : Input) : t * list Effect :=
  match i with
  | Observation emotionData at_ now now' =>
      let '(tr, evs) :=
        FaceMoodDetection.updateCurrentEmotion (snd (gate p)) (tracker p) (emotionData, at_) in
      run (dispatchEvent now now')
        {| tracker := tr; gate := gate p; counselor := counselor p |} evs
  | UtteranceEnd =>
      let '(c, out) := MoodCounselor.utteranceEnd (counselor p) in
      ({| tracker := tracker p; gate := gate p; counselor := c |}, map Voice out)
  end.

(** The effects of the counselor in a trace of the page. *)
Definition voice (out : list Effect) : list MoodCounselor.Effect :=
  flat_map (fun e => match e with Voice v => [v] | Gate _ => [] end) out.

(** What holds of the page between two inputs: the counselor is idle with
    the settings of the page, and has no streak start unless the tracker
    last emitted sad. *)
Definition quiet (p : t) : Prop :=
  MoodCounselor._speaking (counselor p) = false /\
  MoodCounselor.suspended (counselor p) = None /\
  MoodCounselor.triggerEmotion (counselor p) = sad /\
  MoodCounselor.sustainMs (counselor p) = 5000 /\
  (FaceMoodDetection.lastEmotion (fst (tracker p)) <> Some sad ->
   MoodCounselor._sadSince (counselor p) = None).

End Page.

(** A page with none of the elements the handlers look up. *)
Definition bare_page : Document :=
  {| detected_mood := false; play_games_btn := None; play_games_link := None |}.

(** ** The link to the games page *)

Module PlayLink.

(** What a click on the link does: the default action goes ahead, or the
    handler prevents it and shows a message. *)
Inductive Outcome : Type :=
| Follow
| Prevented (message : string).

#[global] Instance Outcome_eq_dec : EqDecision Outcome.
Proof. solve_decision. Defined.

(** The [click] listener [initDashboard] adds to the link. *)
Definition onClick (w : Window) : Outcome :=
  if bool_decide (currentEmotion w <> Some sad)
  then Prevented "Games unlock when your mood is detected as sad."
  else Follow.

End PlayLink.

(** ** Reading a trace of the page *)

Module PageTrace.

(** The observations among the inputs of the page, with the clock reading
    of the tracker. *)
Definition observations (inputs : list Page.Input) : list (option Emotion * Z) :=
  flat_map (fun i => match i with
                     | Page.Observation o at_ _ _ => [(o, at_)]
                     | Page.UtteranceEnd => []
                     end) inputs.

(** The effects of the gate in a trace of the page. *)
Definition navigations (out : list Page.Effect) : list Dashboard.Effect :=
  flat_map (fun e => match e with Page.Gate g => [g] | Page.Voice _ => [] end) out.

(** The number of maximal runs of sad in a sequence of observations. *)
Definition sad_runs (obs : list (option Emotion)) : Z :=
  Z.of_nat (length (filter (fun r => fst r = Some sad) (runs obs))).

(** The gate attributes of a page loaded from [doc] say whether a click on
    the link would be prevented now. *)
Definition gate_mirrors (doc : Document) (p : Page.t) : Prop :=
  let prevented :=
    bool_decide (PlayLink.onClick (snd (Page.tracker p)) <> PlayLink.Follow) in
  play_games_btn (snd (Page.gate p)) = (fun _ => prevented) <$> play_games_btn doc /\
  play_games_link (snd (Page.gate p)) = (fun _ => prevented) <$> play_games_link doc.

End PageTrace.

(** ** JavaScript strings *)

(** A string is its sequence of 16-bit code units. *)
Definition jsstring : Type := list N.

(** A literal of the source, all of whose characters are ASCII. *)
Definition lit (s : string) : jsstring :=
  map Ascii.N_of_ascii (list_ascii_of_string s).

(** [s.startsWith(needle)], used by [includes]. *)
Fixpoint starts_with (s needle : jsstring) : bool :=
  match needle, s with
  | [], _ => true
  | _ :: _, [] => false
  | a :: needle', b :: s' => (a =? b)%N && starts_with s' needle'
  end.

(** [s.includes(needle)]: [needle] occurs in [s] at some position. *)
Fixpoint includes (s needle : jsstring) : bool :=
  starts_with s needle ||
  match s with
  | [] => false
  | _ :: s' => includes s' needle
  end.

(** [x || d] on an optional string: missing and empty are falsy. *)
Definition text_or (x : option jsstring) (d : jsstring) : jsstring :=
  match x with
  | Some (c :: s) => c :: s
  | _ => d
  end.

(** ** Face detection loop and camera *)

Module Detection.

(** [Object.entries(detection.expressions)]: the labels with their scores,
    in the key order of the object. *)
Definition Expressions : Type := list (Emotion * Q).

(** Insertion into a list sorted by decreasing score, before the entries
    of the same score. *)
Fixpoint insert_desc (x : Emotion * Q) (sorted : list (Emotion * Q)) : list (Emotion * Q) :=
  match sorted with
  | [] => [x]
  | y :: rest =>
      if Qle_bool (snd y) (snd x) then x :: y :: rest else y :: insert_desc x rest
  end.

(** [entries.sort(([, a], [, b]) => b - a)].  [Array.prototype.sort] is
    stable, and the comparator orders the entries by decreasing score, so
    the result is the list a stable insertion sort gives: entries of the
    same score keep their order.  Scores are compared exactly, as the sign
    of a difference of doubles is; a score that is not a number is outside
    the model. *)
Definition sort_desc (entries : Expressions) : Expressions :=
  foldr insert_desc [] entries.

(** [const [maxExpression] = entries.sort(...)[0]].  On an empty object the
    element is [undefined] and the destructuring throws: [None]. *)
Definition maxExpression (entries : Expressions) : option Emotion :=
  match sort_desc entries with
  | (name, _) :: _ => Some name
  | [] => None
  end.

(** The fields of [FaceMoodDetection] next to [lastEmotion], the state of
    the camera button, and what is under way: [detecting] counts the calls
    of [detectEmotion] waiting for the detector, [timeouts] the no-face
    timeouts scheduled and not yet run. *)
Record t : Type := {
  isModelLoaded : bool;
  isCameraOn : bool;
  faceDetected : bool;
  listeners : bool;
  cameraBtn_disabled : bool;
  cameraBtn_text : jsstring;
  tracker : FaceMoodDetection.t * Window;
  detecting : nat;
  timeouts : nat
}.

(** The constructor; [disabled] and [text] are what the page gives the
    camera button. *)
Definition new (disabled : bool) (text : jsstring) : t :=
  {| isModelLoaded := false; isCameraOn := false; faceDetected := false;
     listeners := false; cameraBtn_disabled := disabled; cameraBtn_text := text;
     tracker := (FaceMoodDetection.new, window0);
     detecting := 0; timeouts := 0 |}.

(** [updateCameraUI()], as far as the button goes. *)
Definition updateCameraUI (self : t) : t :=
  {| isModelLoaded := isModelLoaded self; isCameraOn := isCameraOn self;
     faceDetected := faceDetected self; listeners := listeners self;
     cameraBtn_disabled := cameraBtn_disabled self;
     cameraBtn_text := if isCameraOn self then lit "Stop Camera" else lit "Start Camera";
     tracker := tracker self; detecting := detecting self; timeouts := timeouts self |}.

(** [this.updateCurrentEmotion(emotionData)] on the tracker part. *)
Definition updateCurrentEmotion (doc : Document) (self : t)
    (emotionData : option Emotion) (now : Z) : t * list CustomEvent :=
  let '(tr, evs) :=
    FaceMoodDetection.updateCurrentEmotion doc (tracker self) (emotionData, now) in
  ({| isModelLoaded := isModelLoaded self; isCameraOn := isCameraOn self;
      faceDetected := faceDetected self; listeners := listeners self;
      cameraBtn_disabled := cameraBtn_disabled self;
      cameraBtn_text := cameraBtn_text self;
      tracker := tr; detecting := detecting self; timeouts := timeouts self |}, evs).

(** [init()] after [loadModels()] has settled: on success the flag is set
    and the button enabled; either way the listeners are added then. *)
Definition modelsLoaded (self : t) (success : bool) : t :=
  {| isModelLoaded := if success then true else isModelLoaded self;
     isCameraOn := isCameraOn self; faceDetected := faceDetected self;
     listeners := true;
     cameraBtn_disabled := if success then false else cameraBtn_disabled self;
     cameraBtn_text := cameraBtn_text self;
     tracker := tracker self; detecting := detecting self; timeouts := timeouts self |}.

(** [startCamera()] once [getUserMedia] has granted the stream. *)
Definition cameraGranted (self : t) : t :=
  updateCameraUI
    {| isModelLoaded := isModelLoaded self; isCameraOn := true;
       faceDetected := faceDetected self; listeners := listeners self;
       cameraBtn_disabled := cameraBtn_disabled self;
       cameraBtn_text := cameraBtn_text self;
       tracker := tracker self; detecting := detecting self; timeouts := timeouts self |}.

(** [stopCamera()].  It clears the interval; calls of [detectEmotion]
    already waiting and timeouts already scheduled stay. *)
Definition stopCamera (doc : Document) (self : t) (now : Z) : t * list CustomEvent :=
  let self1 :=
    {| isModelLoaded := isModelLoaded self; isCameraOn := false;
       faceDetected := false; listeners := listeners self;
       cameraBtn_disabled := cameraBtn_disabled self;
       cameraBtn_text := cameraBtn_text self;
       tracker := tracker self; detecting := detecting self; timeouts := timeouts self |} in
  let '(self2, evs) := updateCurrentEmotion doc self1 None now in
  (updateCameraUI self2, evs).

(** [detectEmotion()] up to its [await]: the guard, then the detector is
    started. *)
Definition detectEmotion (self : t) (readyState : Z) : t :=
  if negb (isCameraOn self) || negb (isModelLoaded self) || negb (readyState =? 4)
  then self
  else
    {| isModelLoaded := isModelLoaded self; isCameraOn := isCameraOn self;
       faceDetected := faceDetected self; listeners := listeners self;
       cameraBtn_disabled := cameraBtn_disabled self;
       cameraBtn_text := cameraBtn_text self;
       tracker := tracker self;
       detecting := Datatypes.S (detecting self); timeouts := timeouts self |}.

(** [detectEmotion()] resumed with the detector's answer: a face with its
    expressions, or none.  With no call waiting there is nothing to
    resume. *)
Definition detected (doc : Document) (self : t) (detection : option Expressions)
    (now : Z) : t * list CustomEvent :=
  match detecting self with
  | O => (self, [])
  | Datatypes.S n =>
      let face := match detection with Some _ => true | None => false end in
      let self1 :=
        {| isModelLoaded := isModelLoaded self; isCameraOn := isCameraOn self;
           faceDetected := face; listeners := listeners self;
           cameraBtn_disabled := cameraBtn_disabled self;
           cameraBtn_text := cameraBtn_text self;
           tracker := tracker self; detecting := n;
           timeouts := match detection with
                       | Some _ => timeouts self
                       | None => Datatypes.S (timeouts self)
                       end |} in
      match detection with
      | Some entries =>
          match maxExpression entries with
          | Some name => updateCurrentEmotion doc self1 (Some name) now
          | None => (self1, [])
          end
      | None => (self1, [])
      end
  end.

(** The callback of a no-face timeout, 1000 ms after it was scheduled. *)
Definition timeout (doc : Document) (self : t) (now : Z) : t * list CustomEvent :=
  match timeouts self with
  | O => (self, [])
  | Datatypes.S n =>
      let self1 :=
        {| isModelLoaded := isModelLoaded self; isCameraOn := isCameraOn self;
           faceDetected := faceDetected self; listeners := listeners self;
           cameraBtn_disabled := cameraBtn_disabled self;
           cameraBtn_text := cameraBtn_text self;
           tracker := tracker self; detecting := detecting self; timeouts := n |} in
      if negb (faceDetected self1) then updateCurrentEmotion doc self1 None now
      else (self1, [])
  end.

(** The [click] listener of the camera button: stop the camera when it is
    on, ask for it otherwise.  A disabled button, and one without its
    listener yet, does nothing. *)
Definition click (doc : Document) (self : t) (now : Z) : t * list CustomEvent :=
  if cameraBtn_disabled self || negb (listeners self) then (self, [])
  else if isCameraOn self then stopCamera doc self now
  else (self, []).

(** What happens to the detection object. *)
Inductive Input : Type :=
| ModelsLoaded (success : bool)
| Click (now : Z)
| CameraGranted
| Interval (readyState : Z)
| Detected (detection : option Expressions) (now : Z)
| Timeout (now : Z).

Definition step (doc : Document) (self : t) (i : Input) : t * list CustomEvent :=
  match i with
  | ModelsLoaded success => (modelsLoaded self success, [])
  | Click now => click doc self now
  | CameraGranted => (cameraGranted self, [])
  | Interval readyState => (detectEmotion self readyState, [])
  | Detected detection now => detected doc self detection now
  | Timeout now => timeout doc self now
  end.

(** The inputs that see no face: a poll, and a detector's answer without a
    face. *)
Definition faceless (i : Input) : bool :=
  match i with
  | Interval _ | Detected None _ => true
  | _ => false
  end.

(** A detection object on a page with every element: models loaded, camera
    granted, a sad face reported, and the next call of [detectEmotion]
    waiting for the detector. *)
Definition watching : t :=
  fst (run (step full_page) (new true (lit "Start Camera"))
         [ModelsLoaded true; CameraGranted; Interval 4;
          Detected (Some [(neutral, 0.1%Q); (sad, 0.9%Q)]) 200; Interval 4]).

(** An entry of [entries] that no earlier entry equals or beats and no
    later entry beats. *)
Definition first_maximum (entries : Expressions) (name : Emotion) : Prop :=
  exists before score after,
    entries = before ++ (name, score) :: after /\
    Forall (fun x => (snd x < score)%Q) before /\
    Forall (fun x => (snd x <= score)%Q) after.

End Detection.

(** ** Maitri voice assistant: functional commands *)

Module MaitriCommands.

(** What a command reads of the browser and of the page: [toLowerCase] is
    [String.prototype.toLowerCase]; [timeText] is what
    [new Date().toLocaleTimeString([], ...)] gives; the three health
    elements carry their text when they exist; [camera_btn] tells whether
    [getElementById('camera-btn')] finds the button, whose [disabled] and
    text are kept by the detection object. *)
Record Env : Type := {
  toLowerCase : jsstring -> jsstring;
  timeText : jsstring;
  heart_rate : option jsstring;
  o2_level : option jsstring;
  radiation : option jsstring;
  camera_btn : bool
}.

(** [Display] is an assignment to the text of the message container,
    [Speak] a call of [this.speak], [Navigate] an assignment to
    [window.location.href], [Dispatch] an event the camera button's
    listener dispatches on [window], [Remote] an effect of the remote
    call. *)
Inductive Effect : Type :=
| Display (text : jsstring)
| Speak (text : jsstring)
| Navigate (href : string)
| Dispatch (ev : CustomEvent)
| Remote (e : MaitriAssistant.Effect).

Definition statusMessage : jsstring :=
  lit "Based on my acoustic and linguistic analysis of your recent speech, your psychological markers appear stable. Remember that self-assessment and communication are vital.".

Definition timeMessage (env : Env) : jsstring :=
  lit "The current time is " ++ timeText env ++ lit ". How are you feeling right now?".

Definition heartRateMessage (env : Env) : jsstring :=
  match heart_rate env with
  | Some heartRate =>
      lit "Your current heart rate is " ++ heartRate ++
      lit ". Is there anything causing you stress right now?"
  | None => lit "Heart rate data not available. How are you feeling today?"
  end.

Definition healthMessage (env : Env) : jsstring :=
  lit "Health status: Heart rate " ++ text_or (heart_rate env) (lit "Unknown") ++
  lit ", Oxygen level " ++ text_or (o2_level env) (lit "Unknown") ++
  lit ", Radiation " ++ text_or (radiation env) (lit "Unknown") ++
  lit ". All systems nominal. How is your mental state?".

Definition startingMessage : jsstring :=
  lit "Starting camera for mood detection. This will help me better understand your emotional state.".

Definition notAvailableMessage : jsstring :=
  lit "Camera not available or already running. How are you feeling right now?".

Definition stoppedMessage : jsstring :=
  lit "Camera stopped. Is there anything you would like to discuss?".

Definition notRunningMessage : jsstring :=
  lit "Camera is not currently running. How can I support you today?".

Definition gamesMessage : jsstring :=
  lit "Games are only available when you are feeling sad. Let me help you with some stress relief techniques instead.".

Definition goodbyeMessage : jsstring :=
  lit "Goodbye for now. Your well-being is my highest priority. I'll be here when you return.".

Definition shortMessage : jsstring :=
  lit "I heard very little. Please try speaking a longer phrase.".

Definition analyzingMessage : jsstring :=
  lit "Analyzing your words for emotional markers...".

(** [command.toLowerCase().includes(needle)] for a literal [needle]. *)
Definition mentions (env : Env) (command : jsstring) (needle : string) : bool :=
  includes (toLowerCase env command) (lit needle).

(** [handleFunctionalCommands(command)]: the value returned, the detection
    object after the call (a command may click the camera button) and the
    effects.  [now] is the clock reading of the tracker, should the click
    stop the camera. *)
Definition handleFunctionalCommands (env : Env) (doc : Document) (self : Detection.t)
    (command : jsstring) (now : Z) : bool * Detection.t * list Effect :=
  let lowerCommand := toLowerCase env command in
  if includes lowerCommand (lit "check my status") ||
     includes lowerCommand (lit "how am i doing") then
    (true, self, [Speak statusMessage])
  else if includes lowerCommand (lit "time") then
    (true, self, [Speak (timeMessage env)])
  else if includes lowerCommand (lit "check heart rate") then
    (true, self, [Speak (heartRateMessage env)])
  else if includes lowerCommand (lit "check health status") then
    (true, self, [Speak (healthMessage env)])
  else if includes lowerCommand (lit "start camera") then
    if camera_btn env && negb (Detection.cameraBtn_disabled self) then
      let '(self1, evs) := Detection.click doc self now in
      (true, self1, map Dispatch evs ++ [Speak startingMessage])
    else (true, self, [Speak notAvailableMessage])
  else if includes lowerCommand (lit "stop camera") then
    if camera_btn env && includes (Detection.cameraBtn_text self) (lit "Stop") then
      let '(self1, evs) := Detection.click doc self now in
      (true, self1, map Dispatch evs ++ [Speak stoppedMessage])
    else (true, self, [Speak notRunningMessage])
  else if includes lowerCommand (lit "open games") then
    if bool_decide (currentEmotion (snd (Detection.tracker self)) = Some sad) then
      (true, self, [Navigate "games.html"])
    else (true, self, [Speak gamesMessage])
  else if includes lowerCommand (lit "exit") ||
          includes lowerCommand (lit "goodbye") ||
          includes lowerCommand (lit "shut down") then
    (true, self, [Speak goodbyeMessage])
  else (false, self, []).

(** [analyzeToneAndRespond(userQuery)]: the length test, the functional
    commands, then the remote call, whose [try] block is
    [MaitriAssistant.analyzeToneAndRespond]. *)
Definition analyzeToneAndRespond (env : Env) (doc : Document) (self : Detection.t)
    (userQuery : jsstring) (now : Z) (network : nat -> MaitriAssistant.FetchResult)
  : Detection.t * list Effect :=
  if Z.of_nat (length userQuery) <? 5 then
    (self, [Display shortMessage; Speak shortMessage])
  else
    let '(handled, self1, out) := handleFunctionalCommands env doc self userQuery now in
    if handled then (self1, out)
    else
      (self1,
       out ++ Display analyzingMessage ::
       map Remote (MaitriAssistant.analyzeToneAndRespond network)).

(** The needles of [handleFunctionalCommands], in the order it tries them. *)
Definition keywords : list string :=
  [ "check my status"; "how am i doing"; "time"; "check heart rate";
    "check health status"; "start camera"; "stop camera"; "open games";
    "exit"; "goodbye"; "shut down" ]%string.

(** The events a command made the camera button dispatch. *)
Definition dispatched (out : list Effect) : list CustomEvent :=
  flat_map (fun e => match e with Dispatch ev => [ev] | _ => [] end) out.

Definition navigated (out : list Effect) : list string :=
  flat_map (fun e => match e with Navigate href => [href] | _ => [] end) out.

Definition said (out : list Effect) : list jsstring :=
  flat_map (fun e => match e with Speak text => [text] | _ => [] end) out.

(** [toLowerCase] on the letters A to Z, any other code unit kept. *)
Definition ascii_lower (s : jsstring) : jsstring :=
  map (fun c => if (65 <=? c)%N && (c <=? 90)%N then (c + 32)%N else c) s.

(** A browser at 08:15 on a page with a heart-rate element and the camera
    button. *)
Definition browser : Env :=
  {| toLowerCase := ascii_lower; timeText := lit "08:15 AM";
     heart_rate := Some (lit "72 BPM"); o2_level := None; radiation := None;
     camera_btn := true |}.

End MaitriCommands.

(** ** The microphone toggle *)

Module VoiceToggle.

(** The [isListening] variable of [initDashboard] and the [isListening]
    field of the assistant. *)
Record t : Type := {
  isListening : bool;
  assistant_isListening : bool
}.

(** Both start cleared. *)
Definition init : t := {| isListening := false; assistant_isListening := false |}.

(** [MicClass] is the toggle of the class [listening] of the microphone
    container, [Display] an assignment to the text of the message
    container, [Cancel] a call of [speechSynthesis.cancel], [Start] and
    [Stop] calls on the recognition object, [Speak] a call of
    [this.speak]. *)
Inductive Effect : Type :=
| MicClass (on : bool)
| Display (text : string)
| Cancel
| Start
| Stop
| Speak (text : string).

#[global] Instance Effect_eq_dec : EqDecision Effect.
Proof. solve_decision. Defined.

(** [startListening()].  [recognition] tells whether the browser has speech
    recognition, [speaking] is [window.speechSynthesis.speaking] and
    [throws] whether [this.recognition.start()] throws. *)
Definition startListening (recognition : bool) (self : t) (speaking throws : bool)
  : t * list Effect :=
  if negb recognition then
    (self, [Speak "Speech recognition not available in this browser"])
  else
    ({| isListening := isListening self; assistant_isListening := true |},
     (if speaking then [Cancel] else []) ++
     [Display "Listening..."; Start] ++
     (if throws then [Speak "Sorry, I could not start listening"] else [])).

(** [stopListening()]. *)
Definition stopListening (recognition : bool) (self : t) : t * list Effect :=
  ({| isListening := isListening self; assistant_isListening := false |},
   if recognition then [Stop] else []).

(** [handleVoiceToggle], the [click] listener of the toggle button, with
    the assistant created. *)
Definition handleVoiceToggle (recognition : bool) (self : t) (speaking throws : bool)
  : t * list Effect :=
  let self1 :=
    {| isListening := negb (isListening self);
       assistant_isListening := assistant_isListening self |} in
  if isListening self1 then
    let '(self2, out) := startListening recognition self1 speaking throws in
    (self2, MicClass true :: Display "Listening... Speak your command" :: out)
  else
    let '(self2, out) := stopListening recognition self1 in
    (self2, MicClass false :: Display "" :: out).

(** [handleError(event)]; [error] is [event.error]. *)
Definition handleError (self : t) (error : string) : t * list Effect :=
  let message :=
    if bool_decide (error = "no-speech"%string) then
      "No speech detected. Please try again"%string
    else if bool_decide (error = "audio-capture"%string) then
      "No microphone found. Please check your microphone"%string
    else if bool_decide (error = "not-allowed"%string) then
      "Microphone permission denied. Please allow microphone access"%string
    else "Error or no speech detected. Try again."%string in
  ({| isListening := isListening self; assistant_isListening := false |},
   [Display message]).

(** [handleRecognitionEnd()]; [shown] tells whether the message container
    reads "Listening..." then. *)
Definition handleRecognitionEnd (self : t) (shown : bool) : t * list Effect :=
  ({| isListening := isListening self; assistant_isListening := false |},
   if shown then [Display ""] else []).

Inductive Input : Type :=
| Click (speaking throws : bool)
| RecognitionError (error : string)
| RecognitionEnd (shown : bool).

Definition step (recognition : bool) (self : t) (i : Input) : t * list Effect :=
  match i with
  | Click speaking throws => handleVoiceToggle recognition self speaking throws
  | RecognitionError error => handleError self error
  | RecognitionEnd shown => handleRecognitionEnd self shown
  end.

(** The number of clicks among the inputs. *)
Fixpoint clicks (inputs : list Input) : nat :=
  match inputs with
  | [] => 0
  | Click _ _ :: rest => Datatypes.S (clicks rest)
  | _ :: rest => clicks rest
  end.

End VoiceToggle.

(** ** The dataset collector *)

Module DatasetStore.

(** The payloads the three listeners build from [e.detail]. *)
Inductive Payload : Type :=
| EmotionPayload (emotion : option Emotion)
| HeartRatePayload (value : Z) (average : Q)
| StressPayload (type : string) (value : Z) (average : Q).

(** A record; its [iso], [localDate] and [localTime] fields are renderings
    of [at_] and are not kept. *)
Record Entry : Type := {
  type : string;
  at_ : Z;
  payload : Payload
}.

(** [addRecord(type, payload)], with [now] for [Date.now()]. *)
Definition addRecord (records : list Entry) (type : string) (payload : Payload) (now : Z)
  : list Entry :=
  records ++ [{| type := type; at_ := now; payload := payload |}].

(** The three listeners on [window]. *)
Definition listener (records : list Entry) (e : CustomEvent) (now : Z) : list Entry :=
  match e with
  | emotionchange emotion _ =>
      addRecord records "emotionchange" (EmotionPayload emotion) now
  | heartrate value average _ =>
      addRecord records "heartrate" (HeartRatePayload value average) now
  | stressdetected ty value average _ =>
      addRecord records "stressdetected" (StressPayload ty value average) now
  end.

(** [DatasetStore.getAll()]: a copy of the records. *)
Definition getAll (records : list Entry) : list Entry := records.

(** [DatasetStore.clear()]. *)
Definition clear (records : list Entry) : list Entry := [].

(** The [count] field of [exportJSON()]. *)
Definition count (records : list Entry) : Z := Z.of_nat (length records).

Inductive Input : Type :=
| Event (e : CustomEvent) (now : Z)
| Add (type : string) (payload : Payload) (now : Z)
| Clear.

Definition step (records : list Entry) (i : Input) : list Entry :=
  match i with
  | Event e now => listener records e now
  | Add type payload now => addRecord records type payload now
  | Clear => clear records
  end.

(** The name of an event. *)
Definition event_type (e : CustomEvent) : string :=
  match e with
  | emotionchange _ _ => "emotionchange"
  | heartrate _ _ _ => "heartrate"
  | stressdetected _ _ _ _ => "stressdetected"
  end.

(** The store after a list of inputs. *)
Definition after_inputs (records : list Entry) (inputs : list Input) : list Entry :=
  fold_left step inputs records.

(** What an input that adds a record says the record is. *)
Definition records_input (i : Input) (entry : Entry) : Prop :=
  match i with
  | Event e now =>
      type entry = event_type e /\ at_ entry = now /\
      payload entry =
        match e with
        | emotionchange emotion _ => EmotionPayload emotion
        | heartrate value average _ => HeartRatePayload value average
        | stressdetected ty value average _ => StressPayload ty value average
        end
  | Add ty p now => entry = {| type := ty; at_ := now; payload := p |}
  | Clear => False
  end.

End DatasetStore.

(** * Properties *)

(** ** Generic facts about [run] and [runs] *)

Lemma run_app {S I O : Type} (step : S -> I -> S * list O) (s : S) (xs ys : list I) :
  run step s (xs ++ ys) =
  (fst (run step (fst (run step s xs)) ys),
   snd (run step s xs) ++ snd (run step (fst (run step s xs)) ys)).
Proof.
  revert s. induction xs as [|x xs IH]; intros s; simpl.
  - by destruct (run step s ys).
  - destruct (step s x) as [s1 out1]. rewrite IH.
    destruct (run step s1 xs) as [s2 out2]; simpl.
    by rewrite app_assoc.
Qed.

Lemma run_cons {S I O : Type} (step : S -> I -> S * list O) (s : S) (x : I) (xs : list I) :
  run step s (x :: xs) =
  (fst (run step (fst (step s x)) xs),
   snd (step s x) ++ snd (run step (fst (step s x)) xs)).
Proof.
  simpl. destruct (step s x) as [s1 out1]. simpl. by destruct (run step s1 xs).
Qed.

Lemma run_snoc {S I O : Type} (step : S -> I -> S * list O) (s : S) (xs : list I) (x : I) :
  run step s (xs ++ [x]) =
  (fst (step (fst (run step s xs)) x),
   snd (run step s xs) ++ snd (step (fst (run step s xs)) x)).
Proof.
  rewrite run_app. simpl.
  destruct (step (fst (run step s xs)) x) as [s1 out1]; simpl.
  by rewrite app_nil_r.
Qed.

(** The first run of a non-empty list carries its first element. *)
Lemma runs_cons_head {A : Type} `{EqDecision A} (x : A) (l : list A) :
  exists n more, runs (x :: l) = (x, n) :: more.
Proof.
  simpl. destruct (runs l) as [|[y n] more]; [by eauto|].
  case_decide; eauto.
Qed.

(** Prefixing a list with a value opens a new run exactly when the list
    starts with a different value. *)
Lemma runs_values_cons {A : Type} `{EqDecision A} (prev x : A) (l : list A) :
  tail (map fst (runs (prev :: x :: l))) =
  (if decide (x = prev) then [] else [x]) ++ tail (map fst (runs (x :: l))).
Proof.
  destruct (runs_cons_head x l) as (n & more & Hx).
  change (runs (prev :: x :: l)) with
    (match runs (x :: l) with
     | (y, n) :: more =>
         if decide (prev = y) then (prev, Datatypes.S n) :: more
         else (prev, 1%nat) :: (y, n) :: more
     | [] => [(prev, 1%nat)]
     end).
  rewrite Hx. repeat case_decide; simpl; congruence.
Qed.

(** ** Mood tracker *)

Section Tracker.
Import FaceMoodDetection.
Variable doc : Document.
Hypothesis moodEl : detected_mood doc = true.

(** One observation: an event exactly when the value differs from
    [lastEmotion], which then holds the observed value. *)
Lemma updateCurrentEmotion_step (self : t) (w : Window) (o : option Emotion) (now : Z) :
  updateCurrentEmotion doc (self, w) (o, now) =
  if decide (o = lastEmotion self) then ((self, w), [])
  else (({| lastEmotion := o |}, {| currentEmotion := o |}), [emotionchange o now]).
Proof.
  unfold updateCurrentEmotion. rewrite moodEl. simpl.
  destruct o as [e|]; case_bool_decide; case_decide; try congruence; done.
Qed.

Lemma updateCurrentEmotion_last (self : t) (w : Window) (o : option Emotion) (now : Z) :
  lastEmotion (fst (fst (updateCurrentEmotion doc (self, w) (o, now)))) = o.
Proof.
  rewrite updateCurrentEmotion_step. case_decide; simpl; congruence.
Qed.

Lemma run_tracker_emitted (obs : list (option Emotion * Z)) (self : t) (w : Window) :
  emitted (snd (run (updateCurrentEmotion doc) (self, w) obs)) =
  tail (map fst (runs (lastEmotion self :: map fst obs))).
Proof.
  revert self w. induction obs as [|[o now] obs IH]; intros self w; [done|].
  cbn [run map fst].
  rewrite runs_values_cons.
  pose proof (updateCurrentEmotion_last self w o now) as Hlast.
  rewrite updateCurrentEmotion_step in Hlast |- *.
  case_decide as Ho.
  - specialize (IH self w).
    destruct (run (updateCurrentEmotion doc) (self, w) obs) as [s2 out2].
    simpl in *. rewrite IH. by rewrite Ho.
  - specialize (IH {| lastEmotion := o |} {| currentEmotion := o |}).
    destruct (run (updateCurrentEmotion doc) _ obs) as [s2 out2].
    simpl in *. by rewrite IH.
Qed.

Lemma run_tracker_only_emotionchange (obs : list (option Emotion * Z)) (st : t * Window) :
  length (snd (run (updateCurrentEmotion doc) st obs)) =
  length (emitted (snd (run (updateCurrentEmotion doc) st obs))).
Proof.
  revert st. induction obs as [|[o now] obs IH]; intros [self w]; [done|].
  cbn [run]. rewrite updateCurrentEmotion_step.
  case_decide.
  - specialize (IH (self, w)). by destruct (run _ (self, w) obs).
  - specialize (IH ({| lastEmotion := o |}, {| currentEmotion := o |})).
    destruct (run _ _ obs) as [s2 out2]. simpl in *. by rewrite IH.
Qed.

End Tracker.

Lemma run_tracker_last (doc : Document) (obs : list (option Emotion * Z))
    (self : FaceMoodDetection.t) (w : Window) :
  detected_mood doc = true ->
  FaceMoodDetection.lastEmotion
    (fst (fst (run (FaceMoodDetection.updateCurrentEmotion doc) (self, w) obs))) =
  default (FaceMoodDetection.lastEmotion self)
    (last (FaceMoodDetection.emitted
       (snd (run (FaceMoodDetection.updateCurrentEmotion doc) (self, w) obs)))).
Proof.
  intros moodEl. revert self w.
  induction obs as [|[o now] obs IH]; intros self w; [done|].
  cbn [run]. rewrite updateCurrentEmotion_step by done.
  case_decide.
  - specialize (IH self w). by destruct (run _ (self, w) obs).
  - specialize (IH {| FaceMoodDetection.lastEmotion := o |} {| currentEmotion := o |}).
    destruct (run _ _ obs) as [s2 out2]. simpl in *.
    rewrite IH, last_cons. by destruct (last _).
Qed.

(** C1 (as amended).  On a page that has the detected-mood element, for
    every sequence of observations, absent ones included: in every state
    the tracker reaches, the next observation dispatches one
    [emotionchange] event carrying it if it differs from the last emitted
    value and nothing otherwise; the last emitted value is the absent value
    as long as nothing was emitted; only [emotionchange] events are
    dispatched; and the emitted values are the values of the maximal runs
    of the observation sequence prefixed with the initial absent value,
    that first run left out: one event per maximal run, except that a
    leading run of absent observations dispatches none. *)
Theorem emotionchange_once_per_run (doc : Document) (obs : list (option Emotion * Z)) :
  detected_mood doc = true ->
  let st := fst (FaceMoodDetection.observe doc obs) in
  let out := snd (FaceMoodDetection.observe doc obs) in
  (forall (o : option Emotion) (now : Z),
     let r := FaceMoodDetection.updateCurrentEmotion doc st (o, now) in
     (o <> FaceMoodDetection.lastEmotion (fst st) -> snd r = [emotionchange o now]) /\
     (o = FaceMoodDetection.lastEmotion (fst st) -> snd r = [] /\ fst r = st) /\
     FaceMoodDetection.lastEmotion (fst (fst r)) = o) /\
  FaceMoodDetection.lastEmotion (fst st) =
    default None (last (FaceMoodDetection.emitted out)) /\
  length out = length (FaceMoodDetection.emitted out) /\
  FaceMoodDetection.emitted out = tail (map fst (runs (None :: map fst obs))).
Proof.
  intros moodEl st out. repeat split.
  - intros Hne. destruct st as [self w]. rewrite updateCurrentEmotion_step by done.
    by case_decide.
  - destruct st as [self w]. rewrite updateCurrentEmotion_step by done.
    by case_decide.
  - destruct st as [self w]. rewrite updateCurrentEmotion_step by done.
    by case_decide.
  - destruct st as [self w]. by apply updateCurrentEmotion_last.
  - subst st out. unfold FaceMoodDetection.observe.
    by rewrite run_tracker_last.
  - by apply run_tracker_only_emotionchange.
  - subst out. unfold FaceMoodDetection.observe.
    by rewrite run_tracker_emitted.
Qed.

(** Sad seen twice, then the face lost twice: two events. *)
Lemma emotionchange_once_per_run_witness :
  detected_mood full_page = true /\
  FaceMoodDetection.emitted
    (snd (FaceMoodDetection.observe full_page
            [(Some sad, 0); (Some sad, 200); (None, 1400); (None, 1600)])) =
  [Some sad; None].
Proof.
  split; [reflexivity|].
  exact (proj2 (proj2 (proj2
    (emotionchange_once_per_run full_page
       [(Some sad, 0); (Some sad, 200); (None, 1400); (None, 1600)] eq_refl)))).
Defined.

(** C1 as stated fails on a sequence that starts without a face: the
    single absent observation is one maximal run, and no event is
    dispatched for it. *)
Lemma emotionchange_leading_absent_run :
  length (runs (map fst [(@None Emotion, 0)])) = 1%nat /\
  snd (FaceMoodDetection.observe full_page [(None, 0)]) = [] /\
  length (FaceMoodDetection.emitted (snd (FaceMoodDetection.observe full_page [(None, 0)])))
    <> length (runs (map fst [(@None Emotion, 0)])).
Proof. repeat split. discriminate. Qed.

(** ** Heart-rate aggregator *)

Lemma lastn_length {A : Type} (n : nat) (l : list A) :
  length (lastn n l) = Nat.min (length l) n.
Proof. unfold lastn. rewrite length_drop. lia. Qed.

Lemma tail_drop {A : Type} (l : list A) : tail l = drop 1 l.
Proof. by destruct l. Qed.

(** Pushing onto the last ten of a list and shifting on overflow gives the
    last ten of the extended list. *)
Lemma push_shift_lastn (acc : list Z) (x : Z) :
  BluetoothHeartRateMonitor.push_shift 10 (lastn 10 acc) x = lastn 10 (acc ++ [x]).
Proof.
  unfold BluetoothHeartRateMonitor.push_shift, lastn.
  rewrite !length_app, length_drop. simpl length.
  destruct (Z.ltb_spec 10 (Z.of_nat (length acc - (length acc - 10) + 1))) as [Hlt|Hge].
  - rewrite tail_drop, <- (drop_app_le acc [x]) by lia.
    rewrite drop_drop. f_equal. lia.
  - replace (length acc - 10)%nat with 0%nat by lia.
    replace (length acc + 1 - 10)%nat with 0%nat by lia. done.
Qed.

Lemma sum_foldr (l : list Z) : BluetoothHeartRateMonitor.sum l = foldr Z.add 0 l.
Proof.
  unfold BluetoothHeartRateMonitor.sum.
  rewrite <- fold_left_rev_right.
  induction l as [|x l IH] using rev_ind; [done|].
  rewrite rev_app_distr, foldr_app. simpl.
  rewrite IH. clear IH.
  induction l as [|y l IH]; simpl; lia.
Qed.

(** The average the source computes is the arithmetic mean. *)
Lemma average_mean (l : list Z) : BluetoothHeartRateMonitor.average l = mean l.
Proof. unfold BluetoothHeartRateMonitor.average, mean. by rewrite sum_foldr. Qed.

Section Monitor.
Import BluetoothHeartRateMonitor.

Lemma accepted_snoc (evs : list Notification) (ev : Notification) :
  accepted (evs ++ [ev]) =
  accepted evs ++ (if 0 <? parseHeartRate (fst ev) then [parseHeartRate (fst ev)] else []).
Proof.
  unfold accepted. rewrite map_app, filter_app. f_equal.
  simpl. rewrite filter_cons, filter_nil.
  destruct (Z.ltb_spec 0 (parseHeartRate (fst ev))); case_decide; done || lia.
Qed.

Lemma monitor_snoc (evs : list Notification) (ev : Notification) :
  monitor (evs ++ [ev]) =
  (fst (onHeartRateChanged (fst (monitor evs)) ev),
   snd (monitor evs) ++ snd (onHeartRateChanged (fst (monitor evs)) ev)).
Proof. apply run_snoc. Qed.

(** The fields of every reachable monitor. *)
Lemma monitor_state (evs : list Notification) :
  fst (monitor evs) =
  {| heartRateData := lastn 10 (accepted evs); stressThreshold := 100; avgWindow := 10 |}.
Proof.
  induction evs as [|[data [now now']] evs IH] using rev_ind; [done|].
  rewrite monitor_snoc, accepted_snoc, IH. cbn [fst snd].
  unfold onHeartRateChanged.
  destruct (0 <? parseHeartRate data); cbn [fst].
  - unfold set_heartRateData; cbn. by rewrite push_shift_lastn.
  - by rewrite app_nil_r.
Qed.

(** What one notification does to a reachable monitor. *)
Lemma onHeartRateChanged_reachable (evs : list Notification) (data : list Byte.byte)
    (now now' : Z) :
  let w := lastn 10 (accepted (evs ++ [(data, (now, now'))])) in
  onHeartRateChanged (fst (monitor evs)) (data, (now, now')) =
  if 0 <? parseHeartRate data then
    ({| heartRateData := w; stressThreshold := 100; avgWindow := 10 |},
     heartrate (parseHeartRate data) (average w) now ::
     checkForStress {| heartRateData := w; stressThreshold := 100; avgWindow := 10 |}
       (parseHeartRate data) now')
  else (fst (monitor evs), []).
Proof.
  intros w. subst w. rewrite accepted_snoc, monitor_state. cbn [fst].
  unfold onHeartRateChanged.
  destruct (0 <? parseHeartRate data); [|done].
  unfold updateHeartRate, set_heartRateData; cbn.
  by rewrite push_shift_lastn.
Qed.

Lemma checkForStress_only_stress (m : t) (h now : Z) :
  List.filter is_heartrate (checkForStress m h now) = [] /\
  List.filter is_stressdetected (checkForStress m h now) = checkForStress m h now.
Proof.
  unfold checkForStress, triggerStressRelief.
  destruct (_ <? 3); [done|]. destruct (_ && _); done.
Qed.

End Monitor.

Lemma Qgtb_lt (a b : Q) : BluetoothHeartRateMonitor.Qgtb a b = true <-> (b < a)%Q.
Proof.
  unfold BluetoothHeartRateMonitor.Qgtb.
  rewrite negb_true_iff, <- not_true_iff_false, Qle_bool_iff.
  split; [apply Qnot_le_lt | apply Qlt_not_le].
Qed.

Lemma lastn_snoc_last {A : Type} (n : nat) (l : list A) (x : A) :
  (0 < n)%nat -> last (lastn n (l ++ [x])) = Some x.
Proof.
  intros Hn. unfold lastn. rewrite length_app. simpl length.
  rewrite drop_app_le by lia. apply last_snoc.
Qed.

Section MonitorEvents.
Import BluetoothHeartRateMonitor.

Lemma heartrate_events_snoc (evs : list Notification) (data : list Byte.byte) (now now' : Z) :
  List.filter is_heartrate (snd (monitor (evs ++ [(data, (now, now'))]))) =
  List.filter is_heartrate (snd (monitor evs)) ++
  (if 0 <? parseHeartRate data
   then [heartrate (parseHeartRate data)
           (mean (lastn 10 (accepted (evs ++ [(data, (now, now'))])))) now]
   else []).
Proof.
  rewrite monitor_snoc. cbn [snd]. rewrite List.filter_app. f_equal.
  rewrite onHeartRateChanged_reachable.
  destruct (0 <? parseHeartRate data); [|done].
  cbn [snd List.filter is_heartrate].
  rewrite (proj1 (checkForStress_only_stress _ _ _)).
  by rewrite average_mean.
Qed.

Lemma heartrate_events_count (evs : list Notification) :
  length (List.filter is_heartrate (snd (monitor evs))) = length (accepted evs).
Proof.
  induction evs as [|[data [now now']] evs IH] using rev_ind; [done|].
  rewrite heartrate_events_snoc, List.length_app, IH.
  rewrite !accepted_snoc, List.length_app. cbn [fst].
  by destruct (0 <? parseHeartRate data).
Qed.

(** The stress check on a reachable monitor whose window ends with the
    reading just pushed. *)
Lemma checkForStress_reachable (acc : list Z) (h now : Z) :
  let w := lastn 10 (acc ++ [h]) in
  let m := {| heartRateData := w; stressThreshold := 100; avgWindow := 10 |} in
  ((5 <= length w)%nat /\ (100 < mean w)%Q ->
     checkForStress m h now = [stressdetected "high_heart_rate" h (mean w) now]) /\
  (~ ((5 <= length w)%nat /\ (100 < mean w)%Q) -> checkForStress m h now = []).
Proof.
  intros w m. unfold checkForStress, triggerStressRelief. cbn [heartRateData stressThreshold m].
  rewrite average_mean. change (inject_Z 100) with 100%Q.
  assert (last w = Some h) as -> by (apply lastn_snoc_last; lia).
  split.
  - intros [Hlen Havg].
    destruct (Z.ltb_spec (Z.of_nat (length w)) 3); [lia|].
    apply Qgtb_lt in Havg. rewrite Havg.
    destruct (Z.leb_spec 5 (Z.of_nat (length w))); [done | lia].
  - intros Hn.
    destruct (Z.ltb_spec (Z.of_nat (length w)) 3); [done|].
    destruct (Qgtb (mean w) 100) eqn:Havg; [|done].
    destruct (Z.leb_spec 5 (Z.of_nat (length w))); [|done].
    exfalso. apply Hn. split; [lia|]. by apply Qgtb_lt.
Qed.

End MonitorEvents.

(** The 16-bit format: flags 1, then 44 + 256 * 1. *)
Example parseHeartRate_16bit :
  BluetoothHeartRateMonitor.parseHeartRate [Byte.x01; Byte.x2c; Byte.x01] = 300.
Proof. reflexivity. Qed.

(** A buffer of two bytes in the 16-bit format: the missing high byte
    reads as 0. *)
Example parseHeartRate_short :
  BluetoothHeartRateMonitor.parseHeartRate [Byte.x01; Byte.x2c] = 44.
Proof. reflexivity. Qed.

(** The eleventh reading evicts the first. *)
Example push_shift_evicts :
  BluetoothHeartRateMonitor.push_shift 10 [1; 2; 3; 4; 5; 6; 7; 8; 9; 10] 11 =
  [2; 3; 4; 5; 6; 7; 8; 9; 10; 11].
Proof. reflexivity. Qed.

(** C6.  For every list of notifications fed to a fresh monitor: the
    window holds the last min(k, 10) of the k accepted readings, so its
    length never exceeds 10; there are as many [heartrate] events as
    accepted readings; and each notification adds one [heartrate] event if
    its reading is accepted and none otherwise, carrying the reading and
    the arithmetic mean of the last min(k, 10) accepted readings up to and
    including it. *)
Theorem heartrate_rolling_window (evs : list BluetoothHeartRateMonitor.Notification) :
  let m := fst (BluetoothHeartRateMonitor.monitor evs) in
  let acc := BluetoothHeartRateMonitor.accepted evs in
  BluetoothHeartRateMonitor.heartRateData m = lastn 10 acc /\
  length (BluetoothHeartRateMonitor.heartRateData m) = Nat.min (length acc) 10 /\
  (length (BluetoothHeartRateMonitor.heartRateData m) <= 10)%nat /\
  length (List.filter BluetoothHeartRateMonitor.is_heartrate
            (snd (BluetoothHeartRateMonitor.monitor evs))) = length acc /\
  forall (data : list Byte.byte) (now now' : Z),
    List.filter BluetoothHeartRateMonitor.is_heartrate
      (snd (BluetoothHeartRateMonitor.monitor (evs ++ [(data, (now, now'))]))) =
    List.filter BluetoothHeartRateMonitor.is_heartrate
      (snd (BluetoothHeartRateMonitor.monitor evs)) ++
    (if 0 <? BluetoothHeartRateMonitor.parseHeartRate data
     then [heartrate (BluetoothHeartRateMonitor.parseHeartRate data)
             (mean (lastn 10 (BluetoothHeartRateMonitor.accepted
                                (evs ++ [(data, (now, now'))])))) now]
     else []).
Proof.
  intros m acc. subst m acc. rewrite monitor_state. cbn [BluetoothHeartRateMonitor.heartRateData].
  rewrite lastn_length. repeat split.
  - lia.
  - apply heartrate_events_count.
  - apply heartrate_events_snoc.
Qed.

(** C7.  For every reachable monitor and every notification: the
    notification publishes one [stressdetected] event, of kind
    high_heart_rate with the reading just accepted and the window average,
    exactly when its reading is accepted, the window then holds at least 5
    readings and their average exceeds 100, and none otherwise; nothing is
    remembered between notifications, so the event is published again on
    every notification for which the condition holds.  On the stream 70,
    72, 150, 155, 160 the first event comes with the fifth reading, with
    average 121.4, and a sixth reading of 160 publishes again. *)
Theorem stressdetected_level_check (evs : list BluetoothHeartRateMonitor.Notification)
    (data : list Byte.byte) (now now' : Z) :
  let ev := (data, (now, now')) in
  let r := BluetoothHeartRateMonitor.onHeartRateChanged
             (fst (BluetoothHeartRateMonitor.monitor evs)) ev in
  let w := BluetoothHeartRateMonitor.heartRateData
             (fst (BluetoothHeartRateMonitor.monitor (evs ++ [ev]))) in
  let h := BluetoothHeartRateMonitor.parseHeartRate data in
  let fired := List.filter BluetoothHeartRateMonitor.is_stressdetected (snd r) in
  BluetoothHeartRateMonitor.monitor (evs ++ [ev]) =
    (fst r, snd (BluetoothHeartRateMonitor.monitor evs) ++ snd r) /\
  (0 < h /\ (5 <= length w)%nat /\ (100 < mean w)%Q ->
     fired = [stressdetected "high_heart_rate" h (mean w) now']) /\
  (~ (0 < h /\ (5 <= length w)%nat /\ (100 < mean w)%Q) -> fired = []) /\
  map (fun s => List.filter BluetoothHeartRateMonitor.is_stressdetected (snd s))
    (steps BluetoothHeartRateMonitor.onHeartRateChanged BluetoothHeartRateMonitor.new
       BluetoothHeartRateMonitor.rising_stream) =
    [[]; []; []; [];
     [stressdetected "high_heart_rate" 160 (mean [70; 72; 150; 155; 160]) 4000]] /\
  Qeq (mean [70; 72; 150; 155; 160]) (Qmake 1214 10) /\
  List.filter BluetoothHeartRateMonitor.is_stressdetected
    (snd (BluetoothHeartRateMonitor.onHeartRateChanged
            (fst (BluetoothHeartRateMonitor.monitor BluetoothHeartRateMonitor.rising_stream))
            (BluetoothHeartRateMonitor.reading Byte.xa0 5000))) =
    [stressdetected "high_heart_rate" 160 (mean [70; 72; 150; 155; 160; 160]) 5000].
Proof.
  intros ev r w h fired.
  split; [apply monitor_snoc|].
  assert (Hstep : (0 < h -> fired = BluetoothHeartRateMonitor.checkForStress
                     {| BluetoothHeartRateMonitor.heartRateData := w;
                        BluetoothHeartRateMonitor.stressThreshold := 100;
                        BluetoothHeartRateMonitor.avgWindow := 10 |} h now') /\
                  (~ 0 < h -> fired = [])).
  { subst fired r w ev. rewrite onHeartRateChanged_reachable, !monitor_state.
    cbn [BluetoothHeartRateMonitor.heartRateData]. fold h.
    destruct (Z.ltb_spec 0 h); split; try done; try lia.
    intros _. cbn [snd List.filter BluetoothHeartRateMonitor.is_stressdetected].
    apply checkForStress_only_stress. }
  assert (Hw : 0 < h -> w = lastn 10 (BluetoothHeartRateMonitor.accepted evs ++ [h])).
  { intros Hh. subst w ev. rewrite monitor_state, accepted_snoc.
    cbn [BluetoothHeartRateMonitor.heartRateData fst]. fold h.
    by destruct (Z.ltb_spec 0 h); [|lia]. }
  destruct Hstep as [Hpos Hneg].
  split; [|split; [|repeat split; discriminate]].
  - intros (Hh & Hlen & Havg). rewrite (Hpos Hh).
    rewrite (Hw Hh) in Hlen, Havg |- *.
    by apply checkForStress_reachable.
  - intros Hn. destruct (Z.ltb_spec 0 h) as [Hh|Hh]; [|apply Hneg; lia].
    rewrite (Hpos Hh). rewrite (Hw Hh) in Hn |- *.
    apply checkForStress_reachable. tauto.
Qed.

(** The fifth reading of the stream 70, 72, 150, 155, 160. *)
Lemma stressdetected_level_check_witness :
  (0 < BluetoothHeartRateMonitor.parseHeartRate [Byte.x00; Byte.xa0] /\
   (5 <= length [70; 72; 150; 155; 160])%nat /\
   Qlt 100%Q (mean [70; 72; 150; 155; 160])) /\
  List.filter BluetoothHeartRateMonitor.is_stressdetected
    (snd (BluetoothHeartRateMonitor.onHeartRateChanged
            (fst (BluetoothHeartRateMonitor.monitor
                    (take 4 BluetoothHeartRateMonitor.rising_stream)))
            ([Byte.x00; Byte.xa0], (4000, 4000)))) =
  [stressdetected "high_heart_rate" 160 (mean [70; 72; 150; 155; 160]) 4000].
Proof.
  assert (H : 0 < BluetoothHeartRateMonitor.parseHeartRate [Byte.x00; Byte.xa0] /\
              (5 <= length [70; 72; 150; 155; 160])%nat /\
              Qlt 100%Q (mean [70; 72; 150; 155; 160])).
  { split; [reflexivity|]. split; [simpl; lia | reflexivity]. }
  split; [exact H|].
  exact (proj1 (proj2 (stressdetected_level_check
                         (take 4 BluetoothHeartRateMonitor.rising_stream)
                         [Byte.x00; Byte.xa0] 4000 4000)) H).
Defined.

(** Readings are never negative: a reading that is not accepted is zero. *)
Lemma parseHeartRate_nonneg (data : list Byte.byte) :
  0 <= BluetoothHeartRateMonitor.parseHeartRate data.
Proof.
  assert (Hb : forall i, 0 <= BluetoothHeartRateMonitor.byte_at data i).
  { intros i. unfold BluetoothHeartRateMonitor.byte_at. destruct (data !! i); lia. }
  unfold BluetoothHeartRateMonitor.parseHeartRate.
  destruct (2 <=? _); [|lia]. destruct (negb _); [|apply Hb].
  apply Z.lor_nonneg. split; [apply Hb|]. apply Z.shiftl_nonneg, Hb.
Qed.

(** C8.  A notification whose reading is zero or negative changes no field
    of the monitor and dispatches no event: it is not pushed into the
    window, neither a [heartrate] nor a [stressdetected] event is
    published, and the handler returns normally. *)
Theorem nonpositive_reading_discarded (m : BluetoothHeartRateMonitor.t)
    (data : list Byte.byte) (now now' : Z) :
  BluetoothHeartRateMonitor.parseHeartRate data <= 0 ->
  BluetoothHeartRateMonitor.onHeartRateChanged m (data, (now, now')) = (m, []).
Proof.
  intros Hle. unfold BluetoothHeartRateMonitor.onHeartRateChanged.
  by destruct (Z.ltb_spec 0 (BluetoothHeartRateMonitor.parseHeartRate data)); [lia|].
Qed.

(** A zero reading after the stream 70, 72, 150, 155, 160. *)
Lemma nonpositive_reading_discarded_witness :
  BluetoothHeartRateMonitor.parseHeartRate [Byte.x00; Byte.x00] <= 0 /\
  BluetoothHeartRateMonitor.onHeartRateChanged
    (fst (BluetoothHeartRateMonitor.monitor BluetoothHeartRateMonitor.rising_stream))
    ([Byte.x00; Byte.x00], (5000, 5000)) =
  (fst (BluetoothHeartRateMonitor.monitor BluetoothHeartRateMonitor.rising_stream), []).
Proof.
  assert (H : BluetoothHeartRateMonitor.parseHeartRate [Byte.x00; Byte.x00] <= 0)
    by discriminate.
  split; [exact H|].
  exact (nonpositive_reading_discarded
           (fst (BluetoothHeartRateMonitor.monitor BluetoothHeartRateMonitor.rising_stream))
           [Byte.x00; Byte.x00] 5000 5000 H).
Defined.

(** ** Games gate and redirect counter *)

Section Gate.
Import Dashboard.

Lemma onEmotionChange_count (st : t * Document) (e : option Emotion) :
  sadMoodCount (fst (fst (onEmotionChange st e))) =
  sadMoodCount (fst st) + (if decide (e = Some sad) then 1 else 0).
Proof.
  destruct st as [self doc]. unfold onEmotionChange.
  case_bool_decide; case_decide; try done.
  - by destruct (_ && _).
  - simpl. lia.
Qed.

Lemma onEmotionChange_gate (st : t * Document) (e : option Emotion) :
  play_games_btn (snd (fst (onEmotionChange st e))) =
    (fun _ => bool_decide (e <> Some sad)) <$> play_games_btn (snd st) /\
  play_games_link (snd (fst (onEmotionChange st e))) =
    (fun _ => bool_decide (e <> Some sad)) <$> play_games_link (snd st).
Proof.
  destruct st as [self doc]. unfold onEmotionChange.
  case_bool_decide; [destruct (_ && _)|]; done.
Qed.

(** Once the flag is set, the listener is silent and leaves it set. *)
Lemma onEmotionChange_latched (st : t * Document) (e : option Emotion) :
  hasRedirected (fst st) = true ->
  snd (onEmotionChange st e) = [] /\
  hasRedirected (fst (fst (onEmotionChange st e))) = true.
Proof.
  destruct st as [self doc]. simpl. intros Hred. unfold onEmotionChange.
  rewrite Hred. by case_bool_decide.
Qed.

Lemma listener_latched (st : t * Document) (ev : CustomEvent) :
  hasRedirected (fst st) = true ->
  snd (listener st ev) = [] /\ hasRedirected (fst (fst (listener st ev))) = true.
Proof.
  intros Hred. destruct ev; simpl; auto using onEmotionChange_latched.
Qed.

Lemma run_listener_latched (evs : list CustomEvent) (st : t * Document) :
  hasRedirected (fst st) = true ->
  snd (run listener st evs) = [] /\
  hasRedirected (fst (fst (run listener st evs))) = true.
Proof.
  revert st. induction evs as [|ev evs IH]; intros st Hred; [done|].
  cbn [run]. destruct (listener_latched st ev Hred) as [Hout Hred'].
  destruct (listener st ev) as [s1 out1]. simpl in *.
  specialize (IH s1 Hred').
  destruct (run listener s1 evs) as [s2 out2]. simpl in *.
  by subst.
Qed.

(** A step navigates at most once, and only by setting the flag. *)
Lemma listener_navigates (st : t * Document) (ev : CustomEvent) :
  snd (listener st ev) = [] \/
  snd (listener st ev) = [Navigate "games.html"] /\
  hasRedirected (fst st) = false /\
  hasRedirected (fst (fst (listener st ev))) = true.
Proof.
  destruct st as [self doc]. destruct ev as [e ?| |]; simpl; auto.
  unfold onEmotionChange. case_bool_decide; auto.
  destruct (hasRedirected self) eqn:Hred; simpl; auto.
  destruct (3 <=? _); simpl; auto.
Qed.

Lemma run_listener_once (evs : list CustomEvent) (st : t * Document) :
  (length (snd (run listener st evs)) <= 1)%nat.
Proof.
  revert st. induction evs as [|ev evs IH]; intros st; [simpl; lia|].
  cbn [run].
  destruct (listener_navigates st ev) as [Hout|(Hout & _ & Hred)].
  - specialize (IH (fst (listener st ev))).
    destruct (listener st ev) as [s1 out1]. simpl in IH, Hout.
    destruct (run listener s1 evs) as [s2 out2]. simpl in *. subst. simpl. lia.
  - pose proof (run_listener_latched evs _ Hred) as [Hrest _].
    destruct (listener st ev) as [s1 out1]. simpl in Hrest, Hout.
    destruct (run listener s1 evs) as [s2 out2]. simpl in *. subst. simpl. lia.
Qed.

Variables (w : Window) (doc : Document).

(** Along every run from the initial state: the counter is the pre-seed
    plus the number of sad events, the flag tells whether it has reached
    3, and the gate elements are those of the page. *)
Lemma dashboard_reachable (emotions : list (option Emotion)) :
  let st := fst (run onEmotionChange (initDashboard w doc) emotions) in
  sadMoodCount (fst st) =
    (if decide (currentEmotion w = Some sad) then 1 else 0) + sad_events emotions /\
  hasRedirected (fst st) = (3 <=? sadMoodCount (fst st)) /\
  (is_Some (play_games_btn (snd st)) <-> is_Some (play_games_btn doc)).
Proof.
  induction emotions as [|e emotions IH] using rev_ind.
  - simpl. unfold sad_events. simpl.
    split; [case_bool_decide; case_decide; done|].
    split; [by case_bool_decide|]. by rewrite fmap_is_Some.
  - rewrite run_snoc. cbn [fst].
    destruct IH as (Hcount & Hred & Hbtn).
    set (st := fst (run onEmotionChange (initDashboard w doc) emotions)) in *.
    split; [|split].
    + rewrite onEmotionChange_count, Hcount. unfold sad_events.
      rewrite filter_app, length_app, filter_cons, filter_nil.
      repeat case_decide; simpl; try congruence; lia.
    + pose proof (onEmotionChange_count st e) as Hc.
      destruct st as [self d]. simpl in *. unfold onEmotionChange in *.
      case_bool_decide; case_decide; try congruence; simpl in *; [|by rewrite Hred].
      destruct (hasRedirected self) eqn:Hr; simpl in *.
      * symmetry in Hred. apply Z.leb_le in Hred. symmetry. apply Z.leb_le. lia.
      * destruct (3 <=? sadMoodCount self + 1) eqn:Hge; simpl; by rewrite Hge.
    + rewrite (proj1 (onEmotionChange_gate st e)), fmap_is_Some. done.
Qed.

End Gate.

(** C2.  From the state [initDashboard] leaves, after any stream of
    [emotionchange] events: the counter starts at 1 if the current emotion
    is already sad and at 0 otherwise, with the flag unset; every event
    adds 1 to the counter if its emotion is sad and nothing otherwise, so
    the counter is the pre-seed plus the number of sad events; the
    navigation to the games page is performed by the event that takes the
    counter from below 3 to 3, and by no other; and the gate is open after
    an event exactly when the button exists and the event's emotion is
    sad.  On the stream neutral, sad, neutral, sad, happy, sad with no
    pre-seed the gate is open after events 2, 4 and 6 only and the
    navigation is performed by event 6 only. *)
Theorem redirect_counter (w : Window) (doc : Document)
    (emotions : list (option Emotion)) (e : option Emotion) :
  let init := Dashboard.initDashboard w doc in
  let st := fst (run Dashboard.onEmotionChange init emotions) in
  let r := Dashboard.onEmotionChange st e in
  let preseed := if decide (currentEmotion w = Some sad) then 1 else 0 in
  Dashboard.sadMoodCount (fst init) = preseed /\
  Dashboard.hasRedirected (fst init) = false /\
  Dashboard.sadMoodCount (fst (fst r)) =
    Dashboard.sadMoodCount (fst st) + (if decide (e = Some sad) then 1 else 0) /\
  Dashboard.sadMoodCount (fst st) = preseed + Dashboard.sad_events emotions /\
  snd r =
    (if decide (Dashboard.sadMoodCount (fst st) < 3 /\ Dashboard.sadMoodCount (fst (fst r)) = 3)
     then [Dashboard.Navigate "games.html"] else []) /\
  Dashboard.unlocked (snd (fst r)) =
    bool_decide (is_Some (play_games_btn doc) /\ e = Some sad) /\
  map (fun s => (Dashboard.unlocked (snd (fst s)), snd s))
    (steps Dashboard.onEmotionChange (Dashboard.initDashboard window0 full_page)
       [Some neutral; Some sad; Some neutral; Some sad; Some happy; Some sad]) =
    [(false, []); (true, []); (false, []); (true, []); (false, []);
     (true, [Dashboard.Navigate "games.html"])].
Proof.
  intros init st r preseed.
  destruct (dashboard_reachable w doc emotions) as (Hcount & Hred & Hbtn).
  fold init st in Hcount, Hred, Hbtn. fold preseed in Hcount.
  pose proof (onEmotionChange_count st e) as Hstep. fold r in Hstep.
  split; [|split; [|split; [|split; [|split; [|split]]]]]; try done.
  - clear Hcount Hred Hbtn Hstep. subst init preseed. simpl.
    case_bool_decide; case_decide; done || tauto.
  - rewrite Hstep. clear Hstep Hcount Hbtn. subst r.
    destruct st as [self d]. cbn [fst] in *. unfold Dashboard.onEmotionChange.
    rewrite Hred. case_bool_decide as He; cbn [snd].
    + destruct (decide (e = Some sad)); [|done].
      destruct (Z.leb_spec 3 (Dashboard.sadMoodCount self));
        destruct (Z.leb_spec 3 (Dashboard.sadMoodCount self + 1));
        cbn [negb andb snd]; case_decide; done || lia.
    + destruct (decide (e = Some sad)); [done|].
      case_decide; [lia | done].
  - pose proof (proj1 (onEmotionChange_gate st e)) as Hgate. fold r in Hgate.
    unfold Dashboard.unlocked. rewrite Hgate.
    clear Hgate Hstep Hcount Hred.
    destruct (play_games_btn (snd st)) as [b|] eqn:Hb; simpl.
    + assert (is_Some (play_games_btn doc)) by (apply Hbtn; eauto).
      destruct (decide (e = Some sad)).
      * rewrite bool_decide_eq_false_2 by tauto. by rewrite bool_decide_eq_true_2.
      * rewrite bool_decide_eq_true_2 by done. by rewrite bool_decide_eq_false_2 by tauto.
    + assert (~ is_Some (play_games_btn doc)).
      { intros Hs. apply Hbtn in Hs. destruct Hs as [? Hs]. congruence. }
      by rewrite bool_decide_eq_false_2 by tauto.
Qed.

(** C3.  In any state in which the redirect flag is set, whatever events
    reach the listener afterwards: no navigation is performed, the flag
    stays set, and the counter goes on counting the sad events.  From any
    state at all, a stream of events performs at most one navigation. *)
Theorem redirect_latch (st : Dashboard.t * Document) (evs : list CustomEvent) :
  Dashboard.hasRedirected (fst st) = true ->
  snd (run Dashboard.listener st evs) = [] /\
  Dashboard.hasRedirected (fst (fst (run Dashboard.listener st evs))) = true /\
  Dashboard.sadMoodCount (fst (fst (run Dashboard.listener st evs))) =
    Dashboard.sadMoodCount (fst st) + Dashboard.sad_events (Dashboard.emotions_of evs) /\
  forall (st0 : Dashboard.t * Document),
    (length (snd (run Dashboard.listener st0 evs)) <= 1)%nat.
Proof.
  intros Hred.
  destruct (run_listener_latched evs st Hred) as [Hout Hred'].
  split; [done|]. split; [done|]. split; [|intros st0; apply run_listener_once].
  clear. revert st. induction evs as [|ev evs IH]; intros st.
  - unfold Dashboard.sad_events. simpl. lia.
  - cbn [run]. specialize (IH (fst (Dashboard.listener st ev))).
    assert (Hstep : Dashboard.sadMoodCount (fst (fst (Dashboard.listener st ev))) +
                    Dashboard.sad_events (Dashboard.emotions_of evs) =
                    Dashboard.sadMoodCount (fst st) +
                    Dashboard.sad_events (Dashboard.emotions_of (ev :: evs))).
    { destruct ev as [e ?| |]; simpl; try done.
      rewrite onEmotionChange_count. unfold Dashboard.sad_events.
      rewrite filter_cons. repeat case_decide; simpl; try congruence; lia. }
    destruct (Dashboard.listener st ev) as [s1 out1]. simpl in IH, Hstep.
    destruct (run Dashboard.listener s1 evs) as [s2 out2]. simpl in *. lia.
Qed.

(** The state the scenario of C2 ends in, then three more events. *)
Lemma redirect_latch_witness :
  let st := fst (run Dashboard.onEmotionChange (Dashboard.initDashboard window0 full_page)
                   [Some neutral; Some sad; Some neutral; Some sad; Some happy; Some sad]) in
  let evs := [emotionchange (Some neutral) 7000; emotionchange (Some sad) 8000;
              emotionchange None 9000] in
  Dashboard.hasRedirected (fst st) = true /\
  snd (run Dashboard.listener st evs) = [] /\
  Dashboard.hasRedirected (fst (fst (run Dashboard.listener st evs))) = true.
Proof.
  split; [reflexivity|].
  pose proof (redirect_latch
    (fst (run Dashboard.onEmotionChange (Dashboard.initDashboard window0 full_page)
            [Some neutral; Some sad; Some neutral; Some sad; Some happy; Some sad]))
    [emotionchange (Some neutral) 7000; emotionchange (Some sad) 8000;
     emotionchange None 9000] eq_refl) as H.
  split; [exact (proj1 H) | exact (proj1 (proj2 H))].
Defined.

(** ** Mood counselor *)

Section Counselor.
Import MoodCounselor.

Lemma same_settings_trans (a b c : t) :
  same_settings a b -> same_settings b c -> same_settings a c.
Proof. unfold same_settings. intuition congruence. Qed.

Lemma speak_next_settings (self : t) (lines : list string) :
  same_settings self (fst (speak_next self lines)) /\
  _cooldownUntil (fst (speak_next self lines)) = _cooldownUntil self /\
  _sadSince (fst (speak_next self lines)) = _sadSince self.
Proof. by destruct lines. Qed.

Lemma step_settings (self : t) (i : Input) : same_settings self (fst (step self i)).
Proof.
  destruct i as [e now now'|]; simpl.
  - unfold _onEmotion, _speakSupport. case_bool_decide; [|done].
    destruct (_sadSince self); simpl; destruct (_ && _); simpl; try done;
      by destruct (messages self).
  - unfold utteranceEnd. destruct (suspended self) as [rest|]; [|done].
    destruct (_sadSince self); [|done]. by destruct rest.
Qed.

Lemma run_settings (inputs : list Input) (self : t) :
  same_settings self (fst (run step self inputs)).
Proof.
  revert self. induction inputs as [|i inputs IH]; intros self; [done|].
  cbn [run]. pose proof (step_settings self i) as H1.
  specialize (IH (fst (step self i))).
  destruct (step self i) as [s1 out1].
  destruct (run step s1 inputs) as [s2 out2] eqn:Hrun.
  simpl in *. rewrite Hrun in IH. by eapply same_settings_trans.
Qed.

(** The guard of [_onEmotion], and what the handler does on either side
    of it. *)
Lemma _onEmotion_fires (self : t) (now now' : Z) :
  let since := default now (_sadSince self) in
  guard self since now = true ->
  _onEmotion self (Some (triggerEmotion self)) now now' =
  _speakSupport (set_sadSince self (Some since)) now'.
Proof.
  intros since Hg. unfold _onEmotion, guard in *.
  rewrite bool_decide_eq_true_2 by done. subst since.
  destruct self as [? ? ? [s|] ? ? ? ?]; simpl in *; by rewrite Hg.
Qed.

Lemma _onEmotion_quiet (self : t) (emotion : option Emotion) (now now' : Z) :
  let since := default now (_sadSince self) in
  emotion <> Some (triggerEmotion self) \/ guard self since now = false ->
  snd (_onEmotion self emotion now now') = [] /\
  _cooldownUntil (fst (_onEmotion self emotion now now')) = _cooldownUntil self /\
  _speaking (fst (_onEmotion self emotion now now')) = _speaking self /\
  suspended (fst (_onEmotion self emotion now now')) = suspended self /\
  _sadSince (fst (_onEmotion self emotion now now')) =
    (if decide (emotion = Some (triggerEmotion self)) then Some since else None).
Proof.
  intros since H. unfold _onEmotion, guard in *.
  case_bool_decide as He; case_decide; try done.
  destruct H as [H|Hg]; [done|]. subst since.
  destruct self as [? ? ? [s|] ? ? ? ?]; simpl in *; by rewrite Hg.
Qed.

Lemma _speakSupport_effects (self : t) (now : Z) :
  let r := _speakSupport self now in
  snd r = SpeakSupport :: map Speak (take 1 (messages self)) /\
  _cooldownUntil (fst r) = now + cooldownMs self /\
  _speaking (fst r) = bool_decide (messages self <> []) /\
  suspended (fst r) =
    match messages self with [] => None | _ :: rest => Some rest end /\
  _sadSince (fst r) = _sadSince self.
Proof.
  unfold _speakSupport. simpl. by destruct (messages self).
Qed.

Lemma utteranceEnd_cooldown (self : t) :
  _cooldownUntil (fst (utteranceEnd self)) = _cooldownUntil self /\
  sequences (snd (utteranceEnd self)) = 0%nat.
Proof.
  unfold utteranceEnd. destruct (suspended self) as [rest|]; [|done].
  destruct (_sadSince self); [|done]. by destruct rest.
Qed.

Lemma guard_cooldown (self : t) (since now : Z) :
  now < _cooldownUntil self -> guard self since now = false.
Proof.
  intros Hlt. unfold guard.
  destruct (Z.leb_spec (_cooldownUntil self) now); [lia|].
  by rewrite andb_false_r.
Qed.

(** No input stamped before the end of the cooldown starts a sequence. *)
Lemma step_cooldown (self : t) (i : Input) :
  (forall t, time_of i = Some t -> t < _cooldownUntil self) ->
  sequences (snd (step self i)) = 0%nat /\
  _cooldownUntil (fst (step self i)) = _cooldownUntil self.
Proof.
  intros Ht. destruct i as [e now now'|]; simpl.
  - edestruct (_onEmotion_quiet self e now now') as (Hout & Hcd & _).
    { right. apply guard_cooldown, Ht. done. }
    by rewrite Hout, Hcd.
  - destruct (utteranceEnd_cooldown self). done.
Qed.

Lemma run_cooldown (inputs : list Input) (self : t) :
  (forall i t, i ∈ inputs -> time_of i = Some t -> t < _cooldownUntil self) ->
  sequences (snd (run step self inputs)) = 0%nat /\
  _cooldownUntil (fst (run step self inputs)) = _cooldownUntil self.
Proof.
  revert self. induction inputs as [|i inputs IH]; intros self Ht; [done|].
  cbn [run].
  destruct (step_cooldown self i) as [Hseq Hcd].
  { intros t. apply Ht. left. }
  specialize (IH (fst (step self i))).
  destruct (step self i) as [s1 out1]. simpl in Hseq, Hcd, IH.
  destruct IH as [IHseq IHcd].
  { intros j t Hj. rewrite Hcd. apply Ht. by right. }
  destruct (run step s1 inputs) as [s2 out2]. simpl in *.
  unfold sequences in *. rewrite filter_app, length_app. split; [lia | congruence].
Qed.

Lemma sequences_app (a b : list Effect) :
  sequences (a ++ b) = (sequences a + sequences b)%nat.
Proof. unfold sequences. by rewrite filter_app, length_app. Qed.

End Counselor.

Section CounselorTrigger.
Import MoodCounselor.

Lemma guard_spec (self : t) (since now : Z) :
  guard self since now = true <->
  _speaking self = false /\ sustainMs self <= now - since /\ _cooldownUntil self <= now.
Proof.
  unfold guard. rewrite !andb_true_iff, negb_true_iff, !Z.leb_le. tauto.
Qed.

Lemma spoken_speak (lines : list string) : spoken (map Speak lines) = lines.
Proof. induction lines as [|l lines IH]; [done|]. simpl. by rewrite IH. Qed.

Lemma sequences_speak (lines : list string) : sequences (map Speak lines) = 0%nat.
Proof.
  unfold sequences. induction lines as [|l lines IH]; [done|].
  simpl. rewrite filter_cons. by case_decide.
Qed.

(** A target event on a state that passes the guard. *)
Lemma _onEmotion_trigger (self : t) (now now' : Z) :
  let r := _onEmotion self (Some (triggerEmotion self)) now now' in
  guard self (default now (_sadSince self)) now = true ->
  sequences (snd r) = 1%nat /\
  spoken (snd r) = take 1 (messages self) /\
  _cooldownUntil (fst r) = now' + cooldownMs self /\
  _speaking (fst r) = bool_decide (messages self <> []).
Proof.
  intros r Hg. subst r. rewrite _onEmotion_fires by done.
  destruct (_speakSupport_effects
              (set_sadSince self (Some (default now (_sadSince self)))) now')
    as (Hout & Hcd & Hsp & _).
  rewrite Hout, Hcd, Hsp. simpl messages. simpl cooldownMs.
  repeat split.
  - change (SpeakSupport :: ?l) with ([SpeakSupport] ++ l).
    by rewrite sequences_app, sequences_speak.
  - simpl. apply spoken_speak.
Qed.

End CounselorTrigger.

(** C4.  A target [emotionchange] event starts the spoken sequence exactly
    when the counselor is not speaking, the time since the recorded streak
    start (the event's own time if none is recorded) is at least
    [sustainMs], 5000 by default and on the page, and the time is at or
    past [_cooldownUntil]; any other event starts none.  Starting sets
    [_cooldownUntil] to the clock reading of the start plus [cooldownMs] at
    once, and the end of an utterance never writes it.  Hence, after a
    start, no event stamped before that reading plus [cooldownMs] starts
    another sequence, whatever happens in between; and a target event
    stamped at or after it, reaching a counselor that is not speaking and
    has a sustained streak, starts a second one. *)
Theorem counselor_trigger_and_cooldown (self : MoodCounselor.t)
    (emotion : option Emotion) (now now' : Z) :
  let r := MoodCounselor._onEmotion self emotion now now' in
  let since := default now (MoodCounselor._sadSince self) in
  let fires :=
    emotion = Some (MoodCounselor.triggerEmotion self) /\
    MoodCounselor._speaking self = false /\
    MoodCounselor.sustainMs self <= now - since /\
    MoodCounselor._cooldownUntil self <= now in
  (fires ->
     MoodCounselor.sequences (snd r) = 1%nat /\
     MoodCounselor.spoken (snd r) = take 1 (MoodCounselor.messages self) /\
     MoodCounselor._cooldownUntil (fst r) = now' + MoodCounselor.cooldownMs self /\
     MoodCounselor._speaking (fst r) = bool_decide (MoodCounselor.messages self <> [])) /\
  (~ fires ->
     snd r = [] /\
     MoodCounselor._cooldownUntil (fst r) = MoodCounselor._cooldownUntil self /\
     MoodCounselor._speaking (fst r) = MoodCounselor._speaking self) /\
  MoodCounselor.sustainMs (MoodCounselor.new MoodCounselor.no_options) = 5000 /\
  MoodCounselor.sustainMs MoodCounselor.page_counselor = 5000 /\
  MoodCounselor.cooldownMs MoodCounselor.page_counselor = 90000 /\
  MoodCounselor._cooldownUntil (fst (MoodCounselor.utteranceEnd self)) =
    MoodCounselor._cooldownUntil self /\
  (fires -> forall rest : list MoodCounselor.Input,
     (forall i t, i ∈ rest -> MoodCounselor.time_of i = Some t ->
                  t < now' + MoodCounselor.cooldownMs self) ->
     MoodCounselor.sequences
       (snd (run MoodCounselor.step self
               (MoodCounselor.OnEmotion emotion now now' :: rest))) = 1%nat) /\
  (fires -> forall (mid : list MoodCounselor.Input) (now2 now2' : Z),
     (forall i t, i ∈ mid -> MoodCounselor.time_of i = Some t ->
                  t < now' + MoodCounselor.cooldownMs self) ->
     let self2 := fst (run MoodCounselor.step self
                         (MoodCounselor.OnEmotion emotion now now' :: mid)) in
     MoodCounselor._speaking self2 = false ->
     MoodCounselor.sustainMs self <= now2 - default now2 (MoodCounselor._sadSince self2) ->
     now' + MoodCounselor.cooldownMs self <= now2 ->
     MoodCounselor.sequences
       (snd (run MoodCounselor.step self
               (MoodCounselor.OnEmotion emotion now now' ::
                mid ++ [MoodCounselor.OnEmotion emotion now2 now2']))) = 2%nat).
Proof.
  intros r since fires.
  assert (Hfire : fires ->
            MoodCounselor.sequences (snd r) = 1%nat /\
            MoodCounselor.spoken (snd r) = take 1 (MoodCounselor.messages self) /\
            MoodCounselor._cooldownUntil (fst r) = now' + MoodCounselor.cooldownMs self /\
            MoodCounselor._speaking (fst r) = bool_decide (MoodCounselor.messages self <> [])).
  { intros (-> & Hg). subst r. apply _onEmotion_trigger. by apply guard_spec. }
  assert (Hone : fires -> forall rest : list MoodCounselor.Input,
            (forall i t, i ∈ rest -> MoodCounselor.time_of i = Some t ->
                         t < now' + MoodCounselor.cooldownMs self) ->
            MoodCounselor.sequences
              (snd (run MoodCounselor.step self
                      (MoodCounselor.OnEmotion emotion now now' :: rest))) = 1%nat /\
            MoodCounselor._cooldownUntil
              (fst (run MoodCounselor.step self
                      (MoodCounselor.OnEmotion emotion now now' :: rest))) =
              now' + MoodCounselor.cooldownMs self).
  { intros Hf rest Hrest. destruct (Hfire Hf) as (Hseq & _ & Hcd & _).
    cbn [run MoodCounselor.step]. fold r.
    destruct (run_cooldown rest (fst r)) as [Hseq' Hcd'].
    { intros i t. rewrite Hcd. apply Hrest. }
    destruct r as [s1 out1]. simpl in *.
    destruct (run MoodCounselor.step s1 rest) as [s2 out2]. simpl in *.
    rewrite sequences_app. split; [lia | congruence]. }
  split; [exact Hfire|]. split.
  { intros Hn. subst r.
    destruct (_onEmotion_quiet self emotion now now') as (Hout & Hcd & Hsp & _); [|done].
    destruct (decide (emotion = Some (MoodCounselor.triggerEmotion self))); [|by left].
    right. apply not_true_is_false. intros Hg. apply guard_spec in Hg. by apply Hn. }
  split; [done|]. split; [done|]. split; [done|].
  split; [apply utteranceEnd_cooldown|].
  split; [intros Hf rest Hrest; by apply Hone|].
  intros Hf mid now2 now2' Hmid self2 Hsp Hsus Hcd2.
  destruct (Hone Hf mid Hmid) as [Hseq1 Hcd1]. fold self2 in Hcd1.
  change (MoodCounselor.OnEmotion emotion now now' ::
          mid ++ [MoodCounselor.OnEmotion emotion now2 now2'])
    with ((MoodCounselor.OnEmotion emotion now now' :: mid) ++
          [MoodCounselor.OnEmotion emotion now2 now2']).
  rewrite run_snoc. cbn [snd]. rewrite sequences_app, Hseq1. fold self2.
  destruct (run_settings (MoodCounselor.OnEmotion emotion now now' :: mid) self)
    as (Htr & Hsm & Hcm & _). fold self2 in Htr, Hsm, Hcm.
  destruct Hf as (He & _). cbn [MoodCounselor.step]. rewrite He, Htr.
  destruct (_onEmotion_trigger self2 now2 now2') as (Hseq2 & _); [|by rewrite Hseq2].
  apply guard_spec. rewrite <- Hsm, Hcd1. done.
Qed.

(** Membership in an explicit list of inputs, case by case. *)
Ltac each_input H :=
  repeat (apply elem_of_cons in H as [->|H]);
  [.. | by apply elem_of_nil in H].

(** The page's counselor, sad since time 0, receives a sad event at 5000:
    the sequence starts and the cooldown runs to 95000.  A sad event at
    60000, after the four utterances, starts nothing; one at 95000 starts
    the second sequence. *)
Lemma counselor_trigger_and_cooldown_witness :
  (Some sad = Some (MoodCounselor.triggerEmotion MoodCounselor.streak_started) /\
   MoodCounselor._speaking MoodCounselor.streak_started = false /\
   MoodCounselor.sustainMs MoodCounselor.streak_started <=
     5000 - default 5000 (MoodCounselor._sadSince MoodCounselor.streak_started) /\
   MoodCounselor._cooldownUntil MoodCounselor.streak_started <= 5000) /\
  MoodCounselor._cooldownUntil
    (fst (MoodCounselor._onEmotion MoodCounselor.streak_started (Some sad) 5000 5000)) = 95000 /\
  MoodCounselor.sequences
    (snd (run MoodCounselor.step MoodCounselor.streak_started
            [MoodCounselor.OnEmotion (Some sad) 5000 5000;
             MoodCounselor.UtteranceEnd; MoodCounselor.UtteranceEnd;
             MoodCounselor.UtteranceEnd; MoodCounselor.UtteranceEnd;
             MoodCounselor.OnEmotion (Some sad) 60000 60000])) = 1%nat /\
  MoodCounselor.sequences
    (snd (run MoodCounselor.step MoodCounselor.streak_started
            [MoodCounselor.OnEmotion (Some sad) 5000 5000;
             MoodCounselor.UtteranceEnd; MoodCounselor.UtteranceEnd;
             MoodCounselor.UtteranceEnd; MoodCounselor.UtteranceEnd;
             MoodCounselor.OnEmotion (Some sad) 95000 95000])) = 2%nat.
Proof.
  assert (Hf : Some sad = Some (MoodCounselor.triggerEmotion MoodCounselor.streak_started) /\
               MoodCounselor._speaking MoodCounselor.streak_started = false /\
               MoodCounselor.sustainMs MoodCounselor.streak_started <=
                 5000 - default 5000 (MoodCounselor._sadSince MoodCounselor.streak_started) /\
               MoodCounselor._cooldownUntil MoodCounselor.streak_started <= 5000).
  { repeat split; vm_compute; discriminate. }
  pose proof (counselor_trigger_and_cooldown MoodCounselor.streak_started (Some sad) 5000 5000)
    as (Hfire & _ & _ & _ & _ & _ & Hless & Hmore).
  split; [exact Hf|]. split; [|split].
  - exact (proj1 (proj2 (proj2 (Hfire Hf)))).
  - apply (Hless Hf).
    intros i t Hi Ht. each_input Hi; simpl in Ht; inversion Ht; subst; reflexivity.
  - apply (Hmore Hf [MoodCounselor.UtteranceEnd; MoodCounselor.UtteranceEnd;
                     MoodCounselor.UtteranceEnd; MoodCounselor.UtteranceEnd] 95000 95000).
    + intros i t Hi Ht. each_input Hi; simpl in Ht; inversion Ht.
    + reflexivity.
    + vm_compute. discriminate.
    + vm_compute. discriminate.
Defined.

Section CounselorSequence.
Import MoodCounselor.

(** While the counselor is speaking, emotion events start nothing and
    only move the streak start. *)
Lemma _onEmotion_speaking (self : t) (emotion : option Emotion) (now now' : Z) :
  _speaking self = true ->
  let r := _onEmotion self emotion now now' in
  snd r = [] /\ _speaking (fst r) = true /\ suspended (fst r) = suspended self /\
  _sadSince (fst r) =
    (if decide (emotion = Some (triggerEmotion self))
     then Some (default now (_sadSince self)) else None).
Proof.
  intros Hsp r. subst r.
  destruct (_onEmotion_quiet self emotion now now') as (Hout & _ & Hsp' & Hsus & Hs).
  { right. unfold guard. by rewrite Hsp. }
  by rewrite Hsp'.
Qed.

Lemma run_speaking (inputs : list Input) (self : t) :
  _speaking self = true ->
  (forall i, i ∈ inputs -> i <> UtteranceEnd) ->
  let r := run step self inputs in
  snd r = [] /\ _speaking (fst r) = true /\ suspended (fst r) = suspended self.
Proof.
  revert self. induction inputs as [|i inputs IH]; intros self Hsp Hin; [done|].
  cbn [run].
  assert (Hi : i <> UtteranceEnd) by (apply Hin; left).
  destruct i as [e now now'|]; [|done]. cbn [step].
  destruct (_onEmotion_speaking self e now now' Hsp) as (Hout & Hsp1 & Hsus1 & _).
  destruct (_onEmotion self e now now') as [s1 out1]. simpl in Hout, Hsp1, Hsus1.
  destruct (IH s1 Hsp1) as (Hout2 & Hsp2 & Hsus2).
  { intros j Hj. apply Hin. by right. }
  destruct (run step s1 inputs) as [s2 out2]. simpl in *.
  subst. repeat split; congruence.
Qed.

(** Events away from the target start nothing, whatever the state, and
    unset the streak start. *)
Lemma run_away (inputs : list Input) (self : t) :
  (forall i, i ∈ inputs ->
     exists e n n', i = OnEmotion e n n' /\ e <> Some (triggerEmotion self)) ->
  let r := run step self inputs in
  snd r = [] /\ _speaking (fst r) = _speaking self /\
  suspended (fst r) = suspended self /\
  (inputs <> [] -> _sadSince (fst r) = None).
Proof.
  revert self. induction inputs as [|i inputs IH]; intros self Hin; [done|].
  cbn [run].
  destruct (Hin i) as (e & n & n' & -> & He); [left|]. cbn [step].
  destruct (_onEmotion_quiet self e n n') as (Hout & _ & Hsp & Hsus & Hs); [by left|].
  rewrite decide_False in Hs by done.
  pose proof (step_settings self (OnEmotion e n n')) as (Htr & _). cbn [step] in Htr.
  destruct (_onEmotion self e n n') as [s1 out1]. simpl in Hout, Hsp, Hsus, Hs, Htr.
  destruct (IH s1) as (Hout2 & Hsp2 & Hsus2 & Hs2).
  { intros j Hj. rewrite <- Htr. apply Hin. by right. }
  assert (Hfinal : _sadSince (fst (run step s1 inputs)) = None).
  { destruct inputs; [exact Hs | by apply Hs2]. }
  destruct (run step s1 inputs) as [s2 out2]. simpl in *.
  subst. repeat split; congruence.
Qed.

(** With the streak in place, the utterance ends alone speak the lines
    left and then end the sequence. *)
Lemma run_to_completion (rest : list string) (self : t) :
  suspended self = Some rest -> _sadSince self <> None ->
  let r := run step self (replicate (Datatypes.S (length rest)) UtteranceEnd) in
  snd r = map Speak rest /\ _speaking (fst r) = false /\ suspended (fst r) = None.
Proof.
  assert (Hend : forall (c : t) (lines : list string),
            suspended c = Some lines -> _sadSince c <> None ->
            utteranceEnd c = speak_next c lines).
  { intros c lines Hsus Hs. unfold utteranceEnd. rewrite Hsus.
    by destruct (_sadSince c). }
  revert self. induction rest as [|line rest IH]; intros self Hsus Hs r; subst r;
    cbn [length replicate]; rewrite run_cons; cbn [step];
    rewrite (Hend self _ Hsus Hs); cbn [speak_next fst snd].
  - done.
  - destruct (IH (set_suspended self (Some rest))) as (Hout & Hsp & Hsus'); [done..|].
    cbn [replicate] in Hout, Hsp, Hsus'. by rewrite Hout, Hsp, Hsus'.
Qed.

(** No sequence is waiting exactly when the flag is down. *)
Lemma step_flag (self : t) (i : Input) :
  (suspended self = None <-> _speaking self = false) ->
  (suspended (fst (step self i)) = None <-> _speaking (fst (step self i)) = false).
Proof.
  intros Hinv. destruct i as [e now now'|]; cbn [step].
  - destruct (decide (e = Some (triggerEmotion self) /\
                      guard self (default now (_sadSince self)) now = true))
      as [[-> Hg]|Hn].
    + rewrite _onEmotion_fires by done.
      destruct (_speakSupport_effects
                  (set_sadSince self (Some (default now (_sadSince self)))) now')
        as (_ & _ & Hsp & Hsus & _).
      rewrite Hsp, Hsus. simpl.
      destruct (messages self) as [|m ms].
      * by rewrite bool_decide_eq_false_2 by (intros H; by apply H).
      * by rewrite bool_decide_eq_true_2.
    + destruct (_onEmotion_quiet self e now now') as (_ & _ & Hsp & Hsus & _).
      { destruct (decide (e = Some (triggerEmotion self))); [|by left].
        right. apply not_true_is_false. tauto. }
      by rewrite Hsp, Hsus.
  - unfold utteranceEnd. destruct (suspended self) as [rest|] eqn:Hsus.
    + destruct (_sadSince self); [|done].
      destruct rest; simpl; [done|].
      split; [done|]. intros Hsp. apply Hinv in Hsp. congruence.
    + simpl. by rewrite Hsus.
Qed.

Lemma run_flag (inputs : list Input) (options : Options) :
  let self := fst (run step (new options) inputs) in
  suspended self = None <-> _speaking self = false.
Proof.
  induction inputs as [|i inputs IH] using rev_ind; [done|].
  rewrite run_snoc. cbn [fst]. by apply step_flag.
Qed.

End CounselorSequence.

(** What the check at the end of an utterance does, read by the state it
    finds.  While a call of [_speakSupport] waits with lines left:
    if the streak start is unset when the utterance ends, no further line
    is spoken, the flag goes down and the call is over; this is what
    happens when the mood changes away from the target during the
    utterance and does not return to it before the utterance ends.  With
    the streak in place the remaining lines are spoken one per utterance
    end and then the flag goes down.  Whatever step ends the call leaves
    the flag down, and in every state the counselor reaches the flag is
    down exactly when no call is waiting. *)
Theorem support_sequence_abort (self : MoodCounselor.t) (rest : list string) :
  MoodCounselor.suspended self = Some rest ->
  (MoodCounselor._sadSince self = None ->
     snd (MoodCounselor.utteranceEnd self) = [] /\
     MoodCounselor._speaking (fst (MoodCounselor.utteranceEnd self)) = false /\
     MoodCounselor.suspended (fst (MoodCounselor.utteranceEnd self)) = None) /\
  (forall (e : option Emotion) (now now' : Z) (mid : list MoodCounselor.Input),
     e <> Some (MoodCounselor.triggerEmotion self) ->
     (forall i, i ∈ mid ->
        exists e' n n', i = MoodCounselor.OnEmotion e' n n' /\
                        e' <> Some (MoodCounselor.triggerEmotion self)) ->
     let r := run MoodCounselor.step self
                (MoodCounselor.OnEmotion e now now' :: mid ++ [MoodCounselor.UtteranceEnd]) in
     snd r = [] /\ MoodCounselor._speaking (fst r) = false /\
     MoodCounselor.suspended (fst r) = None) /\
  (MoodCounselor._sadSince self <> None ->
     let r := run MoodCounselor.step self
                (replicate (Datatypes.S (length rest)) MoodCounselor.UtteranceEnd) in
     MoodCounselor.spoken (snd r) = rest /\ MoodCounselor._speaking (fst r) = false /\
     MoodCounselor.suspended (fst r) = None) /\
  (forall i : MoodCounselor.Input,
     MoodCounselor.suspended (fst (MoodCounselor.step self i)) = None ->
     MoodCounselor._speaking (fst (MoodCounselor.step self i)) = false) /\
  (forall (options : MoodCounselor.Options) (inputs : list MoodCounselor.Input),
     let c := fst (run MoodCounselor.step (MoodCounselor.new options) inputs) in
     MoodCounselor.suspended c = None <-> MoodCounselor._speaking c = false).
Proof.
  intros Hsus.
  assert (Hcheck : forall c : MoodCounselor.t,
            MoodCounselor.suspended c = Some rest -> MoodCounselor._sadSince c = None ->
            snd (MoodCounselor.utteranceEnd c) = [] /\
            MoodCounselor._speaking (fst (MoodCounselor.utteranceEnd c)) = false /\
            MoodCounselor.suspended (fst (MoodCounselor.utteranceEnd c)) = None).
  { intros c Hc Hs. unfold MoodCounselor.utteranceEnd. by rewrite Hc, Hs. }
  split; [by apply Hcheck|]. split; [|split; [|split]].
  - intros e now now' mid He Hmid r. subst r.
    change (MoodCounselor.OnEmotion e now now' :: mid ++ [MoodCounselor.UtteranceEnd])
      with ((MoodCounselor.OnEmotion e now now' :: mid) ++ [MoodCounselor.UtteranceEnd]).
    rewrite run_snoc. cbn [fst snd MoodCounselor.step].
    destruct (run_away (MoodCounselor.OnEmotion e now now' :: mid) self)
      as (Hout & _ & Hsus' & Hs).
    { intros i [->|Hi]%elem_of_cons; [by eauto | by apply Hmid]. }
    destruct (Hcheck (fst (run MoodCounselor.step self
                              (MoodCounselor.OnEmotion e now now' :: mid))))
      as (Hout' & Hrest); [congruence | by apply Hs |].
    by rewrite Hout, Hout'.
  - intros Hs r. subst r.
    destruct (run_to_completion rest self Hsus Hs) as (Hout & Hrest).
    by rewrite Hout, spoken_speak.
  - intros i Hnone.
    destruct i as [e now now'|]; cbn [MoodCounselor.step] in *.
    + destruct (decide (e = Some (MoodCounselor.triggerEmotion self) /\
                        MoodCounselor.guard self
                          (default now (MoodCounselor._sadSince self)) now = true))
        as [[-> Hg]|Hn].
      * rewrite _onEmotion_fires in Hnone |- * by done.
        destruct (_speakSupport_effects
                    (MoodCounselor.set_sadSince self
                       (Some (default now (MoodCounselor._sadSince self)))) now')
          as (_ & _ & Hsp & Hsus' & _).
        rewrite Hsus' in Hnone. rewrite Hsp. simpl in *.
        destruct (MoodCounselor.messages self); [|done].
        by rewrite bool_decide_eq_false_2 by (intros H; by apply H).
      * destruct (_onEmotion_quiet self e now now') as (_ & _ & _ & Hsus' & _).
        { destruct (decide (e = Some (MoodCounselor.triggerEmotion self))); [|by left].
          right. apply not_true_is_false. tauto. }
        congruence.
    + unfold MoodCounselor.utteranceEnd in *. rewrite Hsus in *.
      destruct (MoodCounselor._sadSince self); [|done]. by destruct rest.
  - intros options inputs. apply run_flag.
Qed.

(** The page's counselor is speaking its first line when the mood turns
    neutral and then the face is lost: the utterance ends, nothing more is
    spoken and the flag is down. *)
Lemma support_sequence_abort_witness :
  MoodCounselor.suspended MoodCounselor.speaking_first =
    Some (tail MoodCounselor.default_messages) /\
  let r := run MoodCounselor.step MoodCounselor.speaking_first
             [MoodCounselor.OnEmotion (Some neutral) 6000 6000;
              MoodCounselor.OnEmotion None 7200 7200;
              MoodCounselor.UtteranceEnd] in
  snd r = [] /\ MoodCounselor._speaking (fst r) = false /\
  MoodCounselor.suspended (fst r) = None.
Proof.
  split; [reflexivity|].
  apply (proj1 (proj2 (support_sequence_abort MoodCounselor.speaking_first
                         (tail MoodCounselor.default_messages) eq_refl))
           (Some neutral) 6000 6000 [MoodCounselor.OnEmotion None 7200 7200]).
  - discriminate.
  - intros i Hi. each_input Hi. exists None, 7200, 7200. split; [reflexivity | discriminate].
Defined.


(** C10.  While a call of [_speakSupport] waits with [line] next and the
    flag up, the check at the end of the utterance speaks [line] exactly
    when the streak start is set at that moment and aborts exactly when it
    is unset.  So when, during the utterance, after any emotion events,
    the mood changes away from the target, which unsets the streak start,
    and then back to the target, which sets it again, the end of the
    utterance speaks [line] and the sequence goes on. *)
Theorem abort_check_reads_streak_only (self : MoodCounselor.t) (line : string)
    (rest : list string) (mid : list MoodCounselor.Input)
    (away : option Emotion) (t t' now now' : Z) :
  MoodCounselor.suspended self = Some (line :: rest) ->
  MoodCounselor._speaking self = true ->
  (forall i, i ∈ mid -> i <> MoodCounselor.UtteranceEnd) ->
  away <> Some (MoodCounselor.triggerEmotion self) ->
  (snd (MoodCounselor.utteranceEnd self) = [MoodCounselor.Speak line] <->
     MoodCounselor._sadSince self <> None) /\
  (snd (MoodCounselor.utteranceEnd self) = [] <-> MoodCounselor._sadSince self = None) /\
  MoodCounselor._sadSince
    (fst (run MoodCounselor.step self (mid ++ [MoodCounselor.OnEmotion away t t']))) = None /\
  let r := run MoodCounselor.step self
             (mid ++ [MoodCounselor.OnEmotion away t t';
                      MoodCounselor.OnEmotion (Some (MoodCounselor.triggerEmotion self)) now now';
                      MoodCounselor.UtteranceEnd]) in
  snd r = [MoodCounselor.Speak line] /\
  MoodCounselor._sadSince (fst r) = Some now /\
  MoodCounselor.suspended (fst r) = Some rest /\
  MoodCounselor._speaking (fst r) = true.
Proof.
  intros Hsus Hsp Hmid Haway.
  split; [|split].
  { unfold MoodCounselor.utteranceEnd. rewrite Hsus.
    destruct (MoodCounselor._sadSince self); simpl; split; congruence. }
  { unfold MoodCounselor.utteranceEnd. rewrite Hsus.
    destruct (MoodCounselor._sadSince self); simpl; split; congruence. }
  destruct (run_speaking mid self Hsp Hmid) as (Hout0 & Hsp0 & Hsus0).
  pose proof (run_settings mid self) as (Htr0 & _).
  set (s0 := fst (run MoodCounselor.step self mid)) in *.
  destruct (_onEmotion_speaking s0 away t t' Hsp0) as (Hout1 & Hsp1 & Hsus1 & Hs1).
  rewrite decide_False in Hs1 by congruence.
  pose proof (step_settings s0 (MoodCounselor.OnEmotion away t t')) as (Htr1 & _).
  cbn [MoodCounselor.step] in Htr1.
  set (s1 := fst (MoodCounselor._onEmotion s0 away t t')) in *.
  destruct (_onEmotion_speaking s1 (Some (MoodCounselor.triggerEmotion self)) now now' Hsp1)
    as (Hout2 & Hsp2 & Hsus2 & Hs2).
  rewrite decide_True, Hs1 in Hs2 by congruence. simpl in Hs2.
  set (s2 := fst (MoodCounselor._onEmotion s1 (Some (MoodCounselor.triggerEmotion self))
                    now now')) in *.
  split.
  { rewrite run_snoc. cbn [fst MoodCounselor.step]. exact Hs1. }
  intros r. subst r.
  rewrite run_app, !run_cons. cbn [run fst snd MoodCounselor.step].
  fold s0. fold s1. fold s2.
  rewrite Hout0, Hout1, Hout2. cbn [app].
  unfold MoodCounselor.utteranceEnd.
  rewrite Hsus2, Hsus1, Hsus0, Hsus, Hs2. cbn [MoodCounselor.speak_next fst snd].
  repeat split; simpl; congruence.
Qed.

(** The page's counselor is speaking its first line, with the second one
    next, when the mood turns neutral and back to sad. *)
Lemma abort_check_reads_streak_only_witness :
  MoodCounselor.suspended MoodCounselor.speaking_first =
    Some ("It's okay to feel sad sometimes. Would you like a short breathing exercise?"%string
          :: drop 2 MoodCounselor.default_messages) /\
  MoodCounselor._speaking MoodCounselor.speaking_first = true /\
  snd (run MoodCounselor.step MoodCounselor.speaking_first
         ([] ++ [MoodCounselor.OnEmotion (Some neutral) 6000 6000;
                 MoodCounselor.OnEmotion (Some sad) 6200 6200;
                 MoodCounselor.UtteranceEnd])) =
  [MoodCounselor.Speak
     "It's okay to feel sad sometimes. Would you like a short breathing exercise?"].
Proof.
  split; [reflexivity|]. split; [reflexivity|].
  refine (proj1 (proj2 (proj2 (proj2
    (abort_check_reads_streak_only MoodCounselor.speaking_first _
       (drop 2 MoodCounselor.default_messages) [] (Some neutral) 6000 6000 6200 6200
       eq_refl eq_refl _ _))))).
  - intros i Hi. by apply elem_of_nil in Hi.
  - discriminate.
Defined.

(** ** Remote call of the assistant *)

Section RemoteCall.
Import MaitriAssistant.
Variable network : nat -> FetchResult.

(** A status that reports rate limiting is not a success. *)
Lemma is_429_not_ok (status : Z) : (status =? 429) = true -> ok status = false.
Proof. intros ->%Z.eqb_eq. reflexivity. Qed.

(** A turn that meets status 429 before the last index waits and goes on. *)
Lemma loop_retry (n : nat) (i delay : Z) :
  is_429 (network (Z.to_nat i)) = true -> i < maxRetries - 1 ->
  loop network (Datatypes.S n) i delay =
  (Fetch :: Wait delay :: fst (loop network n (i + 1) (delay * 2)),
   snd (loop network n (i + 1) (delay * 2))).
Proof.
  intros H429 Hi. cbn [loop].
  destruct (network (Z.to_nat i)) as [|status body]; [done|]. simpl in H429.
  rewrite (is_429_not_ok status H429), H429.
  destruct (Z.ltb_spec i (maxRetries - 1)); [|lia]. simpl.
  by destruct (loop network n (i + 1) (delay * 2)).
Qed.

(** Any other turn is the last one. *)
Lemma loop_last (n : nat) (i delay : Z) :
  is_429 (network (Z.to_nat i)) = false \/ maxRetries - 1 <= i ->
  loop network (Datatypes.S n) i delay = ([Fetch], final_result (network (Z.to_nat i))).
Proof.
  intros Hlast. cbn [loop]. unfold final_result.
  destruct (network (Z.to_nat i)) as [|status body]; [done|]. simpl in Hlast.
  destruct (ok status); [by destruct body|].
  destruct Hlast as [->|Hi]; [done|].
  destruct (Z.ltb_spec i (maxRetries - 1)); [lia|]. by rewrite andb_false_r.
Qed.

(** The message shown for the result of the last turn. *)
Lemma final_message (r : FetchResult) :
  match final_result r with
  | inl (Some text) => str_or text noTextMessage
  | _ => errorMessage
  end =
  if succeeded r then str_or (text_of r) noTextMessage else errorMessage.
Proof.
  destruct r as [|status body]; [done|]. simpl.
  destruct (ok status); by destruct body.
Qed.

Lemma analyze_ends (k : nat) (out : list Effect) :
  loop network (Z.to_nat maxRetries) 0 1000 = (out ++ [Fetch], final_result (network k)) ->
  out = backoff k ->
  analyzeToneAndRespond network = ends_at network k.
Proof.
  intros Hloop ->. unfold analyzeToneAndRespond, ends_at. rewrite Hloop.
  rewrite <- final_message.
  destruct (final_result (network k)) as [[text|]|err]; by rewrite <- app_assoc.
Qed.

(** The call ends at its first attempt that is not answered with 429,
    and at the third in any case. *)
Lemma analyze_cases :
  exists k : nat,
    (k <= 2)%nat /\
    Forall (fun j => is_429 (network j) = true) (seq 0 k) /\
    (k = 2%nat \/ is_429 (network k) = false) /\
    analyzeToneAndRespond network = ends_at network k.
Proof.
  change (Z.to_nat maxRetries) with 3%nat in *.
  destruct (is_429 (network 0)) eqn:H0.
  - destruct (is_429 (network 1)) eqn:H1.
    + exists 2%nat. split; [lia|]. split; [by repeat constructor|]. split; [by left|].
      apply (analyze_ends 2 (backoff 2)); [|done].
      change (Z.to_nat maxRetries) with 3%nat.
      rewrite loop_retry by done. rewrite loop_retry by done.
      rewrite loop_last by (right; done). done.
    + exists 1%nat. split; [lia|]. split; [by repeat constructor|]. split; [by right|].
      apply (analyze_ends 1 (backoff 1)); [|done].
      change (Z.to_nat maxRetries) with 3%nat.
      rewrite loop_retry by done. rewrite loop_last by (left; done). done.
  - exists 0%nat. split; [lia|]. split; [constructor|]. split; [by right|].
    apply (analyze_ends 0 (backoff 0)); [|done].
    change (Z.to_nat maxRetries) with 3%nat.
    rewrite loop_last by (left; done). done.
Qed.

End RemoteCall.

(** C9 (as amended).  Whatever the network answers, the remote call makes
    at most three calls of [fetch], that is at most two retries: a
    response with status 429 to the first or second call is followed by a
    wait of 1000 ms, then 2000 ms, and another call; the call that ends the
    loop is the first one not answered with 429, or the third one whatever
    its answer.  The handler then shows and speaks exactly one message: the
    reply if that last call succeeded, and the fixed fallback message in
    every other case; no error leaves the handler. *)
Theorem remote_call_retry (network : nat -> MaitriAssistant.FetchResult) :
  let out := MaitriAssistant.analyzeToneAndRespond network in
  exists k : nat,
    (k <= 2)%nat /\
    Forall (fun j => MaitriAssistant.is_429 (network j) = true) (seq 0 k) /\
    (k = 2%nat \/ MaitriAssistant.is_429 (network k) = false) /\
    out = MaitriAssistant.ends_at network k /\
    MaitriAssistant.fetches out = Datatypes.S k /\
    MaitriAssistant.waits out = take k [1000; 2000] /\
    MaitriAssistant.said out = MaitriAssistant.displayed out /\
    MaitriAssistant.displayed out =
      [if MaitriAssistant.succeeded (network k)
       then MaitriAssistant.str_or (MaitriAssistant.text_of (network k))
              MaitriAssistant.noTextMessage
       else MaitriAssistant.errorMessage].
Proof.
  intros out. subst out.
  destruct (analyze_cases network) as (k & Hk & Hall & Hlast & Hout).
  exists k. rewrite Hout. repeat (split; [done|]).
  unfold MaitriAssistant.ends_at.
  destruct k as [|[|[|k]]]; [| | |lia]; repeat split.
Qed.

(** C9 as stated fails under persistent rate limiting: the call is retried
    twice, not three times, with waits of 1000 and 2000 ms, and the third
    response with status 429 is not retried but shown as the fallback. *)
Lemma remote_call_two_retries :
  MaitriAssistant.analyzeToneAndRespond MaitriAssistant.always_429 =
    [MaitriAssistant.Fetch; MaitriAssistant.Wait 1000;
     MaitriAssistant.Fetch; MaitriAssistant.Wait 2000;
     MaitriAssistant.Fetch;
     MaitriAssistant.Display MaitriAssistant.errorMessage;
     MaitriAssistant.Speak MaitriAssistant.errorMessage] /\
  length (MaitriAssistant.waits
            (MaitriAssistant.analyzeToneAndRespond MaitriAssistant.always_429)) <> 3%nat /\
  MaitriAssistant.fetches
    (MaitriAssistant.analyzeToneAndRespond MaitriAssistant.always_429) <> 4%nat.
Proof. repeat split; discriminate. Qed.

(** ** The page as a whole *)

Section WholePage.
Import Page.

(** A target event that finds no streak start records it and starts
    nothing: no time has elapsed yet. *)
Lemma _onEmotion_fresh_streak (c : MoodCounselor.t) (now now' : Z) :
  MoodCounselor._sadSince c = None -> 0 < MoodCounselor.sustainMs c ->
  MoodCounselor._onEmotion c (Some (MoodCounselor.triggerEmotion c)) now now' =
  (MoodCounselor.set_sadSince c (Some now), []).
Proof.
  intros Hs Hpos. unfold MoodCounselor._onEmotion.
  rewrite bool_decide_eq_true_2 by done. rewrite Hs. simpl.
  destruct (Z.leb_spec (MoodCounselor.sustainMs c) (now - now)); [lia|].
  by rewrite andb_false_r.
Qed.

Lemma dispatchEvent_emotionchange (now now' : Z) (p : t) (e : option Emotion) (at_ : Z) :
  dispatchEvent now now' p (emotionchange e at_) =
  ({| tracker := tracker p;
      gate := fst (Dashboard.onEmotionChange (gate p) e);
      counselor := fst (MoodCounselor._onEmotion (counselor p) e now now') |},
   map Gate (snd (Dashboard.onEmotionChange (gate p) e)) ++
   map Voice (snd (MoodCounselor._onEmotion (counselor p) e now now'))).
Proof.
  unfold dispatchEvent. simpl.
  destruct (Dashboard.onEmotionChange (gate p) e).
  by destruct (MoodCounselor._onEmotion (counselor p) e now now').
Qed.

Lemma voice_dispatch (a : list Dashboard.Effect) (b : list MoodCounselor.Effect) :
  voice ((map Gate a ++ map Voice b) ++ []) = b.
Proof.
  rewrite app_nil_r. induction a as [|x a IH]; [|done].
  simpl. induction b as [|y b IH]; [done|]. simpl in *. by rewrite IH.
Qed.

(** An event away from sad on a quiet page. *)
Lemma dispatch_away (now now' : Z) (p : t) (e : option Emotion) (at_ : Z)
    (tr : FaceMoodDetection.t * Window) :
  quiet p -> e <> Some sad ->
  let r := run (dispatchEvent now now')
             {| tracker := tr; gate := gate p; counselor := counselor p |}
             [emotionchange e at_] in
  quiet (fst r) /\ voice (snd r) = [].
Proof.
  intros (Hsp & Hsus & Htr & Hsm & _) He r. subst r.
  rewrite run_cons. cbn [run fst snd]. rewrite dispatchEvent_emotionchange.
  cbn [fst snd tracker gate counselor]. rewrite voice_dispatch.
  destruct (_onEmotion_quiet (counselor p) e now now') as (Hout & _ & Hsp' & Hsus' & Hs').
  { left. congruence. }
  rewrite decide_False in Hs' by congruence.
  pose proof (step_settings (counselor p) (MoodCounselor.OnEmotion e now now'))
    as (Htr' & Hsm' & _). cbn [MoodCounselor.step] in Htr', Hsm'.
  split; [|done]. repeat split; cbn [counselor]; congruence.
Qed.

(** A sad event on a quiet page whose tracker had not last emitted sad. *)
Lemma dispatch_sad (now now' : Z) (p : t) (at_ : Z) (tr : FaceMoodDetection.t * Window) :
  quiet p -> FaceMoodDetection.lastEmotion (fst (tracker p)) <> Some sad ->
  FaceMoodDetection.lastEmotion (fst tr) = Some sad ->
  let r := run (dispatchEvent now now')
             {| tracker := tr; gate := gate p; counselor := counselor p |}
             [emotionchange (Some sad) at_] in
  quiet (fst r) /\ voice (snd r) = [].
Proof.
  intros (Hsp & Hsus & Htr & Hsm & Hs) Hlast Hnew r. subst r.
  rewrite run_cons. cbn [run fst snd]. rewrite dispatchEvent_emotionchange.
  cbn [fst snd tracker gate counselor]. rewrite voice_dispatch.
  pose proof (_onEmotion_fresh_streak (counselor p) now now') as Hfresh.
  rewrite Htr in Hfresh. rewrite Hfresh; [|by apply Hs|lia].
  split; [|done]. repeat split; simpl; done.
Qed.

Lemma step_quiet (p : t) (i : Input) :
  quiet p -> quiet (fst (step p i)) /\ voice (snd (step p i)) = [].
Proof.
  intros Hq. destruct i as [o at_ now now'|]; cbn [step].
  - destruct (tracker p) as [self w] eqn:Htracker.
    assert (Hsame : quiet {| tracker := (self, w); gate := gate p; counselor := counselor p |}).
    { destruct Hq as (? & ? & ? & ? & Hs). rewrite Htracker in Hs. by repeat split. }
    unfold FaceMoodDetection.updateCurrentEmotion.
    destruct (negb (detected_mood (snd (gate p)))); [by split|].
    destruct o as [e|]; case_bool_decide as Hne; try by split.
    + destruct (decide (e = sad)) as [->|Hsad].
      * apply dispatch_sad; [done| by rewrite Htracker | done].
      * apply dispatch_away; [done|congruence].
    + by apply dispatch_away.
  - destruct Hq as (Hsp & Hsus & Hrest).
    unfold MoodCounselor.utteranceEnd. rewrite Hsus. by split.
Qed.

Lemma voice_app (a b : list Effect) : voice (a ++ b) = voice a ++ voice b.
Proof. unfold voice. by rewrite flat_map_app. Qed.

(** X9.  On the page the counselor never speaks.  The tracker dispatches an
    event only when the emotion changes, so every sad event follows an
    event that unset the streak start, or is the first one; it finds no
    streak start, records the present time, and compares an elapsed time
    of 0 with the 5000 ms threshold. *)
Remark page_counselor_never_speaks (doc : Document) (inputs : list Page.Input) :
  voice (snd (run step (DOMContentLoaded doc) inputs)) = [] /\
  quiet (fst (run step (DOMContentLoaded doc) inputs)).
Proof.
  induction inputs as [|i inputs IH] using rev_ind.
  - split; [done|]. by repeat split.
  - destruct IH as [Hvoice Hquiet]. rewrite run_snoc. cbn [fst snd].
    destruct (step_quiet _ i Hquiet) as [Hq Hv].
    by rewrite voice_app, Hvoice, Hv.
Qed.

End WholePage.

(** * Further properties of the code *)

(** ** Parsing a heart-rate measurement *)

Lemma byte_range (b : Byte.byte) : 0 <= Z.of_N (Byte.to_N b) <= 255.
Proof. pose proof (Byte.to_N_bounded b). lia. Qed.

Lemma byte_at_range (data : list Byte.byte) (i : nat) :
  0 <= BluetoothHeartRateMonitor.byte_at data i <= 255.
Proof.
  unfold BluetoothHeartRateMonitor.byte_at.
  destruct (data !! i); [apply byte_range | lia].
Qed.

(** A low byte and a shifted high byte share no bit: [|] adds them. *)
Lemma lor_shiftl_8 (lo hi : Z) :
  0 <= lo <= 255 -> 0 <= hi -> Z.lor lo (Z.shiftl hi 8) = lo + 256 * hi.
Proof.
  intros Hlo Hhi. rewrite <- Z.add_nocarry_lor.
  - rewrite Z.shiftl_mul_pow2 by lia. change (2 ^ 8) with 256. lia.
  - apply Z.bits_inj'. intros n Hn.
    rewrite Z.land_spec, Z.bits_0.
    destruct (Z.lt_ge_cases n 8) as [Hlt|Hge].
    + rewrite Z.shiftl_spec_low by done. apply andb_false_r.
    + rewrite (Z.bits_above_log2 lo n); [done | lia |].
      destruct (Z.eq_dec lo 0) as [->|Hnz]; [simpl; lia|].
      apply Z.log2_lt_pow2; [lia|].
      apply Z.lt_le_trans with (2 ^ 8); [change (2 ^ 8) with 256; lia|].
      apply Z.pow_le_mono_r; lia.
Qed.

Lemma land_1_odd (a : Z) : (Z.land a 1 =? 0) = negb (Z.odd a).
Proof.
  change 1 with (Z.ones 1). rewrite Z.land_ones by lia. change (2 ^ 1) with 2.
  rewrite Zmod_odd. by destruct (Z.odd a).
Qed.

(** X1.  What [parseHeartRate] reads from a buffer.  With fewer than two
    bytes the reading is 0.  Otherwise bit 0 of the first byte selects the
    format: when it is clear the reading is the second byte; when it is set
    the reading is the second byte plus 256 times the third, a missing
    third byte counting as 0.  No other bit of the first byte and no byte
    after the third has any influence. *)
Theorem parseHeartRate_format (flags lo hi : Byte.byte) (rest : list Byte.byte) :
  let byte b := Z.of_N (Byte.to_N b) in
  BluetoothHeartRateMonitor.parseHeartRate [] = 0 /\
  BluetoothHeartRateMonitor.parseHeartRate [flags] = 0 /\
  BluetoothHeartRateMonitor.parseHeartRate [flags; lo] = byte lo /\
  BluetoothHeartRateMonitor.parseHeartRate (flags :: lo :: hi :: rest) =
    (if Z.odd (byte flags) then byte lo + 256 * byte hi else byte lo).
Proof.
  intros byte. split; [done|]. split; [done|].
  unfold BluetoothHeartRateMonitor.parseHeartRate.
  unfold BluetoothHeartRateMonitor.byte_at. cbn [lookup list_lookup length].
  fold (byte flags) (byte lo) (byte hi).
  rewrite !land_1_odd, !negb_involutive.
  split.
  - change (2 <=? Z.of_nat 2) with true. cbn iota.
    destruct (Z.odd (byte flags)); [|done].
    rewrite lor_shiftl_8; [lia | apply byte_range | lia].
  - match goal with |- context [2 <=? ?x] => destruct (Z.leb_spec 2 x); [|lia] end.
    destruct (Z.odd (byte flags)); [|done].
    apply lor_shiftl_8; apply byte_range.
Qed.

(** X2.  Whatever the buffer holds, the reading is an integer between 0
    and 65535. *)
Theorem parseHeartRate_range (data : list Byte.byte) :
  0 <= BluetoothHeartRateMonitor.parseHeartRate data <= 65535.
Proof.
  unfold BluetoothHeartRateMonitor.parseHeartRate.
  pose proof (byte_at_range data 1) as H1.
  pose proof (byte_at_range data 2) as H2.
  destruct (2 <=? _); [|lia]. destruct (negb _); [|lia].
  rewrite lor_shiftl_8; lia.
Qed.

(** ** Stress detection against the readings in the window *)

Lemma foldr_add_le (c : Z) (l : list Z) :
  Forall (fun x => x <= c) l -> foldr Z.add 0 l <= c * Z.of_nat (length l).
Proof.
  induction 1 as [|x l Hx Hl IH]; simpl foldr; [simpl; lia|].
  rewrite length_cons. lia.
Qed.

Lemma foldr_add_gt (c : Z) (l : list Z) :
  l <> [] -> Forall (fun x => c < x) l -> c * Z.of_nat (length l) < foldr Z.add 0 l.
Proof.
  intros Hne Hall. induction Hall as [|x l Hx Hl IH]; [done|].
  simpl foldr. rewrite length_cons.
  destruct l as [|y l]; [simpl; lia|].
  assert (c * Z.of_nat (length (y :: l)) < foldr Z.add 0 (y :: l)) by (by apply IH).
  lia.
Qed.

Lemma length_pos_Q {A : Type} (l : list A) :
  l <> [] -> (0 < inject_Z (Z.of_nat (length l)))%Q.
Proof.
  intros Hne. rewrite <- (Zlt_Qlt 0). destruct l; [done|]. rewrite length_cons. lia.
Qed.

(** The mean of readings none of which exceeds [c] does not exceed [c]. *)
Lemma mean_le (c : Z) (l : list Z) :
  l <> [] -> Forall (fun x => x <= c) l -> (mean l <= inject_Z c)%Q.
Proof.
  intros Hne Hall. unfold mean.
  apply Qle_shift_div_r; [by apply length_pos_Q|].
  rewrite <- inject_Z_mult, <- Zle_Qle. by apply foldr_add_le.
Qed.

(** The mean of readings all above [c] is above [c]. *)
Lemma mean_gt (c : Z) (l : list Z) :
  l <> [] -> Forall (fun x => c < x) l -> (inject_Z c < mean l)%Q.
Proof.
  intros Hne Hall. unfold mean.
  apply Qlt_shift_div_l; [by apply length_pos_Q|].
  rewrite <- inject_Z_mult, <- Zlt_Qlt. by apply foldr_add_gt.
Qed.

(** X3.  No false alarm and no missed alarm.  For a monitor fed any
    notifications: a notification after which no reading in the window
    exceeds 100 publishes no [stressdetected] event; an accepted
    notification after which the window holds at least five readings, all
    above 100, publishes one. *)
Theorem stress_follows_window (evs : list BluetoothHeartRateMonitor.Notification)
    (data : list Byte.byte) (now now' : Z) :
  let ev := (data, (now, now')) in
  let w := BluetoothHeartRateMonitor.heartRateData
             (fst (BluetoothHeartRateMonitor.monitor (evs ++ [ev]))) in
  let fired := List.filter BluetoothHeartRateMonitor.is_stressdetected
                 (snd (BluetoothHeartRateMonitor.onHeartRateChanged
                         (fst (BluetoothHeartRateMonitor.monitor evs)) ev)) in
  (Forall (fun x => x <= 100) w -> fired = []) /\
  (0 < BluetoothHeartRateMonitor.parseHeartRate data ->
   (5 <= length w)%nat -> Forall (fun x => 100 < x) w ->
   exists avg, fired = [stressdetected "high_heart_rate"
                          (BluetoothHeartRateMonitor.parseHeartRate data) avg now'] /\
               (100 < avg)%Q).
Proof.
  intros ev w fired.
  assert (Hfired : 0 < BluetoothHeartRateMonitor.parseHeartRate data ->
            w = lastn 10 (BluetoothHeartRateMonitor.accepted evs ++
                          [BluetoothHeartRateMonitor.parseHeartRate data]) /\
            fired = BluetoothHeartRateMonitor.checkForStress
                      {| BluetoothHeartRateMonitor.heartRateData := w;
                         BluetoothHeartRateMonitor.stressThreshold := 100;
                         BluetoothHeartRateMonitor.avgWindow := 10 |}
                      (BluetoothHeartRateMonitor.parseHeartRate data) now').
  { intros Hh. subst fired w ev.
    rewrite onHeartRateChanged_reachable, !monitor_state, accepted_snoc.
    cbn [BluetoothHeartRateMonitor.heartRateData fst].
    destruct (Z.ltb_spec 0 (BluetoothHeartRateMonitor.parseHeartRate data)); [|lia].
    split; [done|].
    cbn [snd List.filter BluetoothHeartRateMonitor.is_stressdetected].
    apply checkForStress_only_stress. }
  split.
  - intros Hall.
    destruct (Z.ltb_spec 0 (BluetoothHeartRateMonitor.parseHeartRate data)) as [Hh|Hh].
    + destruct (Hfired Hh) as [Hw ->]. rewrite Hw in Hall |- *.
      apply checkForStress_reachable. intros [Hlen Havg].
      apply (Qlt_not_le _ _ Havg). apply (mean_le 100); [|done].
      intros Hnil. rewrite Hnil in Hlen. simpl in Hlen. lia.
    + subst fired ev. unfold BluetoothHeartRateMonitor.onHeartRateChanged.
      by destruct (Z.ltb_spec 0 (BluetoothHeartRateMonitor.parseHeartRate data)); [lia|].
  - intros Hh Hlen Hall. destruct (Hfired Hh) as [Hw ->].
    rewrite Hw in Hlen, Hall |- *.
    assert (Havg : (100 < mean (lastn 10 (BluetoothHeartRateMonitor.accepted evs ++
                     [BluetoothHeartRateMonitor.parseHeartRate data])))%Q).
    { apply (mean_gt 100); [|done].
      intros Hnil. rewrite Hnil in Hlen. simpl in Hlen. lia. }
    eexists. split; [|exact Havg].
    by apply checkForStress_reachable.
Qed.

(** Five readings of 160: the fifth raises the alarm. *)
Lemma stress_follows_window_witness :
  exists avg,
    List.filter BluetoothHeartRateMonitor.is_stressdetected
      (snd (BluetoothHeartRateMonitor.onHeartRateChanged
              (fst (BluetoothHeartRateMonitor.monitor
                      (replicate 4 (BluetoothHeartRateMonitor.reading Byte.xa0 0))))
              (BluetoothHeartRateMonitor.reading Byte.xa0 0))) =
    [stressdetected "high_heart_rate" 160 avg 0] /\ (100 < avg)%Q.
Proof.
  apply (proj2 (stress_follows_window
                  (replicate 4 (BluetoothHeartRateMonitor.reading Byte.xa0 0))
                  [Byte.x00; Byte.xa0] 0 0)).
  - reflexivity.
  - simpl. lia.
  - repeat constructor.
Defined.

(** X4.  What one notification dispatches, on any monitor: nothing, or a
    [heartrate] event, or a [heartrate] event followed by one
    [stressdetected] event.  A stress event never comes without the
    heart-rate event of the same reading before it. *)
Theorem notification_events (m : BluetoothHeartRateMonitor.t)
    (ev : BluetoothHeartRateMonitor.Notification) :
  let out := snd (BluetoothHeartRateMonitor.onHeartRateChanged m ev) in
  (length out <= 2)%nat /\
  List.filter BluetoothHeartRateMonitor.is_heartrate out = take 1 out /\
  List.filter BluetoothHeartRateMonitor.is_stressdetected out = drop 1 out.
Proof.
  destruct ev as [data [now now']]. intros out. subst out.
  unfold BluetoothHeartRateMonitor.onHeartRateChanged.
  destruct (0 <? _); [|repeat split; simpl; lia].
  unfold BluetoothHeartRateMonitor.updateHeartRate,
    BluetoothHeartRateMonitor.checkForStress,
    BluetoothHeartRateMonitor.triggerStressRelief. cbn [fst snd app].
  destruct (_ <? 3); [repeat split; simpl; first [done | lia]|].
  destruct (_ && _); repeat split; simpl; first [done | lia].
Qed.

(** ** The tracker and the global it writes *)

(** X5.  Without the detected-mood element the tracker is inert: whatever
    is observed, no event is dispatched and neither [lastEmotion] nor
    [window.currentEmotion] changes. *)
Theorem tracker_without_element (doc : Document)
    (st : FaceMoodDetection.t * Window) (obs : list (option Emotion * Z)) :
  detected_mood doc = false ->
  run (FaceMoodDetection.updateCurrentEmotion doc) st obs = (st, []).
Proof.
  intros Hno. induction obs as [|[o now] obs IH]; [done|].
  cbn [run]. unfold FaceMoodDetection.updateCurrentEmotion at 1.
  destruct st as [self w]. rewrite Hno. cbn [negb]. by rewrite IH.
Qed.

Lemma tracker_without_element_witness :
  detected_mood bare_page = false /\
  run (FaceMoodDetection.updateCurrentEmotion bare_page)
    (FaceMoodDetection.new, window0) [(Some sad, 0); (None, 200)] =
  ((FaceMoodDetection.new, window0), []).
Proof.
  split; [reflexivity|].
  exact (tracker_without_element bare_page (FaceMoodDetection.new, window0)
           [(Some sad, 0); (None, 200)] eq_refl).
Defined.

(** X6.  On any page and after any observations, [window.currentEmotion]
    holds the tracker's last emitted value. *)
Theorem currentEmotion_mirrors_lastEmotion (doc : Document)
    (obs : list (option Emotion * Z)) :
  let st := fst (FaceMoodDetection.observe doc obs) in
  currentEmotion (snd st) = FaceMoodDetection.lastEmotion (fst st).
Proof.
  unfold FaceMoodDetection.observe.
  induction obs as [|[o now] obs IH] using rev_ind; [done|].
  rewrite run_snoc. cbn [fst].
  destruct (run (FaceMoodDetection.updateCurrentEmotion doc) _ obs) as [[self w] out].
  cbn [fst snd] in *. unfold FaceMoodDetection.updateCurrentEmotion.
  destruct (negb (detected_mood doc)); [done|].
  destruct o; case_bool_decide; done.
Qed.

(** ** The page: gate, link and redirect against the observations *)

Section PageGate.
Import Page.

Lemma navigations_dispatch (a : list Dashboard.Effect) (b : list MoodCounselor.Effect) :
  PageTrace.navigations (map Gate a ++ map Voice b) = a.
Proof.
  induction a as [|x a IH]; simpl.
  - induction b as [|y b IH]; [done|]. exact IH.
  - by rewrite IH.
Qed.

Lemma navigations_app (a b : list Effect) :
  PageTrace.navigations (a ++ b) = PageTrace.navigations a ++ PageTrace.navigations b.
Proof. unfold PageTrace.navigations. by rewrite flat_map_app. Qed.

(** Dispatching events leaves the tracker alone and runs the gate's
    listener on each of them. *)
Lemma run_dispatch_gate (now now' : Z) (evs : list CustomEvent) (p : t) :
  let r := run (dispatchEvent now now') p evs in
  tracker (fst r) = tracker p /\
  gate (fst r) = fst (run Dashboard.listener (gate p) evs) /\
  PageTrace.navigations (snd r) = snd (run Dashboard.listener (gate p) evs).
Proof.
  revert p. induction evs as [|ev evs IH]; intros p; [done|].
  cbn zeta. rewrite !run_cons. cbn [fst snd].
  destruct (IH (fst (dispatchEvent now now' p ev))) as (Htr & Hg & Hnav).
  rewrite Htr, Hg, navigations_app, Hnav.
  unfold dispatchEvent.
  destruct (Dashboard.listener (gate p) ev) as [g out1].
  destruct (MoodCounselor.listener (counselor p) ev now now') as [c out2].
  cbn [fst snd tracker gate]. by rewrite navigations_dispatch.
Qed.

Lemma run_listener_emotions (evs : list CustomEvent) (st : Dashboard.t * Document) :
  run Dashboard.listener st evs =
  run Dashboard.onEmotionChange st (Dashboard.emotions_of evs).
Proof.
  revert st. induction evs as [|ev evs IH]; intros st; [done|].
  destruct ev as [e at_| |]; cbn [run Dashboard.listener Dashboard.emotions_of flat_map app].
  - fold (Dashboard.emotions_of evs).
    destruct (Dashboard.onEmotionChange st e) as [s1 out1]. by rewrite IH.
  - fold (Dashboard.emotions_of evs). rewrite IH.
    by destruct (run Dashboard.onEmotionChange st (Dashboard.emotions_of evs)).
  - fold (Dashboard.emotions_of evs). rewrite IH.
    by destruct (run Dashboard.onEmotionChange st (Dashboard.emotions_of evs)).
Qed.

Lemma emotions_of_app (a b : list CustomEvent) :
  Dashboard.emotions_of (a ++ b) = Dashboard.emotions_of a ++ Dashboard.emotions_of b.
Proof. unfold Dashboard.emotions_of. by rewrite flat_map_app. Qed.

(** The tracker reads the document only for the detected-mood element. *)
Lemma updateCurrentEmotion_doc (d1 d2 : Document) (st : FaceMoodDetection.t * Window)
    (arg : option Emotion * Z) :
  detected_mood d1 = detected_mood d2 ->
  FaceMoodDetection.updateCurrentEmotion d1 st arg =
  FaceMoodDetection.updateCurrentEmotion d2 st arg.
Proof. intros H. unfold FaceMoodDetection.updateCurrentEmotion. by rewrite H. Qed.

(** The gate never adds or removes an element of the document. *)
Lemma run_gate_document (emotions : list (option Emotion)) (st : Dashboard.t * Document) :
  detected_mood (snd (fst (run Dashboard.onEmotionChange st emotions))) =
  detected_mood (snd st).
Proof.
  revert st. induction emotions as [|e emotions IH]; intros st; [done|].
  rewrite run_cons. cbn [fst]. rewrite IH.
  destruct st as [self d]. unfold Dashboard.onEmotionChange.
  case_bool_decide; [destruct (_ && _)|]; done.
Qed.

Variable doc : Document.

(** The page runs the tracker on its observations and the gate on the
    events the tracker dispatches. *)
Lemma page_simulation (inputs : list Input) :
  let r := run step (DOMContentLoaded doc) inputs in
  let T := FaceMoodDetection.observe doc (PageTrace.observations inputs) in
  let G := run Dashboard.onEmotionChange (Dashboard.initDashboard window0 doc)
             (Dashboard.emotions_of (snd T)) in
  tracker (fst r) = fst T /\ gate (fst r) = fst G /\
  PageTrace.navigations (snd r) = snd G.
Proof.
  induction inputs as [|i inputs IH] using rev_ind; [done|].
  cbn zeta in *. destruct IH as (Htr & Hg & Hnav).
  unfold PageTrace.observations in *. rewrite flat_map_app.
  fold (PageTrace.observations inputs) in *.
  rewrite run_snoc. cbn [fst snd]. rewrite navigations_app, Hnav.
  set (p := fst (run step (DOMContentLoaded doc) inputs)) in *.
  set (T := FaceMoodDetection.observe doc (PageTrace.observations inputs)) in *.
  destruct i as [o at_ now now'|]; cbn [flat_map app step].
  - unfold FaceMoodDetection.observe. rewrite run_snoc. fold (FaceMoodDetection.observe doc (PageTrace.observations inputs)). fold T.
    cbn [fst snd]. rewrite emotions_of_app, run_app. cbn [fst snd].
    rewrite (updateCurrentEmotion_doc (snd (gate p)) doc).
    2:{ rewrite Hg. rewrite run_gate_document. done. }
    rewrite Htr.
    destruct (FaceMoodDetection.updateCurrentEmotion doc (fst T) (o, at_)) as [tr evs].
    cbn [fst snd].
    destruct (run_dispatch_gate now now' evs
                {| tracker := tr; gate := gate p; counselor := counselor p |})
      as (Htr' & Hg' & Hnav').
    cbn [tracker gate] in *.
    rewrite Htr', Hg', Hnav', run_listener_emotions, Hg. done.
  - rewrite app_nil_r.
    destruct (MoodCounselor.utteranceEnd (counselor p)) as [c out].
    cbn [fst snd tracker gate]. rewrite Htr, Hg. split; [done|]. split; [done|].
    fold T. assert (PageTrace.navigations (map Voice out) = []) as ->
      by (clear; by induction out).
    apply app_nil_r.
Qed.

End PageGate.

Section PageMirror.
Import Page.
Variable doc : Document.

Lemma onClick_prevented (w : Window) :
  bool_decide (PlayLink.onClick w <> PlayLink.Follow) =
  bool_decide (currentEmotion w <> Some sad).
Proof.
  unfold PlayLink.onClick.
  destruct (bool_decide (currentEmotion w <> Some sad)).
  - by apply bool_decide_eq_true_2.
  - apply bool_decide_eq_false_2. intros Hn. by apply Hn.
Qed.

(** An observation leaves the tracker as it is and dispatches nothing, or
    records the observed value and dispatches it. *)
Lemma updateCurrentEmotion_cases (d : Document) (st : FaceMoodDetection.t * Window)
    (o : option Emotion) (at_ : Z) :
  FaceMoodDetection.updateCurrentEmotion d st (o, at_) = (st, []) \/
  FaceMoodDetection.updateCurrentEmotion d st (o, at_) =
    (({| FaceMoodDetection.lastEmotion := o |}, {| currentEmotion := o |}),
     [emotionchange o at_]).
Proof.
  unfold FaceMoodDetection.updateCurrentEmotion. destruct st as [self w].
  destruct (negb _); [by left|].
  destruct o; case_bool_decide; auto.
Qed.

Lemma step_gate_mirrors (p : t) (i : Input) :
  PageTrace.gate_mirrors doc p -> PageTrace.gate_mirrors doc (fst (step p i)).
Proof.
  unfold PageTrace.gate_mirrors. rewrite !onClick_prevented. intros [Hbtn Hlink].
  destruct i as [o at_ now now'|]; cbn [step].
  - destruct (updateCurrentEmotion_cases (snd (gate p)) (tracker p) o at_) as [-> | ->].
    + cbn [run fst tracker gate]. done.
    + destruct (run_dispatch_gate now now' [emotionchange o at_]
                  {| tracker := ({| FaceMoodDetection.lastEmotion := o |},
                                 {| currentEmotion := o |});
                     gate := gate p; counselor := counselor p |})
        as (Htr & Hg & _).
      cbn zeta in Htr, Hg. rewrite Htr, Hg. cbn [tracker gate snd currentEmotion].
      rewrite run_cons. cbn [run fst Dashboard.listener].
      destruct (onEmotionChange_gate (gate p) o) as [Hb Hl].
      rewrite Hb, Hl, Hbtn, Hlink.
      by destruct (play_games_btn doc), (play_games_link doc).
  - destruct (MoodCounselor.utteranceEnd (counselor p)). done.
Qed.

Lemma run_gate_mirrors (inputs : list Input) :
  PageTrace.gate_mirrors doc (fst (run step (DOMContentLoaded doc) inputs)).
Proof.
  induction inputs as [|i inputs IH] using rev_ind.
  - unfold PageTrace.gate_mirrors. rewrite onClick_prevented. simpl.
    by destruct (play_games_btn doc), (play_games_link doc).
  - rewrite run_snoc. cbn [fst]. by apply step_gate_mirrors.
Qed.

End PageMirror.

(** X7.  On the page, after any observations and utterance ends, the
    button's [disabled] attribute and the link's [aria-disabled] attribute,
    when the elements exist, are true exactly when the click listener of
    the link would prevent a click: the attributes and the listener never
    disagree, although one is written from the event and the other reads
    [window.currentEmotion]. *)
Theorem gate_agrees_with_click (doc : Document) (inputs : list Page.Input) :
  let p := fst (run Page.step (Page.DOMContentLoaded doc) inputs) in
  let prevented :=
    bool_decide (PlayLink.onClick (snd (Page.tracker p)) <> PlayLink.Follow) in
  play_games_btn (snd (Page.gate p)) = (fun _ => prevented) <$> play_games_btn doc /\
  play_games_link (snd (Page.gate p)) = (fun _ => prevented) <$> play_games_link doc /\
  (PlayLink.onClick (snd (Page.tracker p)) = PlayLink.Follow <->
   currentEmotion (snd (Page.tracker p)) = Some sad).
Proof.
  intros p prevented. destruct (run_gate_mirrors doc inputs) as [Hbtn Hlink].
  split; [exact Hbtn|]. split; [exact Hlink|].
  clear. unfold PlayLink.onClick.
  destruct (decide (currentEmotion (snd (Page.tracker p)) = Some sad)) as [Hs|Hs].
  - by rewrite bool_decide_eq_false_2 by (intros Hn; by apply Hn).
  - by rewrite bool_decide_eq_true_2.
Qed.

Section PageRedirect.
Import Page.

Lemma sad_events_fst (l : list (option Emotion * nat)) :
  Dashboard.sad_events (map fst l) =
  Z.of_nat (length (filter (fun r => fst r = Some sad) l)).
Proof.
  unfold Dashboard.sad_events. f_equal.
  induction l as [|[x n] l IH]; [done|].
  cbn [map fst]. rewrite !filter_cons. cbn [fst].
  case_decide; simpl; by rewrite IH.
Qed.

(** The sad events the tracker dispatches are the sad runs it observes. *)
Lemma sad_events_runs (obs : list (option Emotion)) :
  Dashboard.sad_events (tail (map fst (runs (None :: obs)))) = PageTrace.sad_runs obs.
Proof.
  unfold PageTrace.sad_runs. destruct obs as [|x obs]; [done|].
  rewrite runs_values_cons.
  destruct (runs_cons_head x obs) as (n & more & Hx). rewrite Hx.
  cbn [map fst tail]. rewrite filter_cons. cbn [fst].
  case_decide as Hnone.
  - subst x. rewrite decide_False by done. cbn [app]. apply sad_events_fst.
  - cbn [app]. change (x :: map fst more) with (map fst ((x, n) :: more)).
    rewrite sad_events_fst, filter_cons. done.
Qed.

(** The navigation has been performed exactly when the counter has
    reached 3. *)
Lemma run_navigations (w : Window) (doc : Document) (emotions : list (option Emotion)) :
  let r := run Dashboard.onEmotionChange (Dashboard.initDashboard w doc) emotions in
  snd r = if 3 <=? Dashboard.sadMoodCount (fst (fst r))
          then [Dashboard.Navigate "games.html"] else [].
Proof.
  induction emotions as [|e emotions IH] using rev_ind.
  - simpl. by case_bool_decide.
  - cbn zeta in *. rewrite run_snoc. cbn [fst snd]. rewrite IH.
    destruct (dashboard_reachable w doc emotions) as (_ & Hred & _). cbn zeta in Hred.
    rewrite onEmotionChange_count.
    destruct (fst (run Dashboard.onEmotionChange (Dashboard.initDashboard w doc) emotions))
      as [self d]. cbn [fst] in *.
    unfold Dashboard.onEmotionChange. rewrite Hred.
    case_bool_decide as He.
    + rewrite decide_True by done.
      destruct (Z.leb_spec 3 (Dashboard.sadMoodCount self));
        destruct (Z.leb_spec 3 (Dashboard.sadMoodCount self + 1)); simpl; done || lia.
    + rewrite decide_False by done. rewrite Z.add_0_r.
      cbn [snd]. by rewrite app_nil_r.
Qed.

End PageRedirect.

(** X8.  On a page that has the detected-mood element, after any
    observations and utterance ends: the redirect counter is the number of
    maximal runs of sad among the observations, the redirect flag is set
    exactly when there have been three such runs, and the page has
    navigated to the games page exactly once in that case and not at all
    otherwise.  Staying sad for long counts once; the mood has to become
    sad three separate times. *)
Theorem redirect_after_three_sad_runs (doc : Document) (inputs : list Page.Input) :
  detected_mood doc = true ->
  let r := run Page.step (Page.DOMContentLoaded doc) inputs in
  let n := PageTrace.sad_runs (map fst (PageTrace.observations inputs)) in
  Dashboard.sadMoodCount (fst (Page.gate (fst r))) = n /\
  Dashboard.hasRedirected (fst (Page.gate (fst r))) = (3 <=? n) /\
  PageTrace.navigations (snd r) =
    (if 3 <=? n then [Dashboard.Navigate "games.html"] else []).
Proof.
  intros moodEl r n.
  destruct (page_simulation doc inputs) as (_ & Hg & Hnav). fold r in Hg, Hnav.
  set (E := Dashboard.emotions_of
              (snd (FaceMoodDetection.observe doc (PageTrace.observations inputs)))) in *.
  assert (HE : Dashboard.sad_events E = n).
  { subst E n. rewrite <- sad_events_runs.
    change Dashboard.emotions_of with FaceMoodDetection.emitted.
    unfold FaceMoodDetection.observe. by rewrite run_tracker_emitted. }
  destruct (dashboard_reachable window0 doc E) as (Hcount & Hred & _).
  cbn zeta in Hcount, Hred. rewrite decide_False, Z.add_0_l, HE in Hcount by done.
  pose proof (run_navigations window0 doc E) as Hout. cbn zeta in Hout.
  rewrite Hg, Hnav, Hout, Hred, Hcount. done.
Qed.

(** Sad, still sad, neutral, sad, face lost, sad: three runs, one
    navigation. *)
Lemma redirect_after_three_sad_runs_witness :
  detected_mood full_page = true /\
  PageTrace.navigations
    (snd (run Page.step (Page.DOMContentLoaded full_page)
            [Page.Observation (Some sad) 0 0 0; Page.Observation (Some sad) 200 200 200;
             Page.Observation (Some neutral) 400 400 400;
             Page.Observation (Some sad) 600 600 600;
             Page.Observation None 1800 1800 1800;
             Page.Observation (Some sad) 2000 2000 2000])) =
  [Dashboard.Navigate "games.html"].
Proof.
  split; [reflexivity|].
  exact (proj2 (proj2 (redirect_after_three_sad_runs full_page
    [Page.Observation (Some sad) 0 0 0; Page.Observation (Some sad) 200 200 200;
     Page.Observation (Some neutral) 400 400 400;
     Page.Observation (Some sad) 600 600 600;
     Page.Observation None 1800 1800 1800;
     Page.Observation (Some sad) 2000 2000 2000] eq_refl))).
Defined.

(** ** More on the counselor *)

Section CounselorMore.
Import MoodCounselor.

(** An emotion event starts a sequence, in which case the guard held, or
    produces no effect at all. *)
Lemma _onEmotion_cases (self : t) (e : option Emotion) (now now' : Z) :
  (e = Some (triggerEmotion self) /\
   guard self (default now (_sadSince self)) now = true /\
   _onEmotion self e now now' =
     _speakSupport (set_sadSince self (Some (default now (_sadSince self)))) now') \/
  (snd (_onEmotion self e now now') = [] /\
   suspended (fst (_onEmotion self e now now')) = suspended self /\
   _speaking (fst (_onEmotion self e now now')) = _speaking self).
Proof.
  destruct (decide (e = Some (triggerEmotion self) /\
                    guard self (default now (_sadSince self)) now = true))
    as [[-> Hg]|Hn].
  - left. split; [done|]. split; [done|]. by apply _onEmotion_fires.
  - right. destruct (_onEmotion_quiet self e now now') as (Hout & _ & Hsp & Hsus & _);
      [|done].
    destruct (decide (e = Some (triggerEmotion self))); [|by left].
    right. apply not_true_is_false. tauto.
Qed.

Lemma sequences_start (out : list Effect) : sequences (SpeakSupport :: out) <> 0%nat.
Proof. unfold sequences. rewrite filter_cons. by rewrite decide_True. Qed.

Lemma sequences_app_0 (a b : list Effect) :
  sequences (a ++ b) = 0%nat -> sequences a = 0%nat /\ sequences b = 0%nat.
Proof. rewrite sequences_app. lia. Qed.

Lemma spoken_app (a b : list Effect) : spoken (a ++ b) = spoken a ++ spoken b.
Proof. unfold spoken. by rewrite flat_map_app. Qed.

(** As long as no sequence starts, what is spoken is the lines the waiting
    call has left, from the first on. *)
Lemma run_spoken_prefix (inputs : list Input) (self : t) :
  sequences (snd (run step self inputs)) = 0%nat ->
  spoken (snd (run step self inputs)) `prefix_of` default [] (suspended self).
Proof.
  revert self. induction inputs as [|i inputs IH]; intros self; [intros _; apply prefix_nil|].
  rewrite run_cons. cbn [snd]. intros [H1 H2]%sequences_app_0.
  rewrite spoken_app. specialize (IH _ H2).
  destruct i as [e now now'|]; cbn [step] in *.
  - destruct (_onEmotion_cases self e now now') as [(_ & _ & Hfire)|(Hout & Hsus & _)].
    + rewrite Hfire in H1. destruct (_speakSupport_effects
        (set_sadSince self (Some (default now (_sadSince self)))) now') as (Heff & _).
      rewrite Heff in H1. by apply sequences_start in H1.
    + rewrite Hout, Hsus in *. exact IH.
  - unfold utteranceEnd in *. destruct (suspended self) as [rest|] eqn:Hsus.
    + destruct (_sadSince self).
      * destruct rest as [|line rest]; simpl in *.
        -- exact IH.
        -- by apply prefix_cons.
      * simpl in *. apply prefix_nil_inv in IH. rewrite IH. apply prefix_nil.
    + simpl in *. rewrite Hsus in IH. exact IH.
Qed.

End CounselorMore.

(** X10.  A streak gets no partial credit.  With a positive sustain
    threshold, a target event that comes right after an event with another
    emotion starts no sequence, in whatever state the counselor is and
    however late it comes: the earlier event unset the streak start, so the
    target event only records its own time as the new start.  The same
    holds for the first event a counselor receives. *)
Theorem streak_needs_consecutive_target_events (self : MoodCounselor.t)
    (away : option Emotion) (t t' now now' : Z) :
  0 < MoodCounselor.sustainMs self ->
  away <> Some (MoodCounselor.triggerEmotion self) ->
  let r := run MoodCounselor.step self
             [MoodCounselor.OnEmotion away t t';
              MoodCounselor.OnEmotion (Some (MoodCounselor.triggerEmotion self)) now now'] in
  snd r = [] /\ MoodCounselor._sadSince (fst r) = Some now /\
  forall options : MoodCounselor.Options,
    0 < MoodCounselor.sustainMs (MoodCounselor.new options) ->
    snd (MoodCounselor.step (MoodCounselor.new options)
           (MoodCounselor.OnEmotion
              (Some (MoodCounselor.triggerEmotion (MoodCounselor.new options))) now now')) = [].
Proof.
  intros Hpos Haway r. subst r.
  rewrite !run_cons. cbn [run fst snd MoodCounselor.step].
  destruct (_onEmotion_quiet self away t t') as (Hout & _ & _ & _ & Hs); [by left|].
  rewrite decide_False in Hs by done.
  pose proof (step_settings self (MoodCounselor.OnEmotion away t t')) as (Htr & Hsm & _).
  cbn [MoodCounselor.step] in Htr, Hsm.
  rewrite Htr, Hout, _onEmotion_fresh_streak by (done || lia).
  split; [done|]. split; [done|].
  intros options Hpos'. by rewrite _onEmotion_fresh_streak.
Qed.

Lemma streak_needs_consecutive_target_events_witness :
  0 < MoodCounselor.sustainMs MoodCounselor.streak_started /\
  Some neutral <> Some (MoodCounselor.triggerEmotion MoodCounselor.streak_started) /\
  snd (run MoodCounselor.step MoodCounselor.streak_started
         [MoodCounselor.OnEmotion (Some neutral) 4000 4000;
          MoodCounselor.OnEmotion (Some sad) 9000 9000]) = [].
Proof.
  assert (H1 : 0 < MoodCounselor.sustainMs MoodCounselor.streak_started) by reflexivity.
  assert (H2 : Some neutral <> Some (MoodCounselor.triggerEmotion MoodCounselor.streak_started))
    by discriminate.
  split; [exact H1|]. split; [exact H2|].
  exact (proj1 (streak_needs_consecutive_target_events MoodCounselor.streak_started
                  (Some neutral) 4000 4000 9000 9000 H1 H2)).
Defined.

(** X11.  The lines of a sequence are spoken in their order, none skipped
    and none repeated.  From any state, as long as no new sequence starts,
    the texts spoken are the first lines the waiting call has left (none
    when no call waits); and the sequence a target event starts begins with
    the first message and goes on through [messages] in order. *)
Theorem lines_spoken_in_order (self : MoodCounselor.t) (inputs : list MoodCounselor.Input) :
  (MoodCounselor.sequences (snd (run MoodCounselor.step self inputs)) = 0%nat ->
   MoodCounselor.spoken (snd (run MoodCounselor.step self inputs))
     `prefix_of` default [] (MoodCounselor.suspended self)) /\
  forall (now now' : Z),
    let r := MoodCounselor._onEmotion self (Some (MoodCounselor.triggerEmotion self)) now now' in
    MoodCounselor.sequences (snd r) = 1%nat ->
    MoodCounselor.sequences (snd (run MoodCounselor.step (fst r) inputs)) = 0%nat ->
    MoodCounselor.spoken (snd r ++ snd (run MoodCounselor.step (fst r) inputs))
      `prefix_of` MoodCounselor.messages self.
Proof.
  split; [apply run_spoken_prefix|].
  intros now now' r Hstart Hnone.
  pose proof (run_spoken_prefix inputs (fst r) Hnone) as Hrest.
  rewrite spoken_app. subst r.
  destruct (_onEmotion_cases self (Some (MoodCounselor.triggerEmotion self)) now now')
    as [(_ & _ & Hfire)|(Hout & _)].
  - rewrite Hfire in *.
    destruct (_speakSupport_effects
                (MoodCounselor.set_sadSince self
                   (Some (default now (MoodCounselor._sadSince self)))) now')
      as (Heff & _ & _ & Hsus & _).
    rewrite Heff. rewrite Hsus in Hrest. simpl MoodCounselor.messages in *.
    destruct (MoodCounselor.messages self) as [|m ms]; simpl in *.
    + apply prefix_nil_inv in Hrest. rewrite Hrest. done.
    + by apply prefix_cons.
  - rewrite Hout in Hstart. done.
Qed.

(** The page's counselor starts, two utterances end, the mood changes, the
    third ends: the first three messages were spoken. *)
Lemma lines_spoken_in_order_witness :
  MoodCounselor.sequences
    (snd (run MoodCounselor.step MoodCounselor.speaking_first
            [MoodCounselor.UtteranceEnd; MoodCounselor.UtteranceEnd;
             MoodCounselor.OnEmotion None 20000 20000; MoodCounselor.UtteranceEnd;
             MoodCounselor.UtteranceEnd])) = 0%nat /\
  MoodCounselor.spoken
    (snd (run MoodCounselor.step MoodCounselor.speaking_first
            [MoodCounselor.UtteranceEnd; MoodCounselor.UtteranceEnd;
             MoodCounselor.OnEmotion None 20000 20000; MoodCounselor.UtteranceEnd;
             MoodCounselor.UtteranceEnd]))
    `prefix_of` tail MoodCounselor.default_messages.
Proof.
  assert (H : MoodCounselor.sequences
    (snd (run MoodCounselor.step MoodCounselor.speaking_first
            [MoodCounselor.UtteranceEnd; MoodCounselor.UtteranceEnd;
             MoodCounselor.OnEmotion None 20000 20000; MoodCounselor.UtteranceEnd;
             MoodCounselor.UtteranceEnd])) = 0%nat) by reflexivity.
  split; [exact H|].
  exact (proj1 (lines_spoken_in_order MoodCounselor.speaking_first _) H).
Defined.

(** X12.  Sequences never overlap.  In every state a counselor reaches
    from its constructor, an input starts a sequence only if no call of
    [_speakSupport] is waiting and the flag is down; and no input starts
    more than one. *)
Theorem sequences_never_overlap (options : MoodCounselor.Options)
    (inputs : list MoodCounselor.Input) (i : MoodCounselor.Input) :
  let self := fst (run MoodCounselor.step (MoodCounselor.new options) inputs) in
  (MoodCounselor.sequences (snd (MoodCounselor.step self i)) <= 1)%nat /\
  (MoodCounselor.sequences (snd (MoodCounselor.step self i)) = 1%nat ->
   MoodCounselor.suspended self = None /\ MoodCounselor._speaking self = false).
Proof.
  intros self.
  pose proof (run_flag inputs options) as Hflag. fold self in Hflag. cbn zeta in Hflag.
  destruct i as [e now now'|]; cbn [MoodCounselor.step].
  - destruct (_onEmotion_cases self e now now') as [(_ & Hg & Hfire)|(Hout & _)].
    + apply guard_spec in Hg. destruct Hg as (Hsp & _).
      rewrite Hfire.
      destruct (_speakSupport_effects
                  (MoodCounselor.set_sadSince self
                     (Some (default now (MoodCounselor._sadSince self)))) now')
        as (Heff & _). rewrite Heff.
      change (MoodCounselor.SpeakSupport :: ?l) with ([MoodCounselor.SpeakSupport] ++ l).
      rewrite sequences_app, sequences_speak.
      change (MoodCounselor.sequences [MoodCounselor.SpeakSupport]) with 1%nat.
      split; [lia|].
      intros _. split; [by apply Hflag | done].
    + rewrite Hout. change (MoodCounselor.sequences []) with 0%nat.
      split; [lia | done].
  - destruct (utteranceEnd_cooldown self) as [_ Hseq]. rewrite Hseq. split; [lia | done].
Qed.

Lemma sequences_never_overlap_witness :
  MoodCounselor.sequences
    (snd (MoodCounselor.step
            (fst (run MoodCounselor.step
                    (MoodCounselor.new MoodCounselor.no_options)
                    [MoodCounselor.OnEmotion (Some sad) 0 0]))
            (MoodCounselor.OnEmotion (Some sad) 5000 5000))) = 1%nat /\
  MoodCounselor.suspended
    (fst (run MoodCounselor.step (MoodCounselor.new MoodCounselor.no_options)
            [MoodCounselor.OnEmotion (Some sad) 0 0])) = None.
Proof.
  assert (H : MoodCounselor.sequences
    (snd (MoodCounselor.step
            (fst (run MoodCounselor.step
                    (MoodCounselor.new MoodCounselor.no_options)
                    [MoodCounselor.OnEmotion (Some sad) 0 0]))
            (MoodCounselor.OnEmotion (Some sad) 5000 5000))) = 1%nat) by reflexivity.
  split; [exact H|].
  exact (proj1 (proj2 (sequences_never_overlap MoodCounselor.no_options
                         [MoodCounselor.OnEmotion (Some sad) 0 0]
                         (MoodCounselor.OnEmotion (Some sad) 5000 5000)) H)).
Defined.

(** ** More on the remote call *)

Lemma str_or_nonempty (a : option string) (b : string) :
  b <> ""%string -> MaitriAssistant.str_or a b <> ""%string.
Proof.
  intros Hb. unfold MaitriAssistant.str_or. destruct a as [s|]; [|done].
  by case_bool_decide.
Qed.

(** X13.  Whatever the network answers, the remote call ends by showing
    one message and speaking the same one, after all its calls of [fetch]
    and waits; the message is never empty, a reply without text or with an
    empty text being replaced by a fixed apology; and the waits add up to
    at most 3000 ms. *)
Theorem remote_call_outcome (network : nat -> MaitriAssistant.FetchResult) :
  exists (pre : list MaitriAssistant.Effect) (m : string),
    MaitriAssistant.analyzeToneAndRespond network =
      pre ++ [MaitriAssistant.Display m; MaitriAssistant.Speak m] /\
    MaitriAssistant.displayed pre = [] /\ MaitriAssistant.said pre = [] /\
    m <> ""%string /\
    foldr Z.add 0 (MaitriAssistant.waits (MaitriAssistant.analyzeToneAndRespond network))
      <= 3000.
Proof.
  destruct (analyze_cases network) as (k & Hk & _ & _ & Hout).
  rewrite Hout. unfold MaitriAssistant.ends_at.
  set (m := if MaitriAssistant.succeeded (network k)
            then MaitriAssistant.str_or (MaitriAssistant.text_of (network k))
                   MaitriAssistant.noTextMessage
            else MaitriAssistant.errorMessage).
  exists (MaitriAssistant.backoff k ++ [MaitriAssistant.Fetch]), m.
  assert (Hm : m <> ""%string).
  { subst m. destruct (MaitriAssistant.succeeded (network k)); [|done].
    by apply str_or_nonempty. }
  destruct k as [|[|[|k]]]; [| | |lia]; repeat split; try done; simpl; lia.
Qed.

(** ** Detection loop *)

Section DetectionFacts.
Import Detection.

Lemma insert_desc_head (x : Emotion * Q) (sorted : list (Emotion * Q)) :
  head (insert_desc x sorted) =
  match head sorted with
  | Some y => if Qle_bool (snd y) (snd x) then Some x else Some y
  | None => Some x
  end.
Proof. destruct sorted as [|y rest]; [done|]. simpl. by destruct (Qle_bool _ _). Qed.

(** The head of the sorted entries is a first maximum of the entries. *)
Lemma sort_desc_head (entries : Expressions) :
  match head (sort_desc entries) with
  | Some (name, score) =>
      exists before after,
        entries = before ++ (name, score) :: after /\
        Forall (fun x => (snd x < score)%Q) before /\
        Forall (fun x => (snd x <= score)%Q) after
  | None => entries = []
  end.
Proof.
  induction entries as [|[n s] rest IH]; [done|].
  cbn [sort_desc foldr]. fold (sort_desc rest). rewrite insert_desc_head.
  destruct (head (sort_desc rest)) as [[m t']|].
  - destruct IH as (before & after & -> & Hb & Ha). cbn [snd].
    destruct (Qle_bool t' s) eqn:Hle.
    + apply Qle_bool_iff in Hle.
      exists [], (before ++ (m, t') :: after). split; [done|]. split; [constructor|].
      apply Forall_app. split.
      * eapply Forall_impl; [exact Hb|]. intros x Hx. simpl in Hx.
        apply Qlt_le_weak. by apply Qlt_le_trans with t'.
      * constructor; [done|].
        eapply Forall_impl; [exact Ha|]. intros x Hx. simpl in Hx.
        by apply Qle_trans with t'.
    + assert (Hlt : (s < t')%Q).
      { apply Qnot_le_lt. intros Hle'. apply Qle_bool_iff in Hle'. congruence. }
      exists ((n, s) :: before), after. split; [done|]. split; [|done].
      by constructor.
  - subst rest. exists [], []. by repeat split.
Qed.

End DetectionFacts.

(** X14.  The expression the detection loop reports is the first entry of
    [Object.entries(expressions)] with the highest score: every entry
    before it has a lower score and no entry after it a higher one.  Some
    expression is reported whenever the object has an entry. *)
Theorem maxExpression_first_maximum (entries : Detection.Expressions) :
  (forall name : Emotion,
     Detection.maxExpression entries = Some name -> Detection.first_maximum entries name) /\
  (Detection.maxExpression entries = None <-> entries = []).
Proof.
  pose proof (sort_desc_head entries) as H. unfold Detection.maxExpression.
  destruct (Detection.sort_desc entries) as [|[n s] rest] eqn:Hs; simpl in H.
  - split; [done|]. by split.
  - split.
    + intros name [= <-]. destruct H as (before & after & Heq & Hb & Ha).
      by exists before, s, after.
    + split; [done|]. intros ->. done.
Qed.

(** Two expressions tie at 0.4: the earlier one is reported. *)
Lemma maxExpression_first_maximum_witness :
  Detection.maxExpression [(neutral, 0.2%Q); (sad, 0.4%Q); (happy, 0.4%Q)] = Some sad /\
  Detection.first_maximum [(neutral, 0.2%Q); (sad, 0.4%Q); (happy, 0.4%Q)] sad.
Proof.
  assert (H : Detection.maxExpression [(neutral, 0.2%Q); (sad, 0.4%Q); (happy, 0.4%Q)]
              = Some sad) by reflexivity.
  split; [exact H|].
  exact (proj1 (maxExpression_first_maximum _) sad H).
Defined.

Section DetectionRuns.
Import Detection.
Variable doc : Document.
Hypothesis moodEl : detected_mood doc = true.

(** The tracker part after [updateCurrentEmotion]: the observed value is
    recorded, and dispatched if it differs from the last one. *)
Lemma detection_update (self : t) (o : option Emotion) (now : Z) :
  let r := updateCurrentEmotion doc self o now in
  tracker (fst r) = ({| FaceMoodDetection.lastEmotion := o |}, {| currentEmotion := o |})
  \/ tracker (fst r) = tracker self /\
     FaceMoodDetection.lastEmotion (fst (tracker self)) = o /\ snd r = [].
Proof.
  unfold updateCurrentEmotion. destruct (tracker self) as [tr w] eqn:Htr.
  rewrite updateCurrentEmotion_step by done.
  case_decide; cbn [fst snd tracker]; [right | left]; done.
Qed.

Lemma detection_update_events (self : t) (o : option Emotion) (now : Z) :
  snd (updateCurrentEmotion doc self o now) =
  if decide (o = FaceMoodDetection.lastEmotion (fst (tracker self))) then []
  else [emotionchange o now].
Proof.
  unfold updateCurrentEmotion. destruct (tracker self) as [tr w] eqn:Htr.
  rewrite updateCurrentEmotion_step by done. cbn [fst]. by case_decide.
Qed.

Lemma detection_update_last (self : t) (o : option Emotion) (now : Z) :
  FaceMoodDetection.lastEmotion (fst (tracker (fst (updateCurrentEmotion doc self o now)))) = o.
Proof.
  unfold updateCurrentEmotion. destruct (tracker self) as [tr w] eqn:Htr.
  rewrite updateCurrentEmotion_step by done.
  case_decide; cbn [fst snd tracker]; done.
Qed.

Lemma detection_update_fields (self : t) (o : option Emotion) (now : Z) :
  let s := fst (updateCurrentEmotion doc self o now) in
  isCameraOn s = isCameraOn self /\ faceDetected s = faceDetected self /\
  detecting s = detecting self /\ timeouts s = timeouts self /\
  isModelLoaded s = isModelLoaded self.
Proof.
  unfold updateCurrentEmotion.
  by destruct (FaceMoodDetection.updateCurrentEmotion doc (tracker self) (o, now)).
Qed.

End DetectionRuns.

(** X15.  Stopping the camera does not stop a detection under way.  On a
    page that has the detected-mood element, with the camera on, the button
    enabled and a call of [detectEmotion] waiting for the detector: a click
    stops the camera and clears the emotion, dispatching the absent value
    if an emotion was set; when the detector then answers with a face, its
    best expression is recorded and dispatched although the camera is off,
    and no further poll starts a detection while it stays off. *)
Theorem late_detection_after_stop (doc : Document) (self : Detection.t)
    (entries : Detection.Expressions) (name : Emotion) (now now' : Z) :
  detected_mood doc = true ->
  Detection.isCameraOn self = true ->
  Detection.cameraBtn_disabled self = false ->
  Detection.listeners self = true ->
  (0 < Detection.detecting self)%nat ->
  Detection.maxExpression entries = Some name ->
  let stopped := Detection.step doc self (Detection.Click now) in
  let late := Detection.step doc (fst stopped) (Detection.Detected (Some entries) now') in
  Detection.isCameraOn (fst stopped) = false /\
  FaceMoodDetection.lastEmotion (fst (Detection.tracker (fst stopped))) = None /\
  snd stopped =
    (if decide (FaceMoodDetection.lastEmotion (fst (Detection.tracker self)) = None)
     then [] else [emotionchange None now]) /\
  snd late = [emotionchange (Some name) now'] /\
  Detection.isCameraOn (fst late) = false /\
  Detection.tracker (fst late) =
    ({| FaceMoodDetection.lastEmotion := Some name |}, {| currentEmotion := Some name |}) /\
  forall readyState : Z,
    Detection.step doc (fst late) (Detection.Interval readyState) = (fst late, []).
Proof.
  intros moodEl Hon Hbtn Hls Hdet Hmax stopped late.
  assert (Hstop : stopped = Detection.stopCamera doc self now).
  { subst stopped. cbn [Detection.step]. unfold Detection.click.
    by rewrite Hbtn, Hls, Hon. }
  set (self1 := {| Detection.isModelLoaded := Detection.isModelLoaded self;
                   Detection.isCameraOn := false; Detection.faceDetected := false;
                   Detection.listeners := Detection.listeners self;
                   Detection.cameraBtn_disabled := Detection.cameraBtn_disabled self;
                   Detection.cameraBtn_text := Detection.cameraBtn_text self;
                   Detection.tracker := Detection.tracker self;
                   Detection.detecting := Detection.detecting self;
                   Detection.timeouts := Detection.timeouts self |}).
  assert (Hstop' : stopped =
            (Detection.updateCameraUI (fst (Detection.updateCurrentEmotion doc self1 None now)),
             snd (Detection.updateCurrentEmotion doc self1 None now))).
  { rewrite Hstop. unfold Detection.stopCamera. fold self1.
    by destruct (Detection.updateCurrentEmotion doc self1 None now). }
  pose proof (detection_update_fields doc self1 None now) as (Hf1 & Hf2 & Hf3 & Hf4 & Hf5).
  pose proof (detection_update_last doc moodEl self1 None now) as Hlast.
  pose proof (detection_update_events doc moodEl self1 None now) as Hevs.
  set (u := Detection.updateCurrentEmotion doc self1 None now) in *.
  assert (Hs1 : Detection.isCameraOn (fst stopped) = false) by (by rewrite Hstop').
  assert (Hs2 : FaceMoodDetection.lastEmotion (fst (Detection.tracker (fst stopped))) = None)
    by (by rewrite Hstop').
  split; [exact Hs1|]. split; [exact Hs2|].
  split.
  { rewrite Hstop'. cbn [snd]. rewrite Hevs. cbn [Detection.tracker self1].
    repeat case_decide; congruence. }
  assert (Hdet' : Detection.detecting (fst stopped) = Detection.detecting self)
    by (by rewrite Hstop').
  set (self2 := {| Detection.isModelLoaded := Detection.isModelLoaded (fst stopped);
                   Detection.isCameraOn := Detection.isCameraOn (fst stopped);
                   Detection.faceDetected := true;
                   Detection.listeners := Detection.listeners (fst stopped);
                   Detection.cameraBtn_disabled := Detection.cameraBtn_disabled (fst stopped);
                   Detection.cameraBtn_text := Detection.cameraBtn_text (fst stopped);
                   Detection.tracker := Detection.tracker (fst stopped);
                   Detection.detecting := Nat.pred (Detection.detecting self);
                   Detection.timeouts := Detection.timeouts (fst stopped) |}).
  assert (Hlate : late = Detection.updateCurrentEmotion doc self2 (Some name) now').
  { subst late. cbn [Detection.step]. unfold Detection.detected.
    rewrite Hdet'. destruct (Detection.detecting self) as [|n]; [lia|].
    by rewrite Hmax. }
  rewrite Hlate.
  pose proof (detection_update_fields doc self2 (Some name) now') as (Hg1 & _).
  pose proof (detection_update_events doc moodEl self2 (Some name) now') as Hevs2.
  pose proof (detection_update doc moodEl self2 (Some name) now') as Hup.
  cbn zeta in Hup. cbn [Detection.tracker self2] in Hevs2, Hup.
  rewrite Hs2 in Hevs2. rewrite decide_False in Hevs2 by done.
  split; [exact Hevs2|]. split; [by rewrite Hg1|]. split.
  { destruct Hup as [Hup|(_ & Hup & _)]; [exact Hup | congruence]. }
  intros readyState. cbn [Detection.step]. unfold Detection.detectEmotion.
  rewrite Hg1. cbn [Detection.isCameraOn self2]. by rewrite Hs1.
Qed.

(** The camera watches a sad face; it is stopped while a detection is
    under way, and the detector then reports a happy face. *)
Lemma late_detection_after_stop_witness :
  (detected_mood full_page = true /\
   Detection.isCameraOn Detection.watching = true /\
   Detection.cameraBtn_disabled Detection.watching = false /\
   Detection.listeners Detection.watching = true /\
   (0 < Detection.detecting Detection.watching)%nat /\
   Detection.maxExpression [(happy, 0.7%Q); (sad, 0.3%Q)] = Some happy) /\
  snd (Detection.step full_page
         (fst (Detection.step full_page Detection.watching (Detection.Click 300)))
         (Detection.Detected (Some [(happy, 0.7%Q); (sad, 0.3%Q)]) 350)) =
  [emotionchange (Some happy) 350].
Proof.
  assert (H : detected_mood full_page = true /\
              Detection.isCameraOn Detection.watching = true /\
              Detection.cameraBtn_disabled Detection.watching = false /\
              Detection.listeners Detection.watching = true /\
              (0 < Detection.detecting Detection.watching)%nat /\
              Detection.maxExpression [(happy, 0.7%Q); (sad, 0.3%Q)] = Some happy).
  { repeat split. vm_compute. lia. }
  split; [exact H|].
  destruct H as (H1 & H2 & H3 & H4 & H5 & H6).
  pose proof (late_detection_after_stop full_page Detection.watching
                [(happy, 0.7%Q); (sad, 0.3%Q)] happy 300 350 H1 H2 H3 H4 H5 H6)
    as (_ & _ & _ & Hlate & _).
  exact Hlate.
Defined.

Section DetectionDebounce.
Import Detection.
Variable doc : Document.

(** Polls and answers without a face dispatch nothing and leave the
    emotion; the face stays unseen and no timeout is lost. *)
Lemma faceless_run (between : list Input) (self : t) :
  Forall (fun i => faceless i = true) between ->
  faceDetected self = false ->
  let r := run (step doc) self between in
  snd r = [] /\ tracker (fst r) = tracker self /\ faceDetected (fst r) = false /\
  (timeouts self <= timeouts (fst r))%nat.
Proof.
  intros Hall. revert self. induction Hall as [|i between Hi _ IH]; intros self Hface.
  - cbn. repeat split; [done|lia].
  - cbn zeta. rewrite run_cons. cbn [fst snd].
    assert (Hstep : snd (step doc self i) = [] /\
                    tracker (fst (step doc self i)) = tracker self /\
                    faceDetected (fst (step doc self i)) = false /\
                    (timeouts self <= timeouts (fst (step doc self i)))%nat).
    { destruct i as [| | |readyState|[entries|] now|]; try discriminate; cbn [step].
      - unfold detectEmotion. destruct (_ || _); cbn; repeat split; try done; lia.
      - unfold detected. destruct (detecting self); cbn; repeat split; try done; lia. }
    destruct Hstep as (Hout & Htr & Hf & Ht).
    destruct (IH (fst (step doc self i)) Hf) as (IHout & IHtr & IHf & IHt).
    cbn zeta in *. rewrite Hout, IHout, IHtr, Htr. repeat split; try done. lia.
Qed.

End DetectionDebounce.

(** X16.  Losing the face is debounced.  On a page that has the
    detected-mood element, when a waiting call of [detectEmotion] gets no
    face, nothing is dispatched and the emotion stays, also through any
    further polls and answers without a face.  The timeout scheduled then
    clears the emotion, dispatching the absent value if one was set.  But
    if a waiting call reports a face before that timeout runs, the face's
    best expression is recorded (and dispatched if it differs from the
    emotion there was), and the timeout dispatches nothing and leaves that
    emotion. *)
Theorem no_face_is_debounced (doc : Document) (self : Detection.t)
    (between : list Detection.Input)
    (entries : Detection.Expressions) (name : Emotion) (now1 now2 now3 : Z) :
  detected_mood doc = true ->
  (0 < Detection.detecting self)%nat ->
  Forall (fun i => Detection.faceless i = true) between ->
  Detection.maxExpression entries = Some name ->
  let before := FaceMoodDetection.lastEmotion (fst (Detection.tracker self)) in
  let lost := Detection.step doc self (Detection.Detected None now1) in
  let mid := run (Detection.step doc) (fst lost) between in
  let cleared := Detection.step doc (fst mid) (Detection.Timeout now3) in
  let seen := Detection.step doc (fst mid) (Detection.Detected (Some entries) now2) in
  let kept := Detection.step doc (fst seen) (Detection.Timeout now3) in
  snd lost = [] /\ snd mid = [] /\
  Detection.tracker (fst mid) = Detection.tracker self /\
  snd cleared = (if decide (before = None) then [] else [emotionchange None now3]) /\
  FaceMoodDetection.lastEmotion (fst (Detection.tracker (fst cleared))) = None /\
  ((0 < Detection.detecting (fst mid))%nat ->
   snd seen = (if decide (before = Some name) then []
               else [emotionchange (Some name) now2]) /\
   snd kept = [] /\
   FaceMoodDetection.lastEmotion (fst (Detection.tracker (fst kept))) = Some name).
Proof.
  intros moodEl Hdet Hbetween Hmax before lost mid cleared seen kept.
  destruct (Detection.detecting self) as [|n] eqn:Hn; [lia|].
  assert (Hlost : lost =
    ({| Detection.isModelLoaded := Detection.isModelLoaded self;
        Detection.isCameraOn := Detection.isCameraOn self;
        Detection.faceDetected := false;
        Detection.listeners := Detection.listeners self;
        Detection.cameraBtn_disabled := Detection.cameraBtn_disabled self;
        Detection.cameraBtn_text := Detection.cameraBtn_text self;
        Detection.tracker := Detection.tracker self;
        Detection.detecting := n;
        Detection.timeouts := Datatypes.S (Detection.timeouts self) |}, [])).
  { subst lost. cbn [Detection.step]. unfold Detection.detected. by rewrite Hn. }
  assert (Hlost_tr : Detection.tracker (fst lost) = Detection.tracker self)
    by (by rewrite Hlost).
  assert (Hlost_t : (1 <= Detection.timeouts (fst lost))%nat)
    by (rewrite Hlost; cbn; lia).
  assert (Hlost_f : Detection.faceDetected (fst lost) = false) by (by rewrite Hlost).
  destruct (faceless_run doc between (fst lost) Hbetween Hlost_f)
    as (Hmid_out & Hmid_tr & Hmid_f & Hmid_t).
  fold mid in Hmid_out, Hmid_tr, Hmid_f, Hmid_t. rewrite Hlost_tr in Hmid_tr.
  split; [by rewrite Hlost|]. split; [done|]. split; [done|].
  destruct (Detection.timeouts (fst mid)) as [|k] eqn:Hk; [lia|].
  split; [|split].
  - subst cleared. cbn [Detection.step]. unfold Detection.timeout. rewrite Hk.
    cbn [Detection.faceDetected]. rewrite Hmid_f. cbn [negb].
    rewrite detection_update_events by done. cbn [Detection.tracker]. rewrite Hmid_tr.
    fold before. repeat case_decide; congruence.
  - subst cleared. cbn [Detection.step]. unfold Detection.timeout. rewrite Hk.
    cbn [Detection.faceDetected]. rewrite Hmid_f. cbn [negb].
    by rewrite detection_update_last.
  - intros Hwait.
    destruct (Detection.detecting (fst mid)) as [|m] eqn:Hm; [lia|].
    assert (Hseen : seen = Detection.updateCurrentEmotion doc
      {| Detection.isModelLoaded := Detection.isModelLoaded (fst mid);
         Detection.isCameraOn := Detection.isCameraOn (fst mid);
         Detection.faceDetected := true;
         Detection.listeners := Detection.listeners (fst mid);
         Detection.cameraBtn_disabled := Detection.cameraBtn_disabled (fst mid);
         Detection.cameraBtn_text := Detection.cameraBtn_text (fst mid);
         Detection.tracker := Detection.tracker (fst mid);
         Detection.detecting := m;
         Detection.timeouts := Detection.timeouts (fst mid) |} (Some name) now2).
    { subst seen. cbn [Detection.step]. unfold Detection.detected.
      rewrite Hm. by rewrite Hmax. }
    match type of Hseen with
    | _ = Detection.updateCurrentEmotion _ ?s _ _ => set (s2 := s) in *
    end.
    pose proof (detection_update_fields doc s2 (Some name) now2) as (_ & Hface & _ & Htime & _).
    pose proof (detection_update_last doc moodEl s2 (Some name) now2) as Hlast.
    pose proof (detection_update_events doc moodEl s2 (Some name) now2) as Hev.
    rewrite <- Hseen in Hface, Htime, Hlast, Hev.
    cbn [s2 Detection.faceDetected Detection.timeouts Detection.tracker] in Hface, Htime, Hev.
    rewrite Hk in Htime. rewrite Hmid_tr in Hev. fold before in Hev.
    split; [|split].
    + rewrite Hev. repeat case_decide; congruence.
    + subst kept. cbn [Detection.step]. unfold Detection.timeout. rewrite Htime.
      cbn [Detection.faceDetected]. by rewrite Hface.
    + subst kept. cbn [Detection.step]. unfold Detection.timeout. rewrite Htime.
      cbn [Detection.faceDetected]. rewrite Hface. exact Hlast.
Qed.

(** The camera watches a sad face with one call waiting: the call gets no
    face, the next poll starts a call, that call reports a sad face, and
    the timeout of the first answer runs. *)
Lemma no_face_is_debounced_witness :
  (detected_mood full_page = true /\
   (0 < Detection.detecting Detection.watching)%nat /\
   Forall (fun i => Detection.faceless i = true) [Detection.Interval 4] /\
   Detection.maxExpression [(sad, 0.8%Q)] = Some sad /\
   (0 < Detection.detecting
          (fst (run (Detection.step full_page)
                  (fst (Detection.step full_page Detection.watching
                          (Detection.Detected None 400)))
                  [Detection.Interval 4])))%nat) /\
  snd (Detection.step full_page
         (fst (Detection.step full_page
                 (fst (run (Detection.step full_page)
                         (fst (Detection.step full_page Detection.watching
                                 (Detection.Detected None 400)))
                         [Detection.Interval 4]))
                 (Detection.Detected (Some [(sad, 0.8%Q)]) 600)))
         (Detection.Timeout 1400)) = [].
Proof.
  assert (H : detected_mood full_page = true /\
   (0 < Detection.detecting Detection.watching)%nat /\
   Forall (fun i => Detection.faceless i = true) [Detection.Interval 4] /\
   Detection.maxExpression [(sad, 0.8%Q)] = Some sad /\
   (0 < Detection.detecting
          (fst (run (Detection.step full_page)
                  (fst (Detection.step full_page Detection.watching
                          (Detection.Detected None 400)))
                  [Detection.Interval 4])))%nat).
  { split; [reflexivity|]. split; [vm_compute; lia|].
    split; [repeat constructor|]. split; [reflexivity|]. vm_compute. lia. }
  split; [exact H|].
  destruct H as (H1 & H2 & H3 & H4 & H5).
  destruct (no_face_is_debounced full_page Detection.watching [Detection.Interval 4]
              [(sad, 0.8%Q)] sad 400 600 1400 H1 H2 H3 H4)
    as (_ & _ & _ & _ & _ & Hface).
  exact (proj1 (proj2 (Hface H5))).
Defined.

(** ** Functional commands *)

Section CommandFacts.
Import MaitriCommands.

(** A turn of the loop begins with a call of [fetch]. *)
Lemma loop_starts_with_fetch (network : nat -> MaitriAssistant.FetchResult)
    (n : nat) (i delay : Z) :
  exists rest,
    fst (MaitriAssistant.loop network (Datatypes.S n) i delay) = MaitriAssistant.Fetch :: rest.
Proof.
  cbn [MaitriAssistant.loop].
  destruct (network (Z.to_nat i)) as [|status body]; [by eexists|].
  destruct (MaitriAssistant.ok status).
  - destruct body as [| |text]; by eexists.
  - destruct ((status =? 429) && (i <? MaitriAssistant.maxRetries - 1)); [|by eexists].
    destruct (MaitriAssistant.loop network n (i + 1) (delay * 2)) as [out r].
    by eexists.
Qed.

(** The remote call begins with a call of [fetch]. *)
Lemma remote_call_starts_with_fetch (network : nat -> MaitriAssistant.FetchResult) :
  exists rest, MaitriAssistant.analyzeToneAndRespond network = MaitriAssistant.Fetch :: rest.
Proof.
  unfold MaitriAssistant.analyzeToneAndRespond.
  change (Z.to_nat MaitriAssistant.maxRetries) with 3%nat.
  destruct (loop_starts_with_fetch network 2 0 1000) as [rest Hrest].
  destruct (MaitriAssistant.loop network 3 0 1000) as [out r].
  cbn [fst] in Hrest. subst out.
  destruct r as [[text|]|e]; by eexists.
Qed.

(** A command that is handled makes no effect of the remote call. *)
Lemma handled_without_remote (env : Env) (doc : Document) (self : Detection.t)
    (command : jsstring) (now : Z) (e : MaitriAssistant.Effect) :
  ~ In (Remote e) (snd (handleFunctionalCommands env doc self command now)).
Proof.
  unfold handleFunctionalCommands.
  repeat match goal with
         | |- context [if ?b then _ else _] => destruct b
         | |- context [let '(_, _) := ?p in _] => destruct p
         end; cbn [snd]; rewrite ?in_app_iff, ?in_map_iff; simpl;
    intros H; decompose [or ex and] H; congruence.
Qed.

(** The value returned says whether a needle occurred. *)
Lemma handled_iff_keyword (env : Env) (doc : Document) (self : Detection.t)
    (command : jsstring) (now : Z) :
  fst (fst (handleFunctionalCommands env doc self command now)) = false <->
  Forall (fun k => mentions env command k = false) keywords.
Proof.
  unfold keywords, mentions, handleFunctionalCommands.
  rewrite !Forall_cons_iff.
  repeat match goal with
         | |- context [includes ?s (lit ?k)] =>
             let H := fresh "H" in destruct (includes s (lit k)) eqn:H
         end; cbn [orb];
  repeat match goal with
         | |- context [if ?b then _ else _] => destruct b
         | |- context [let '(_, _) := ?p in _] => destruct p
         end; cbn [fst]; split; intros Hx; try discriminate; try done;
    decompose [and] Hx; congruence.
Qed.

(** A command that is not handled leaves everything as it was. *)
Lemma unhandled_does_nothing (env : Env) (doc : Document) (self : Detection.t)
    (command : jsstring) (now : Z) :
  fst (fst (handleFunctionalCommands env doc self command now)) = false ->
  handleFunctionalCommands env doc self command now = (false, self, []).
Proof.
  unfold handleFunctionalCommands.
  repeat match goal with
         | |- context [if ?b then _ else _] => destruct b
         | |- context [let '(_, _) := ?p in _] => destruct p
         end; cbn [fst]; done.
Qed.

End CommandFacts.

(** X17.  The assistant calls the remote service exactly for a query of five
    code units or more in which no command needle occurs once lowercased;
    such a query leaves the camera alone, navigates nowhere, and the text
    "Analyzing your words for emotional markers..." is shown before the
    first call. *)
Theorem remote_call_only_without_command (env : MaitriCommands.Env) (doc : Document)
    (self : Detection.t) (userQuery : jsstring) (now : Z)
    (network : nat -> MaitriAssistant.FetchResult) :
  let r := MaitriCommands.analyzeToneAndRespond env doc self userQuery now network in
  (In (MaitriCommands.Remote MaitriAssistant.Fetch) (snd r) <->
   (5 <= length userQuery)%nat /\
   Forall (fun k => MaitriCommands.mentions env userQuery k = false)
          MaitriCommands.keywords) /\
  (In (MaitriCommands.Remote MaitriAssistant.Fetch) (snd r) ->
   fst r = self /\
   exists rest,
     snd r = MaitriCommands.Display MaitriCommands.analyzingMessage ::
             MaitriCommands.Remote MaitriAssistant.Fetch ::
             map MaitriCommands.Remote rest).
Proof.
  intros r. subst r. unfold MaitriCommands.analyzeToneAndRespond.
  destruct (Z.ltb_spec (Z.of_nat (length userQuery)) 5) as [Hshort|Hlong].
  - cbn [fst snd]. split.
    + split.
      * simpl. intros [H|[H|[]]]; discriminate.
      * intros [H _]. lia.
    + simpl. intros [H|[H|[]]]; discriminate.
  - pose proof (handled_iff_keyword env doc self userQuery now) as Hkey.
    pose proof (unhandled_does_nothing env doc self userQuery now) as Hun.
    pose proof (handled_without_remote env doc self userQuery now MaitriAssistant.Fetch) as Hno.
    destruct (MaitriCommands.handleFunctionalCommands env doc self userQuery now)
      as [[handled self1] out].
    cbn [fst snd] in *.
    destruct (remote_call_starts_with_fetch network) as [rest Hrest].
    destruct handled.
    + cbn [fst snd]. split; [|done]. split; [done|].
      intros [_ H]. apply Hkey in H. discriminate.
    + specialize (Hun eq_refl). injection Hun as -> ->. cbn [fst snd app].
      rewrite Hrest. cbn [map]. split.
      * split; [intros _|intros _; right; by left].
        split; [lia|by apply Hkey].
      * intros _. split; [done|]. by exists rest.
Qed.

(** X18.  A query in which "time" occurs once lowercased never reaches the
    commands tried after it nor the remote service: the camera is left as
    it is, nothing is dispatched or navigated, and the only thing said is
    the short-query message, the status message or the time. *)
Theorem time_shadows_later_commands (env : MaitriCommands.Env) (doc : Document)
    (self : Detection.t) (userQuery : jsstring) (now : Z)
    (network : nat -> MaitriAssistant.FetchResult) :
  MaitriCommands.mentions env userQuery "time" = true ->
  let r := MaitriCommands.analyzeToneAndRespond env doc self userQuery now network in
  fst r = self /\
  MaitriCommands.dispatched (snd r) = [] /\
  MaitriCommands.navigated (snd r) = [] /\
  (forall e, ~ In (MaitriCommands.Remote e) (snd r)) /\
  MaitriCommands.said (snd r) =
    [ if Z.of_nat (length userQuery) <? 5 then MaitriCommands.shortMessage
      else if MaitriCommands.mentions env userQuery "check my status" ||
              MaitriCommands.mentions env userQuery "how am i doing"
           then MaitriCommands.statusMessage
           else MaitriCommands.timeMessage env ].
Proof.
  intros Htime r. subst r. unfold MaitriCommands.mentions in *.
  unfold MaitriCommands.analyzeToneAndRespond, MaitriCommands.handleFunctionalCommands.
  rewrite Htime.
  destruct (Z.of_nat (length userQuery) <? 5);
    [|destruct (includes _ (lit "check my status") || includes _ (lit "how am i doing"))];
    cbn [fst snd]; repeat split; try done;
    intros e; simpl; intros H; decompose [or] H; congruence.
Qed.

(** "Stop camera this time" is answered with the time. *)
Lemma time_shadows_later_commands_witness :
  MaitriCommands.mentions MaitriCommands.browser (lit "Stop camera this time") "time" = true /\
  fst (MaitriCommands.analyzeToneAndRespond MaitriCommands.browser full_page
         Detection.watching (lit "Stop camera this time") 300
         MaitriAssistant.always_429) = Detection.watching.
Proof.
  assert (H : MaitriCommands.mentions MaitriCommands.browser
                (lit "Stop camera this time") "time" = true) by (vm_compute; reflexivity).
  split; [exact H|].
  exact (proj1 (time_shadows_later_commands MaitriCommands.browser full_page
                  Detection.watching (lit "Stop camera this time") 300
                  MaitriAssistant.always_429 H)).
Defined.

(** X19.  Asking to start the camera while it runs stops it.  With the
    camera on and its button on the page, enabled and listening, a command
    in which "start camera" occurs, and none of the needles tried before
    it, clicks the button: the camera is switched off, the button reads
    "Start Camera" again, the emotion is cleared (and dispatched as absent
    if one was set), and the assistant says it is starting the camera. *)
Theorem start_camera_command_stops_running_camera (env : MaitriCommands.Env)
    (doc : Document) (self : Detection.t) (command : jsstring) (now : Z) :
  detected_mood doc = true ->
  MaitriCommands.camera_btn env = true ->
  Detection.cameraBtn_disabled self = false ->
  Detection.listeners self = true ->
  Detection.isCameraOn self = true ->
  MaitriCommands.mentions env command "start camera" = true ->
  Forall (fun k => MaitriCommands.mentions env command k = false)
         (take 5 MaitriCommands.keywords) ->
  let r := MaitriCommands.handleFunctionalCommands env doc self command now in
  fst (fst r) = true /\
  Detection.isCameraOn (snd (fst r)) = false /\
  Detection.cameraBtn_text (snd (fst r)) = lit "Start Camera" /\
  FaceMoodDetection.lastEmotion (fst (Detection.tracker (snd (fst r)))) = None /\
  snd r =
    map MaitriCommands.Dispatch
      (if decide (FaceMoodDetection.lastEmotion (fst (Detection.tracker self)) = None)
       then [] else [emotionchange None now]) ++
    [MaitriCommands.Speak MaitriCommands.startingMessage].
Proof.
  intros moodEl Hbtn Hdis Hlis Hon Hstart Hnone r. subst r.
  cbn [take MaitriCommands.keywords] in Hnone.
  rewrite !Forall_cons_iff in Hnone. destruct Hnone as (H1 & H2 & H3 & H4 & H5 & _).
  unfold MaitriCommands.mentions in *. unfold MaitriCommands.handleFunctionalCommands.
  rewrite H1, H2, H3, H4, H5, Hstart, Hbtn, Hdis. cbn [orb andb negb].
  unfold Detection.click. rewrite Hdis, Hlis, Hon. cbn [orb negb].
  unfold Detection.stopCamera.
  match goal with
  | |- context [Detection.updateCurrentEmotion doc ?s None now] => set (s1 := s)
  end.
  pose proof (detection_update_events doc moodEl s1 None now) as Hev.
  pose proof (detection_update_last doc moodEl s1 None now) as Hlast.
  pose proof (detection_update_fields doc s1 None now) as (Hcam & _).
  destruct (Detection.updateCurrentEmotion doc s1 None now) as [s2 evs].
  cbn [fst snd] in *. unfold Detection.updateCameraUI.
  cbn [Detection.isCameraOn Detection.cameraBtn_text Detection.tracker].
  rewrite Hcam. cbn [s1 Detection.isCameraOn Detection.tracker] in *.
  repeat split; try done.
  rewrite Hev. by repeat case_decide.
Qed.

(** The camera watches a sad face and the user says "Start camera". *)
Lemma start_camera_command_stops_running_camera_witness :
  (detected_mood full_page = true /\
   MaitriCommands.camera_btn MaitriCommands.browser = true /\
   Detection.cameraBtn_disabled Detection.watching = false /\
   Detection.listeners Detection.watching = true /\
   Detection.isCameraOn Detection.watching = true /\
   MaitriCommands.mentions MaitriCommands.browser (lit "Start camera") "start camera" = true /\
   Forall (fun k => MaitriCommands.mentions MaitriCommands.browser (lit "Start camera") k = false)
          (take 5 MaitriCommands.keywords)) /\
  Detection.isCameraOn
    (snd (fst (MaitriCommands.handleFunctionalCommands MaitriCommands.browser full_page
                 Detection.watching (lit "Start camera") 300))) = false.
Proof.
  assert (H : detected_mood full_page = true /\
   MaitriCommands.camera_btn MaitriCommands.browser = true /\
   Detection.cameraBtn_disabled Detection.watching = false /\
   Detection.listeners Detection.watching = true /\
   Detection.isCameraOn Detection.watching = true /\
   MaitriCommands.mentions MaitriCommands.browser (lit "Start camera") "start camera" = true /\
   Forall (fun k => MaitriCommands.mentions MaitriCommands.browser (lit "Start camera") k = false)
          (take 5 MaitriCommands.keywords)).
  { repeat split. cbn [take MaitriCommands.keywords].
    repeat constructor; vm_compute; reflexivity. }
  split; [exact H|].
  destruct H as (H1 & H2 & H3 & H4 & H5 & H6 & H7).
  exact (proj1 (proj2 (start_camera_command_stops_running_camera MaitriCommands.browser
                         full_page Detection.watching (lit "Start camera") 300
                         H1 H2 H3 H4 H5 H6 H7))).
Defined.

Section DetectionTrace.
Import Detection.
Variable doc : Document.

(** A call of the tracker's [updateCurrentEmotion] changes nothing and
    dispatches nothing, or records a value in both places and dispatches
    it. *)
Lemma tracker_update_cases (st : FaceMoodDetection.t * Window) (arg : option Emotion * Z) :
  FaceMoodDetection.updateCurrentEmotion doc st arg = (st, []) \/
  exists o now,
    FaceMoodDetection.updateCurrentEmotion doc st arg =
    (({| FaceMoodDetection.lastEmotion := o |}, {| currentEmotion := o |}),
     [emotionchange o now]).
Proof.
  destruct st as [self w], arg as [o now]. unfold FaceMoodDetection.updateCurrentEmotion.
  destruct (negb (detected_mood doc)); [by left|].
  destruct o as [e|]; destruct (bool_decide _); try (by left); right; by eexists _, _.
Qed.

Lemma detection_update_cases (self : t) (o : option Emotion) (now : Z) :
  let r := updateCurrentEmotion doc self o now in
  (tracker (fst r) = tracker self /\ snd r = []) \/
  exists o' now',
    tracker (fst r) =
      ({| FaceMoodDetection.lastEmotion := o' |}, {| currentEmotion := o' |}) /\
    snd r = [emotionchange o' now'].
Proof.
  unfold updateCurrentEmotion.
  destruct (tracker_update_cases (tracker self) (o, now)) as [H|(o' & now' & H)];
    rewrite H; cbn [fst snd tracker]; [by left|right; by eexists _, _].
Qed.

(** The same holds of every input of the detection object. *)
Lemma detection_step_cases (self : t) (i : Input) :
  let r := step doc self i in
  (tracker (fst r) = tracker self /\ snd r = []) \/
  exists o now,
    tracker (fst r) =
      ({| FaceMoodDetection.lastEmotion := o |}, {| currentEmotion := o |}) /\
    snd r = [emotionchange o now].
Proof.
  destruct i as [success|now| |readyState|detection now|now]; cbn [step].
  - by left.
  - unfold click. destruct (cameraBtn_disabled self || negb (listeners self)); [by left|].
    destruct (isCameraOn self); [|by left]. unfold stopCamera.
    match goal with
    | |- context [updateCurrentEmotion doc ?s None now] =>
        pose proof (detection_update_cases s None now) as H;
        destruct (updateCurrentEmotion doc s None now) as [s2 evs]
    end.
    exact H.
  - by left.
  - unfold detectEmotion. destruct (_ || _); by left.
  - unfold detected. destruct (detecting self) as [|n]; [by left|].
    destruct detection as [entries|]; [|by left].
    destruct (maxExpression entries) as [name|]; [|by left].
    match goal with
    | |- context [updateCurrentEmotion doc ?s (Some name) now] =>
        exact (detection_update_cases s (Some name) now)
    end.
  - unfold timeout. destruct (timeouts self) as [|n]; [by left|].
    cbn [faceDetected]. destruct (negb (faceDetected self)); [|by left].
    match goal with
    | |- context [updateCurrentEmotion doc ?s None now] =>
        exact (detection_update_cases s None now)
    end.
Qed.

(** After any inputs the global mirrors the field, and both hold the
    emotion of the last event dispatched, if any. *)
Lemma detection_run_tracker (inputs : list Input) (self : t) :
  let r := run (step doc) self inputs in
  currentEmotion (snd (tracker self)) = FaceMoodDetection.lastEmotion (fst (tracker self)) ->
  currentEmotion (snd (tracker (fst r))) = FaceMoodDetection.lastEmotion (fst (tracker (fst r))) /\
  FaceMoodDetection.lastEmotion (fst (tracker (fst r))) =
    default (FaceMoodDetection.lastEmotion (fst (tracker self)))
            (last (FaceMoodDetection.emitted (snd r))) /\
  Forall (fun ev => exists o now, ev = emotionchange o now) (snd r).
Proof.
  induction inputs as [|i inputs IH] using rev_ind; intros r Hself; subst r.
  - done.
  - rewrite run_snoc. cbn [fst snd]. destruct (IH Hself) as (IH1 & IH2 & IH3). clear IH.
    destruct (detection_step_cases (fst (run (step doc) self inputs)) i)
      as [[Htr Hout]|(o & now & Htr & Hout)]; cbn zeta in *; rewrite Htr, Hout.
    + rewrite app_nil_r. done.
    + cbn [fst snd FaceMoodDetection.lastEmotion currentEmotion]. split; [done|]. split.
      * unfold FaceMoodDetection.emitted. rewrite flat_map_app. simpl.
        by rewrite last_snoc.
      * apply Forall_app. split; [done|]. constructor; [by eexists _, _|constructor].
Qed.

End DetectionTrace.

(** X20.  The voice command for the games obeys the last event.  After any
    inputs to the detection object of a freshly loaded page, a command in
    which "open games" occurs, and none of the needles tried before it,
    navigates to the games page exactly when the last [emotionchange]
    dispatched carried sad, which is exactly when a click on the games
    link would be followed; otherwise it only speaks.  The camera is left
    as it is. *)
Theorem open_games_command_follows_last_event (env : MaitriCommands.Env)
    (doc : Document) (disabled : bool) (text : jsstring)
    (inputs : list Detection.Input) (command : jsstring) (now : Z) :
  MaitriCommands.mentions env command "open games" = true ->
  Forall (fun k => MaitriCommands.mentions env command k = false)
         (take 7 MaitriCommands.keywords) ->
  let d := run (Detection.step doc) (Detection.new disabled text) inputs in
  let r := MaitriCommands.handleFunctionalCommands env doc (fst d) command now in
  fst r = (true, fst d) /\
  snd r =
    (if decide (last (FaceMoodDetection.emitted (snd d)) = Some (Some sad))
     then [MaitriCommands.Navigate "games.html"]
     else [MaitriCommands.Speak MaitriCommands.gamesMessage]) /\
  (last (FaceMoodDetection.emitted (snd d)) = Some (Some sad) <->
   PlayLink.onClick (snd (Detection.tracker (fst d))) = PlayLink.Follow).
Proof.
  intros Hgames Hnone d r.
  cbn [take MaitriCommands.keywords] in Hnone.
  rewrite !Forall_cons_iff in Hnone.
  destruct Hnone as (H1 & H2 & H3 & H4 & H5 & H6 & H7 & _).
  destruct (detection_run_tracker doc inputs (Detection.new disabled text) eq_refl)
    as (Hmirror & Hlast & _).
  fold d in Hmirror, Hlast. cbn [Detection.new Detection.tracker fst FaceMoodDetection.new
                                 FaceMoodDetection.lastEmotion] in Hlast.
  assert (Hsad : currentEmotion (snd (Detection.tracker (fst d))) = Some sad <->
                 last (FaceMoodDetection.emitted (snd d)) = Some (Some sad)).
  { rewrite Hmirror, Hlast.
    destruct (last (FaceMoodDetection.emitted (snd d))) as [[e|]|]; simpl; split; congruence. }
  subst r. unfold MaitriCommands.mentions in *.
  unfold MaitriCommands.handleFunctionalCommands.
  rewrite H1, H2, H3, H4, H5, H6, H7, Hgames. cbn [orb].
  unfold PlayLink.onClick.
  split; [by case_bool_decide|]. split.
  - case_bool_decide as Hc; case_decide as Hd; try done; exfalso; tauto.
  - rewrite <- Hsad. case_bool_decide as Hc; split; try done; intros Hx; tauto.
Qed.

(** A sad face is watched and the user says "Open games". *)
Lemma open_games_command_follows_last_event_witness :
  (MaitriCommands.mentions MaitriCommands.browser (lit "Open games") "open games" = true /\
   Forall (fun k => MaitriCommands.mentions MaitriCommands.browser (lit "Open games") k = false)
          (take 7 MaitriCommands.keywords)) /\
  snd (MaitriCommands.handleFunctionalCommands MaitriCommands.browser full_page
         (fst (run (Detection.step full_page) (Detection.new true (lit "Start Camera"))
                 [Detection.ModelsLoaded true; Detection.CameraGranted; Detection.Interval 4;
                  Detection.Detected (Some [(sad, 0.9%Q)]) 200]))
         (lit "Open games") 300) =
  [MaitriCommands.Navigate "games.html"].
Proof.
  assert (H : MaitriCommands.mentions MaitriCommands.browser (lit "Open games") "open games" = true /\
   Forall (fun k => MaitriCommands.mentions MaitriCommands.browser (lit "Open games") k = false)
          (take 7 MaitriCommands.keywords)).
  { split; [vm_compute; reflexivity|]. cbn [take MaitriCommands.keywords].
    repeat constructor; vm_compute; reflexivity. }
  split; [exact H|]. destruct H as [H1 H2].
  exact (proj1 (proj2 (open_games_command_follows_last_event MaitriCommands.browser
                         full_page true (lit "Start Camera")
                         [Detection.ModelsLoaded true; Detection.CameraGranted;
                          Detection.Interval 4;
                          Detection.Detected (Some [(sad, 0.9%Q)]) 200]
                         (lit "Open games") 300 H1 H2))).
Defined.

(** ** The microphone toggle *)

Section ToggleFacts.
Import VoiceToggle.
Variable recognition : bool.

(** A click flips the variable of the dashboard; the recognition events
    leave it. *)
Lemma toggle_step_isListening (self : t) (i : Input) :
  isListening (fst (step recognition self i)) =
  match i with Click _ _ => negb (isListening self) | _ => isListening self end.
Proof.
  destruct i as [speaking throws|error|shown]; cbn [step]; [|done|done].
  unfold handleVoiceToggle, startListening, stopListening. cbn [isListening].
  destruct (negb (isListening self)) eqn:H; [|done].
  by destruct (negb recognition).
Qed.

(** The assistant listens only while the dashboard says so. *)
Lemma toggle_step_assistant (self : t) (i : Input) :
  (assistant_isListening self = true -> isListening self = true) ->
  assistant_isListening (fst (step recognition self i)) = true ->
  isListening (fst (step recognition self i)) = true.
Proof.
  intros Hinv. destruct i as [speaking throws|error|shown]; cbn [step]; [|done|done].
  unfold handleVoiceToggle, startListening, stopListening. cbn [isListening].
  destruct (isListening self) eqn:H; cbn [negb fst assistant_isListening isListening].
  - done.
  - destruct (negb recognition); cbn [fst assistant_isListening isListening]; [|done].
    intros Ha. apply Hinv in Ha. discriminate.
Qed.

Lemma toggle_run (inputs : list Input) :
  let s := fst (run (step recognition) init inputs) in
  isListening s = Nat.odd (clicks inputs) /\
  (assistant_isListening s = true -> isListening s = true).
Proof.
  induction inputs as [|i inputs IH] using rev_ind; [done|].
  cbn zeta in *. rewrite run_snoc. cbn [fst]. destruct IH as [IH1 IH2]. split.
  - rewrite toggle_step_isListening, IH1.
    assert (Hc : forall xs, clicks (xs ++ [i]) =
                   (clicks xs + match i with Click _ _ => 1 | _ => 0 end)%nat).
    { induction xs as [|x xs IHx]; [by destruct i|]. simpl. rewrite IHx. by destruct x. }
    rewrite Hc. destruct i; rewrite ?Nat.add_0_r; [|done|done].
    by rewrite Nat.add_1_r, Nat.odd_succ, <- Nat.negb_odd.
  - by apply toggle_step_assistant.
Qed.

End ToggleFacts.

(** X21.  The microphone toggle follows the parity of the clicks and
    nothing else.  After any clicks, recognition errors and recognition
    ends, the variable of the dashboard says whether the clicks were odd in
    number, and the assistant is listening only if it does.  With speech
    recognition in the browser, the next click starts the recognition when
    the clicks so far were even in number and stops it when they were odd,
    also when the recognition has ended by itself in between. *)
Theorem toggle_follows_click_parity (recognition : bool)
    (inputs : list VoiceToggle.Input) (speaking throws : bool) :
  let s := fst (run (VoiceToggle.step recognition) VoiceToggle.init inputs) in
  let out := snd (VoiceToggle.step recognition s (VoiceToggle.Click speaking throws)) in
  VoiceToggle.isListening s = Nat.odd (VoiceToggle.clicks inputs) /\
  (VoiceToggle.assistant_isListening s = true -> VoiceToggle.isListening s = true) /\
  (In VoiceToggle.Start out <->
   recognition = true /\ Nat.even (VoiceToggle.clicks inputs) = true) /\
  (In VoiceToggle.Stop out <->
   recognition = true /\ Nat.odd (VoiceToggle.clicks inputs) = true).
Proof.
  intros s out. destruct (toggle_run recognition inputs) as [Hpar Hinv].
  fold s in Hpar, Hinv. split; [done|]. split; [done|].
  subst out. rewrite <- Nat.negb_odd, <- Hpar. cbn [VoiceToggle.step].
  unfold VoiceToggle.handleVoiceToggle, VoiceToggle.startListening, VoiceToggle.stopListening.
  cbn [VoiceToggle.isListening].
  destruct (VoiceToggle.isListening s), recognition, speaking, throws;
    cbn [negb snd app]; split; split; simpl; intros H;
    decompose [or and] H; try discriminate; try done; auto 10.
Qed.


(** ** The dataset collector *)

Section DatasetFacts.
Import DatasetStore.

(** An input other than [clear] appends one record that says what the
    input was. *)
Lemma dataset_step_appends (records : list Entry) (i : Input) :
  i <> Clear ->
  exists entry, step records i = records ++ [entry] /\ records_input i entry.
Proof.
  intros Hi. destruct i as [e now|ty p now|]; [| |done].
  - destruct e; eexists; (split; [reflexivity|]); by repeat split.
  - by eexists.
Qed.

Lemma dataset_appends (after : list Input) (records : list Entry) :
  Forall (fun i => i <> Clear) after ->
  exists entries,
    after_inputs records after = records ++ entries /\
    Forall2 records_input after entries.
Proof.
  unfold after_inputs. intros Hafter. revert records.
  induction Hafter as [|i after Hi _ IH]; intros records.
  - exists []. by rewrite app_nil_r.
  - destruct (dataset_step_appends records i Hi) as (entry & Hstep & Hentry).
    cbn [fold_left]. rewrite Hstep.
    destruct (IH (records ++ [entry])) as (entries & Hrun & Hall).
    exists (entry :: entries). rewrite Hrun, <- app_assoc. split; [done|].
    by constructor.
Qed.

End DatasetFacts.

(** X22.  The dataset holds what was recorded since it was last cleared.
    After inputs without a call of [clear], [getAll] gives the records
    there were, followed by one record for each event dispatched and each
    call of [add], in order, each with the name of its event, the clock
    reading of its recording and the event's payload.  After a call of
    [clear] followed by such inputs, whatever came before, it gives just
    those records, and the count exported is their number. *)
Theorem dataset_holds_inputs_since_clear (records : list DatasetStore.Entry)
    (before after : list DatasetStore.Input) :
  Forall (fun i => i <> DatasetStore.Clear) after ->
  exists entries,
    Forall2 DatasetStore.records_input after entries /\
    DatasetStore.getAll (DatasetStore.after_inputs records after) = records ++ entries /\
    DatasetStore.getAll
      (DatasetStore.after_inputs records (before ++ DatasetStore.Clear :: after)) = entries /\
    DatasetStore.count
      (DatasetStore.after_inputs records (before ++ DatasetStore.Clear :: after)) =
    Z.of_nat (length after).
Proof.
  intros Hafter.
  destruct (dataset_appends after [] Hafter) as (entries & Hrun & Hall).
  exists entries. split; [done|].
  destruct (dataset_appends after records Hafter) as (entries' & Hrun' & Hall').
  assert (entries' = entries) as ->.
  { clear Hrun Hrun'. revert entries' Hall'.
    induction Hall as [|i e after entries Hie _ IH]; intros entries' Hall'.
    - by inversion Hall'.
    - inversion Hall' as [|? e' ? rest Hie' Hrest]; subst. f_equal.
      + destruct i as [ev now|ty p now|]; simpl in *.
        * destruct e, e'; simpl in *. destruct Hie as (-> & -> & ->).
          destruct Hie' as (-> & -> & ->). done.
        * congruence.
        * done.
      + apply IH; [|done]. by inversion Hafter. }
  split; [done|].
  assert (Hclr : DatasetStore.after_inputs records (before ++ DatasetStore.Clear :: after)
                 = entries).
  { unfold DatasetStore.after_inputs in *. rewrite fold_left_app. cbn [fold_left].
    exact Hrun. }
  split; [done|]. rewrite Hclr. unfold DatasetStore.count. f_equal.
  symmetry. by eapply Forall2_length.
Qed.

(** A heart-rate event is recorded, the store cleared, then a change of
    emotion recorded. *)
Lemma dataset_holds_inputs_since_clear_witness :
  Forall (fun i => i <> DatasetStore.Clear)
         [DatasetStore.Event (emotionchange (Some sad) 200) 201] /\
  DatasetStore.count
    (DatasetStore.after_inputs []
       ([DatasetStore.Event (heartrate 72 72%Q 100) 100] ++
        DatasetStore.Clear :: [DatasetStore.Event (emotionchange (Some sad) 200) 201])) = 1.
Proof.
  assert (H : Forall (fun i => i <> DatasetStore.Clear)
                [DatasetStore.Event (emotionchange (Some sad) 200) 201]).
  { constructor; [discriminate|constructor]. }
  split; [exact H|].
  destruct (dataset_holds_inputs_since_clear []
              [DatasetStore.Event (heartrate 72 72%Q 100) 100]
              [DatasetStore.Event (emotionchange (Some sad) 200) 201] H)
    as (entries & _ & _ & _ & Hcount).
  exact Hcount.
Defined.
